(** * FlowMatic queue backend: ticket lifecycle, transactions, reset/preset

    A shallow embedding of the transactional queue operations of the
    FlowMatic server:

    - [src/database/dbClient.js] : [withTransaction]
    - terminal routes            : [getQueueSnapshot], POST /call-next,
                                   /complete, /recycle, /transfer
    - [src/routes/kiosk.js]      : POST /tickets ([async] handler)
    - system reset service       : [performSystemReset],
                                   [presetServiceQueue]
    - admin routes               : POST /system/preset-queue

    Conventions of the embedding.

    - A table is the list of its rows in rowid order; [SELECT ... WHERE]
      is [filter], [tx.get] is the first row of the result, [UPDATE ...
      WHERE] is [map], [DELETE ... WHERE] is [filter] on the negation.
    - A nullable column is an [option].  DATETIME columns hold the
      instant they denote as epoch milliseconds (the value of
      [new Date(text).getTime()]); every writer in the sources stores
      instants, and text order on one timestamp format is instant order.
    - The clock ([new Date()], [Date.now()]) is an explicit argument.
    - An [async] function that throws is a computation returning [inl]. *)

From Stdlib Require Import ZArith List String Ascii Bool Lia.
From Stdlib Require Import DecimalString DecimalPos Sorted Permutation.
Import ListNotations.

Local Open Scope string_scope.
Local Open Scope Z_scope.

(* ===================================================================== *)
(** ** Rows of the persistent store *)
(* ===================================================================== *)

Inductive ticket_state : Type :=
| waiting | recycled | called | completed | no_show.

Inductive counter_state : Type :=
| offline | available | serving | on_break.

Definition ticket_state_eqb (a b : ticket_state) : bool :=
  match a, b with
  | waiting, waiting | recycled, recycled | called, called
  | completed, completed | no_show, no_show => true
  | _, _ => false
  end.

Definition counter_state_eqb (a b : counter_state) : bool :=
  match a, b with
  | offline, offline | available, available
  | serving, serving | on_break, on_break => true
  | _, _ => false
  end.

(** Table [tickets]. *)
Record ticket : Type := mkTicket {
  t_id : Z;
  ticket_number : string;
  service_id : Z;
  t_state : ticket_state;
  t_priority : Z;
  customer_name : option string;
  customer_phone : option string;
  customer_email : option string;
  created_at : option Z;
  called_at : option Z;
  served_at : option Z;
  completed_at : option Z;
  estimated_wait : option Z;
  actual_wait : option Z;
  service_duration : option Z;
  counter_id : option Z;
  agent_id : option Z;
  original_service_id : option Z;
  transferred_at : option Z;
  recall_count : Z;
  notes : option string
}.

(** Table [services]. *)
Record service : Type := mkService {
  s_id : Z;
  s_name : string;
  prefix : string;
  range_start : option Z;
  range_end : option Z;
  current_number : option Z;
  estimated_service_time : option Z;
  is_active : bool;
  s_priority : Z
}.

(** Table [counters]. *)
Record counter : Type := mkCounter {
  c_id : Z;
  c_state : counter_state;
  current_agent_id : option Z;
  current_ticket_id : option Z;
  default_service_id : option Z
}.

(** Table [agent_services]. *)
Record agent_service : Type := mkAgentService {
  as_agent_id : Z;
  as_service_id : Z;
  as_priority : Z
}.

(** The database file.  [ticket_seq] is the [sqlite_sequence] entry of
    the AUTOINCREMENT table [tickets] (0 when the entry is absent): the
    largest rowid ever handed out. *)
Record store : Type := mkStore {
  tickets : list ticket;
  ticket_seq : Z;
  services : list service;
  counters : list counter;
  agent_services : list agent_service
}.

(* ===================================================================== *)
(** ** Errors and the transaction monad *)
(* ===================================================================== *)

(** A thrown [Error]; [status] is set by [httpError] and absent on a
    plain [new Error(message)]. *)
Record error : Type := mkError {
  status : option Z;
  message : string
}.

Definition httpError (st : Z) (msg : string) : error := mkError (Some st) msg.
Definition plainError (msg : string) : error := mkError None msg.

(** Work done through the transaction client [tx]: it reads and writes
    the rows visible on the connection and either returns or throws.
    Writes made before a throw stay in the returned store; undoing them
    is the job of ROLLBACK. *)
Definition tx (A : Type) : Type := store -> store * (error + A).

Definition ret {A} (a : A) : tx A := fun s => (s, inr a).
Definition throw {A} (e : error) : tx A := fun s => (s, inl e).
Definition bind {A B} (m : tx A) (k : A -> tx B) : tx B :=
  fun s => match m s with
           | (s', inr a) => k a s'
           | (s', inl e) => (s', inl e)
           end.

(** [tx.get] / [tx.all]: a read-only query. *)
Definition query {A} (q : store -> A) : tx A := fun s => (s, inr (q s)).
(** [tx.run]: a statement that changes rows. *)
Definition run (u : store -> store) : tx unit := fun s => (u s, inr tt).
(** [tx.run] of an INSERT, returning [lastID]. *)
Definition run_insert (u : store -> store * Z) : tx Z :=
  fun s => let (s', i) := u s in (s', inr i).

Declare Scope tx_scope.
Delimit Scope tx_scope with tx.
Notation "x <- m ;; k" := (bind m (fun x => k))
  (at level 61, m at next level, right associativity) : tx_scope.
Notation "m ;;; k" := (bind m (fun _ => k))
  (at level 61, right associativity) : tx_scope.

(** [if (cond) throw e]. *)
Definition throw_if (cond : bool) (e : error) : tx unit :=
  if cond then throw e else ret tt.

(* ===================================================================== *)
(** ** dbClient.js: the connection and [withTransaction] *)
(* ===================================================================== *)

(** Transaction-control statements sent through [client.exec]. *)
Inductive tx_stmt : Type :=
| BEGIN (mode : option string)
| COMMIT
| ROLLBACK.

(** The single SQLite connection of the process.  [data] is what
    statements on the connection see; [snapshot] is [Some s] while a
    transaction is open, [s] being the data at its BEGIN; [log] lists the
    transaction-control statements executed so far, oldest first. *)
Record conn : Type := mkConn {
  data : store;
  snapshot : option store;
  log : list tx_stmt
}.

(** [client.exec(sql)] for the three control statements, with SQLite's
    rules: no nested BEGIN, COMMIT and ROLLBACK need an open transaction.
    A refused statement changes nothing and is not logged. *)
Definition exec (q : tx_stmt) (c : conn) : conn * (error + unit) :=
  match q, snapshot c with
  | BEGIN _, Some _ =>
      (c, inl (plainError "cannot start a transaction within a transaction"))
  | BEGIN _, None =>
      (mkConn (data c) (Some (data c)) (log c ++ [q]), inr tt)
  | COMMIT, Some _ =>
      (mkConn (data c) None (log c ++ [q]), inr tt)
  | COMMIT, None =>
      (c, inl (plainError "cannot commit - no transaction is active"))
  | ROLLBACK, Some s =>
      (mkConn s None (log c ++ [q]), inr tt)
  | ROLLBACK, None =>
      (c, inl (plainError "cannot rollback - no transaction is active"))
  end.

(** Statements issued by [work] act on [data] only. *)
Definition run_work {A} (work : tx A) (c : conn) : conn * (error + A) :=
  let (d, r) := work (data c) in
  (mkConn d (snapshot c) (log c), r).

Definition upcase_ascii (a : ascii) : ascii :=
  let n := nat_of_ascii a in
  if (andb (Nat.leb 97 n) (Nat.leb n 122)) then ascii_of_nat (n - 32) else a.

Fixpoint toUpperCase (s : string) : string :=
  match s with
  | EmptyString => EmptyString
  | String a r => String (upcase_ascii a) (toUpperCase r)
  end.

(** [options.mode ? options.mode.toUpperCase() : null]; the empty string
    is falsy. *)
Definition begin_mode (mode : option string) : option string :=
  match mode with
  | Some "" => None
  | Some m => Some (toUpperCase m)
  | None => None
  end.

(** [withTransaction(work, options)].  BEGIN is outside the [try]: when
    it fails the error propagates and nothing else runs.  In the [try],
    [work] then COMMIT; any throw there goes to the [catch], which issues
    ROLLBACK (swallowing a failure of the ROLLBACK itself) and rethrows
    the error it caught. *)
Definition withTransaction {A} (work : tx A) (mode : option string)
    (c : conn) : conn * (error + A) :=
  match exec (BEGIN (begin_mode mode)) c with
  | (c0, inl e) => (c0, inl e)
  | (c1, inr _) =>
      match run_work work c1 with
      | (c2, inr result) =>
          match exec COMMIT c2 with
          | (c3, inr _) => (c3, inr result)
          | (c3, inl e) => (fst (exec ROLLBACK c3), inl e)
          end
      | (c2, inl e) => (fst (exec ROLLBACK c2), inl e)
      end
  end.

(** A connection with no transaction open. *)
Definition idle (c : conn) : Prop := snapshot c = None.

Definition open_conn (s : store) : conn := mkConn s None [].

(* ===================================================================== *)
(** ** JavaScript and SQL helpers *)
(* ===================================================================== *)

(** [column = ?] on a nullable integer column: NULL equals nothing. *)
Definition col_eqb (col : option Z) (v : Z) : bool :=
  match col with
  | Some x => x =? v
  | None => false
  end.

(** Truthiness of a nullable number: [null] and [0] are falsy. *)
Definition truthy (v : option Z) : bool :=
  match v with
  | Some n => negb (n =? 0)
  | None => false
  end.

(** [v || d] on a nullable number. *)
Definition or_else (v : option Z) (d : Z) : Z :=
  match v with
  | Some n => if n =? 0 then d else n
  | None => d
  end.

(** [v ?? d]. *)
Definition nullish (v : option Z) (d : Z) : Z :=
  match v with
  | Some n => n
  | None => d
  end.

(** [text || null] on a nullable string: the empty string is falsy. *)
Definition text_or_null (v : option string) : option string :=
  match v with
  | Some "" => None
  | other => other
  end.

(** [String(n)] for an integer. *)
Definition String_of (n : Z) : string := NilZero.string_of_int (Z.to_int n).

(** [s.padStart(n, c)] with a one-character filler. *)
Definition padStart (n : nat) (c : ascii) (s : string) : string :=
  string_of_list_ascii (repeat c (n - String.length s)) ++ s.

(** [`${prefix}${String(numberValue).padStart(3, '0')}`]. *)
Definition format_ticket_number (pfx : string) (numberValue : Z) : string :=
  pfx ++ padStart 3 "0"%char (String_of numberValue).

(** [Math.floor(ms / 1000)] on an integer number of milliseconds. *)
Definition floor_seconds (ms : Z) : Z := ms / 1000.

(** Stable sort behind [ORDER BY]: rows that compare equal keep the
    order of the scan. *)
Section Sorting.
Context {A : Type}.
Variable le : A -> A -> bool.

Fixpoint insert_sorted (x : A) (l : list A) : list A :=
  match l with
  | [] => [x]
  | y :: r => if le x y then x :: l else y :: insert_sorted x r
  end.

Fixpoint order_by (l : list A) : list A :=
  match l with
  | [] => []
  | x :: r => insert_sorted x (order_by r)
  end.
End Sorting.

(** Ascending order on a nullable instant; SQLite puts NULL first. *)
Definition instant_leb (a b : option Z) : bool :=
  match a, b with
  | None, _ => true
  | Some _, None => false
  | Some x, Some y => x <=? y
  end.

Definition instant_eqb (a b : option Z) : bool :=
  match a, b with
  | None, None => true
  | Some x, Some y => x =? y
  | _, _ => false
  end.

(** [ORDER BY priority DESC, created_at ASC] on ticket rows. *)
Definition priority_desc_created_asc (a b : ticket) : bool :=
  (t_priority b <? t_priority a)
  || ((t_priority a =? t_priority b)
      && instant_leb (created_at a) (created_at b)).

(** [FROM tickets t JOIN services s ON t.service_id = s.id], as a
    nested loop over the two tables. *)
Definition join_services (ts : list ticket) (svs : list service)
  : list (ticket * service) :=
  flat_map
    (fun t =>
       map (fun sv => (t, sv))
           (filter (fun sv => service_id t =? s_id sv) svs))
    ts.

Definition tickets_join_services (s : store) : list (ticket * service) :=
  join_services (tickets s) (services s).

(** [UPDATE tickets SET ... WHERE id = ?]. *)
Definition update_ticket (tid : Z) (f : ticket -> ticket) (s : store) : store :=
  mkStore
    (map (fun t => if t_id t =? tid then f t else t) (tickets s))
    (ticket_seq s) (services s) (counters s) (agent_services s).

(** [UPDATE counters SET ... WHERE id = ?]. *)
Definition update_counter (cid : Z) (f : counter -> counter) (s : store)
  : store :=
  mkStore
    (tickets s) (ticket_seq s) (services s)
    (map (fun c => if c_id c =? cid then f c else c) (counters s))
    (agent_services s).

(** [UPDATE services SET current_number = ? WHERE id = ?]. *)
Definition set_current_number (sid : Z) (n : Z) (s : store) : store :=
  mkStore
    (tickets s) (ticket_seq s)
    (map (fun sv =>
            if s_id sv =? sid
            then mkService (s_id sv) (s_name sv) (prefix sv) (range_start sv)
                   (range_end sv) (Some n) (estimated_service_time sv)
                   (is_active sv) (s_priority sv)
            else sv)
         (services s))
    (counters s) (agent_services s).

(** [DELETE FROM tickets WHERE id = ?]. *)
Definition delete_ticket (tid : Z) (s : store) : store :=
  mkStore
    (filter (fun t => negb (t_id t =? tid)) (tickets s))
    (ticket_seq s) (services s) (counters s) (agent_services s).

(** Largest rowid present in [tickets] (0 on an empty table). *)
Definition max_ticket_id (l : list ticket) : Z :=
  fold_right (fun t m => Z.max (t_id t) m) 0 l.

(** Modelled from the spec: the schema file [init.sql] is not among the
    sources; a ticket id is a "store-assigned identity" drawn from the
    store's "auto-increment sequence for tickets", which the reset
    service clears through [sqlite_sequence].  The rowid given to the
    next inserted ticket is one more than the larger of the recorded
    sequence and the largest rowid present. *)
Definition next_ticket_id (s : store) : Z :=
  Z.max (ticket_seq s) (max_ticket_id (tickets s)) + 1.

(** [INSERT INTO tickets ...]: [row] builds the row from its rowid; the
    result carries [lastID]. *)
Definition insert_ticket (row : Z -> ticket) (s : store) : store * Z :=
  let i := next_ticket_id s in
  (mkStore (tickets s ++ [row i]) i (services s) (counters s)
     (agent_services s), i).

(** Modelled from the spec: the column defaults of the schema file
    [init.sql], which is not among the sources.  The row an INSERT that
    lists no column would create at instant [now]: state [waiting],
    priority 0, [created_at] the instant of the insertion, [recall_count]
    0, no counter, no agent, every other nullable column NULL.  The
    INSERTs below take from it the columns they do not list. *)
Definition default_row (newId now : Z) : ticket :=
  mkTicket newId "" 0 waiting 0 None None None
    (Some now) None None None None None None None None None None 0 None.

(** The counter is released:
    [UPDATE counters SET current_ticket_id = NULL, state = 'available']. *)
Definition release_counter (c : counter) : counter :=
  mkCounter (c_id c) available (current_agent_id c) None
    (default_service_id c).

(** [parsePositiveInt(value, field)]; an absent or non-numeric value is
    [None]. *)
Definition parsePositiveInt (value : option Z) (field : string)
  : error + Z :=
  match value with
  | Some parsed =>
      if parsed <=? 0
      then inl (httpError 400 (field ++ " must be a positive integer"))
      else inr parsed
  | None => inl (httpError 400 (field ++ " must be a positive integer"))
  end.

(** [value ? parsePositiveInt(value, field) : dflt]. *)
Definition parseOptionalPositiveInt (value : option Z) (field : string)
    (dflt : option Z) : error + option Z :=
  if truthy value
  then match parsePositiveInt value field with
       | inr n => inr (Some n)
       | inl e => inl e
       end
  else inr dflt.

(* ===================================================================== *)
(** ** getQueueSnapshot *)
(* ===================================================================== *)

(** One entry of [snapshot.tickets]; the camelCase aliases of the source
    repeat these fields. *)
Record snapshot_ticket : Type := mkSnapshotTicket {
  q_id : Z;
  q_ticket_number : string;
  q_service_id : Z;
  q_priority : Z;
  q_created_at : option Z;
  q_estimated_wait : option Z;
  q_customer_name : option string;
  q_customer_phone : option string;
  q_state : ticket_state;
  q_isRecycled : bool
}.

Record queue_snapshot : Type := mkSnapshot {
  snap_serviceId : Z;
  snap_waiting : Z;
  snap_serving : Z;
  snap_tickets : list snapshot_ticket
}.

Definition count_state (serviceId : Z) (st : ticket_state) (s : store) : Z :=
  Z.of_nat
    (List.length
       (filter (fun t => (service_id t =? serviceId)
                         && ticket_state_eqb (t_state t) st)
               (tickets s))).

(** The second query of [getQueueSnapshot]: the waiting and recycled
    rows of the service in display order. *)
Definition waiting_rows (serviceId : Z) (s : store) : list ticket :=
  order_by priority_desc_created_asc
    (filter (fun t => (service_id t =? serviceId)
                      && (ticket_state_eqb (t_state t) waiting
                          || ticket_state_eqb (t_state t) recycled))
            (tickets s)).

Definition snapshot_entry (row : ticket) : snapshot_ticket :=
  mkSnapshotTicket (t_id row) (ticket_number row) (service_id row)
    (t_priority row) (created_at row) (estimated_wait row)
    (customer_name row) (customer_phone row) (t_state row)
    (ticket_state_eqb (t_state row) recycled).

(** The snapshot object built from the two queries. *)
Definition build_snapshot (serviceId : Z) (s : store) : queue_snapshot :=
  mkSnapshot serviceId
    (count_state serviceId waiting s + count_state serviceId recycled s)
    (count_state serviceId called s)
    (map snapshot_entry (waiting_rows serviceId s)).

Definition getQueueSnapshot (serviceId : Z) : tx queue_snapshot :=
  query (build_snapshot serviceId).

(* ===================================================================== *)
(** ** POST /call-next *)
(* ===================================================================== *)

(** The request body.  Its fields are JSON integers; a field is [None]
    when it is absent (for a required field [Number(undefined)] is [NaN]
    and the parse fails). *)
Record call_next_body : Type := mkCallNextBody {
  cn_counterId : option Z;
  cn_agentId : option Z;
  cn_serviceId : option Z;
  cn_ticketId : option Z
}.

(** [result.ticket] and [result.queue] of the handler. *)
Record call_next_result : Type := mkCallNextResult {
  cnr_id : Z;
  cnr_number : string;
  cnr_serviceId : Z;
  cnr_serviceName : string;
  cnr_customerName : string;
  cnr_counterId : Z;
  cnr_agentId : Z;
  cnr_calledAt : Z;
  cnr_queue : queue_snapshot
}.

(** [SELECT service_id FROM agent_services WHERE agent_id = ?
     ORDER BY priority]. *)
Definition agent_service_rows (agentId : Z) (s : store) : list agent_service :=
  order_by (fun a b => as_priority a <=? as_priority b)
    (filter (fun a => as_agent_id a =? agentId) (agent_services s)).

(** [SELECT 1 FROM agent_services WHERE agent_id = ? AND service_id = ?]. *)
Definition agent_authorized (agentId serviceId : Z) (s : store) : bool :=
  existsb (fun a => (as_agent_id a =? agentId)
                    && (as_service_id a =? serviceId))
          (agent_services s).

(** [SELECT ... FROM services s WHERE s.id = ? AND s.is_active = 1]. *)
Definition active_service (serviceId : Z) (s : store) : option service :=
  find (fun sv => (s_id sv =? serviceId) && is_active sv) (services s).

(** [FROM counters c JOIN services s ON s.id = c.default_service_id
     WHERE c.id = ? AND s.is_active = 1]. *)
Definition counter_default_service (counterId : Z) (s : store)
  : option service :=
  hd_error
    (flat_map
       (fun c =>
          filter (fun sv => col_eqb (default_service_id c) (s_id sv)
                            && is_active sv)
                 (services s))
       (filter (fun c => c_id c =? counterId) (counters s))).

(** [FROM services WHERE is_active = 1 ORDER BY priority, id LIMIT 1]. *)
Definition first_active_service (s : store) : option service :=
  hd_error
    (order_by
       (fun a b => (s_priority a <? s_priority b)
                   || ((s_priority a =? s_priority b) && (s_id a <=? s_id b)))
       (filter is_active (services s))).

(** The cherry-pick query:
    [... WHERE t.id = ? AND t.state = 'waiting']. *)
Definition waiting_ticket_by_id (ticketId : Z) (s : store)
  : option (ticket * service) :=
  find (fun r => (t_id (fst r) =? ticketId)
                 && ticket_state_eqb (t_state (fst r)) waiting)
       (tickets_join_services s).

(** The next-ticket query:
    [... WHERE t.service_id = ? AND t.state = 'waiting'
         ORDER BY t.created_at LIMIT 1]. *)
Definition next_waiting_ticket (serviceId : Z) (s : store)
  : option (ticket * service) :=
  hd_error
    (order_by
       (fun a b => instant_leb (created_at (fst a)) (created_at (fst b)))
       (filter (fun r => (service_id (fst r) =? serviceId)
                         && ticket_state_eqb (t_state (fst r)) waiting)
               (tickets_join_services s))).

(** [SET state = 'called', called_at = ?, served_at = ?, counter_id = ?,
     agent_id = ?, recall_count = recall_count + 1]. *)
Definition mark_called (now counterId agentId : Z) (t : ticket) : ticket :=
  mkTicket (t_id t) (ticket_number t) (service_id t) called (t_priority t)
    (customer_name t) (customer_phone t) (customer_email t)
    (created_at t) (Some now) (Some now) (completed_at t)
    (estimated_wait t) (actual_wait t) (service_duration t)
    (Some counterId) (Some agentId)
    (original_service_id t) (transferred_at t) (recall_count t + 1)
    (notes t).

(** [SET current_ticket_id = ?, current_agent_id = ?, state = 'serving']. *)
Definition mark_serving (ticketId agentId : Z) (c : counter) : counter :=
  mkCounter (c_id c) serving (Some agentId) (Some ticketId)
    (default_service_id c).

(** The error of the assignment check. *)
Definition not_assigned_error : error :=
  httpError 403 "Agent is not assigned to this service".

(** Service resolution of the branch without [ticketId]. *)
Definition resolve_service (counterId agentId : Z)
    (requestedServiceId : option Z) : tx service :=
  (agentServices <- query (agent_service_rows agentId) ;;
   let hasAssignments := negb (Nat.eqb (List.length agentServices) 0) in
   serviceContext <-
     (if truthy requestedServiceId then
        let sid := nullish requestedServiceId 0 in
        found <- query (active_service sid) ;;
        match found with
        | None => throw (httpError 404 "Requested service not found")
        | Some sv =>
            throw_if
              (hasAssignments
               && negb (existsb (fun row => as_service_id row =? sid)
                                agentServices))
              not_assigned_error ;;;
            ret (Some sv)
        end
      else
        match agentServices with
        | first :: _ => query (active_service (as_service_id first))
        | [] =>
            dflt <- query (counter_default_service counterId) ;;
            match dflt with
            | Some sv => ret (Some sv)
            | None => query first_active_service
            end
        end) ;;
   match serviceContext with
   | None => throw (httpError 400 "Unable to determine service for agent")
   | Some sv => ret sv
   end)%tx.

(** Ticket selection: the cherry-pick branch or the next-in-queue
    branch. *)
Definition select_ticket (counterId agentId : Z)
    (requestedServiceId requestedTicketId : option Z)
  : tx (ticket * service) :=
  (if truthy requestedTicketId then
     picked <- query (waiting_ticket_by_id (nullish requestedTicketId 0)) ;;
     match picked with
     | None =>
         throw (httpError 404 "Requested ticket is not available for calling")
     | Some row =>
         authorized <- query (agent_authorized agentId
                                (service_id (fst row))) ;;
         throw_if (negb authorized)
           (httpError 403 "Agent is not authorized for this service") ;;;
         ret row
     end
   else
     serviceContext <- resolve_service counterId agentId requestedServiceId ;;
     next <- query (next_waiting_ticket (s_id serviceContext)) ;;
     match next with
     | None => throw (httpError 404 "No tickets waiting in queue")
     | Some row => ret row
     end)%tx.

(** [customer_name || 'Customer']. *)
Definition display_name (v : option string) (dflt : string) : string :=
  match text_or_null v with
  | Some n => n
  | None => dflt
  end.

(** The body of the transaction of call-next. *)
Definition call_next_work (counterId agentId : Z)
    (requestedServiceId requestedTicketId : option Z) (now : Z)
  : tx call_next_result :=
  (row <- select_ticket counterId agentId requestedServiceId
            requestedTicketId ;;
   let ticket := fst row in
   run (update_ticket (t_id ticket) (mark_called now counterId agentId)) ;;;
   run (update_counter counterId (mark_serving (t_id ticket) agentId)) ;;;
   queueSnapshot <- getQueueSnapshot (service_id ticket) ;;
   ret (mkCallNextResult (t_id ticket) (ticket_number ticket)
          (service_id ticket) (s_name (snd row))
          (display_name (customer_name ticket) "Customer")
          counterId agentId now queueSnapshot))%tx.

(** The handler: parse the body, then run the transaction.  The result
    is the handler's response: [inl] carries the error sent to the
    client. *)
Definition call_next (body : call_next_body) (now : Z) (c : conn)
  : conn * (error + call_next_result) :=
  match parsePositiveInt (cn_counterId body) "counterId" with
  | inl e => (c, inl e)
  | inr counterId =>
  match parsePositiveInt (cn_agentId body) "agentId" with
  | inl e => (c, inl e)
  | inr agentId =>
  match parseOptionalPositiveInt (cn_serviceId body) "serviceId" None with
  | inl e => (c, inl e)
  | inr requestedServiceId =>
  match parseOptionalPositiveInt (cn_ticketId body) "ticketId" None with
  | inl e => (c, inl e)
  | inr requestedTicketId =>
      withTransaction
        (call_next_work counterId agentId requestedServiceId
           requestedTicketId now)
        None c
  end end end end.

(* ===================================================================== *)
(** ** POST /complete *)
(* ===================================================================== *)

(** Body of complete, recycle and transfer requests.  [b_notes] is the
    value of [notes] after the handler's trim-or-null step; [b_position]
    and [b_targetServiceId] are read by recycle and transfer only. *)
Record terminal_body : Type := mkTerminalBody {
  b_ticketId : option Z;
  b_counterId : option Z;
  b_agentId : option Z;
  b_notes : option string;
  b_position : option Z;
  b_targetServiceId : option Z
}.

Record complete_result : Type := mkCompleteResult {
  cr_id : Z;
  cr_number : string;
  cr_serviceId : Z;
  cr_serviceName : string;
  cr_completedAt : Z;
  cr_serviceDuration : option Z;
  cr_actualWait : option Z;
  cr_queue : queue_snapshot
}.

(** [... WHERE t.id = ? AND t.counter_id = ? AND t.agent_id = ?]. *)
Definition assigned_ticket (ticketId counterId agentId : Z) (s : store)
  : option (ticket * service) :=
  find (fun r => (t_id (fst r) =? ticketId)
                 && col_eqb (counter_id (fst r)) counterId
                 && col_eqb (agent_id (fst r)) agentId)
       (tickets_join_services s).

(** [ticket.served_at || ticket.called_at]. *)
Definition servedAt_of (t : ticket) : option Z :=
  match served_at t with
  | Some v => Some v
  | None => called_at t
  end.

(** [actualWait]: computed when both [created_at] and [servedAt] are
    present. *)
Definition compute_actual_wait (t : ticket) : option Z :=
  match created_at t, servedAt_of t with
  | Some created, Some served => Some (floor_seconds (served - created))
  | _, _ => None
  end.

(** [serviceDuration]: computed when [servedAt] is present. *)
Definition compute_service_duration (now : Z) (t : ticket) : option Z :=
  match servedAt_of t with
  | Some served => Some (floor_seconds (now - served))
  | None => None
  end.

(** [SET state = 'completed', completed_at = ?, actual_wait = ?,
     service_duration = ?, notes = ?]. *)
Definition mark_completed (completedAt : Z) (actualWait serviceDuration : option Z)
    (newNotes : option string) (t : ticket) : ticket :=
  mkTicket (t_id t) (ticket_number t) (service_id t) completed (t_priority t)
    (customer_name t) (customer_phone t) (customer_email t)
    (created_at t) (called_at t) (served_at t) (Some completedAt)
    (estimated_wait t) actualWait serviceDuration
    (counter_id t) (agent_id t)
    (original_service_id t) (transferred_at t) (recall_count t)
    newNotes.

Definition complete_work (ticketId counterId agentId : Z)
    (newNotes : option string) (now : Z) : tx complete_result :=
  (found <- query (assigned_ticket ticketId counterId agentId) ;;
   match found with
   | None =>
       throw (httpError 404
                "Ticket not found or not assigned to this counter/agent")
   | Some row =>
       let ticket := fst row in
       throw_if (ticket_state_eqb (t_state ticket) completed)
         (httpError 400 "Ticket already completed") ;;;
       let actualWait := compute_actual_wait ticket in
       let serviceDuration := compute_service_duration now ticket in
       run (update_ticket ticketId
              (mark_completed now actualWait serviceDuration newNotes)) ;;;
       run (update_counter counterId release_counter) ;;;
       queueSnapshot <- getQueueSnapshot (service_id ticket) ;;
       ret (mkCompleteResult ticketId (ticket_number ticket)
              (service_id ticket) (s_name (snd row)) now
              serviceDuration actualWait queueSnapshot)
   end)%tx.

Definition complete (body : terminal_body) (now : Z) (c : conn)
  : conn * (error + complete_result) :=
  match parsePositiveInt (b_ticketId body) "ticketId" with
  | inl e => (c, inl e)
  | inr ticketId =>
  match parsePositiveInt (b_counterId body) "counterId" with
  | inl e => (c, inl e)
  | inr counterId =>
  match parsePositiveInt (b_agentId body) "agentId" with
  | inl e => (c, inl e)
  | inr agentId =>
      withTransaction
        (complete_work ticketId counterId agentId (b_notes body) now)
        None c
  end end end.

(* ===================================================================== *)
(** ** POST /recycle *)
(* ===================================================================== *)

Record recycle_result : Type := mkRecycleResult {
  rr_id : Z;
  rr_number : string;
  rr_serviceId : Z;
  rr_serviceName : string;
  rr_recycledAt : Z;
  rr_requestedPosition : Z;
  rr_queue : queue_snapshot
}.

(** [SET state = 'waiting', counter_id = NULL, agent_id = NULL,
     called_at = NULL, served_at = NULL]. *)
Definition mark_recycled (t : ticket) : ticket :=
  mkTicket (t_id t) (ticket_number t) (service_id t) waiting (t_priority t)
    (customer_name t) (customer_phone t) (customer_email t)
    (created_at t) None None (completed_at t)
    (estimated_wait t) (actual_wait t) (service_duration t)
    None None
    (original_service_id t) (transferred_at t) (recall_count t)
    (notes t).

Definition recycle_work (ticketId counterId agentId requestedPosition : Z)
    (now : Z) : tx recycle_result :=
  (found <- query (assigned_ticket ticketId counterId agentId) ;;
   match found with
   | None =>
       throw (httpError 404
                "Ticket not found or not assigned to this counter/agent")
   | Some row =>
       let ticket := fst row in
       throw_if (negb (ticket_state_eqb (t_state ticket) called))
         (httpError 400 "Ticket is not currently being served") ;;;
       run (update_ticket ticketId mark_recycled) ;;;
       run (update_counter counterId release_counter) ;;;
       queueSnapshot <- getQueueSnapshot (service_id ticket) ;;
       ret (mkRecycleResult ticketId (ticket_number ticket)
              (service_id ticket) (s_name (snd row)) now
              requestedPosition queueSnapshot)
   end)%tx.

Definition recycle (body : terminal_body) (now : Z) (c : conn)
  : conn * (error + recycle_result) :=
  match parsePositiveInt (b_ticketId body) "ticketId" with
  | inl e => (c, inl e)
  | inr ticketId =>
  match parsePositiveInt (b_counterId body) "counterId" with
  | inl e => (c, inl e)
  | inr counterId =>
  match parsePositiveInt (b_agentId body) "agentId" with
  | inl e => (c, inl e)
  | inr agentId =>
  match parseOptionalPositiveInt (b_position body) "position" (Some 3) with
  | inl e => (c, inl e)
  | inr requestedPosition =>
      withTransaction
        (recycle_work ticketId counterId agentId
           (nullish requestedPosition 3) now)
        None c
  end end end end.

(* ===================================================================== *)
(** ** POST /transfer *)
(* ===================================================================== *)

Record transfer_result : Type := mkTransferResult {
  tr_id : Z;
  tr_oldNumber : string;
  tr_newNumber : string;
  tr_serviceId : Z;
  tr_serviceName : string;
  tr_originalServiceId : Z;
  tr_transferredAt : Z;
  tr_priority : Z;
  tr_oldTicketId : Z;
  tr_fromQueue : queue_snapshot;
  tr_toQueue : queue_snapshot
}.

(** [... WHERE t.id = ? AND t.state = 'called' AND t.counter_id = ?
         AND t.agent_id = ?]. *)
Definition called_ticket (ticketId counterId agentId : Z) (s : store)
  : option (ticket * service) :=
  find (fun r => (t_id (fst r) =? ticketId)
                 && ticket_state_eqb (t_state (fst r)) called
                 && col_eqb (counter_id (fst r)) counterId
                 && col_eqb (agent_id (fst r)) agentId)
       (tickets_join_services s).

(** [ticket.original_service_id || ticket.service_id]. *)
Definition originalServiceId_of (t : ticket) : Z :=
  or_else (original_service_id t) (service_id t).

(** The row inserted into the target service.  [priority] and
    [recall_count] are INTEGER columns to which every INSERT and UPDATE
    of the sources writes an integer, so the [Number.isInteger] tests of
    the handler pass and the values are carried over. *)
Definition transferred_row (old : ticket) (targetServiceId now : Z)
    (newId : Z) : ticket :=
  mkTicket newId (ticket_number old) targetServiceId waiting
    (t_priority old)
    (text_or_null (customer_name old))
    (text_or_null (customer_phone old))
    (text_or_null (customer_email old))
    (Some (nullish (created_at old) now)) None None None
    (estimated_wait old) None None
    None None
    (Some (originalServiceId_of old)) (Some now)
    (recall_count old) (notes old).

Definition transfer_work (ticketId targetServiceId counterId agentId : Z)
    (now : Z) : tx transfer_result :=
  (found <- query (called_ticket ticketId counterId agentId) ;;
   match found with
   | None => throw (httpError 404 "Ticket not found or not in called state")
   | Some row =>
       let ticket := fst row in
       target <- query (active_service targetServiceId) ;;
       match target with
       | None => throw (httpError 400 "Invalid target service")
       | Some targetService =>
           throw_if (s_id targetService =? service_id ticket)
             (httpError 400 "Cannot transfer to the same service") ;;;
           let fromServiceId := service_id ticket in
           newTicketId <-
             run_insert (insert_ticket
                           (transferred_row ticket targetServiceId now)) ;;
           run (update_counter counterId release_counter) ;;;
           run (delete_ticket ticketId) ;;;
           fromQueue <- getQueueSnapshot fromServiceId ;;
           toQueue <- getQueueSnapshot targetServiceId ;;
           ret (mkTransferResult newTicketId (ticket_number ticket)
                  (ticket_number ticket) targetServiceId
                  (s_name targetService) (originalServiceId_of ticket) now
                  (t_priority ticket) ticketId fromQueue toQueue)
       end
   end)%tx.

Definition transfer (body : terminal_body) (now : Z) (c : conn)
  : conn * (error + transfer_result) :=
  match parsePositiveInt (b_ticketId body) "ticketId" with
  | inl e => (c, inl e)
  | inr ticketId =>
  match parsePositiveInt (b_targetServiceId body) "targetServiceId" with
  | inl e => (c, inl e)
  | inr targetServiceId =>
  match parsePositiveInt (b_counterId body) "counterId" with
  | inl e => (c, inl e)
  | inr counterId =>
  match parsePositiveInt (b_agentId body) "agentId" with
  | inl e => (c, inl e)
  | inr agentId =>
      withTransaction
        (transfer_work ticketId targetServiceId counterId agentId now)
        None c
  end end end end.

(* ===================================================================== *)
(** ** kiosk.js: POST /tickets *)
(* ===================================================================== *)

(** The payload returned by [validateTicketPayload]: [serviceId] is a
    positive integer, [priority] is 0, 1 or 2, the customer fields are
    [null] or trimmed and non-empty. *)
Record ticket_payload : Type := mkTicketPayload {
  p_serviceId : Z;
  p_priority : Z;
  p_customerName : option string;
  p_customerPhone : option string;
  p_customerEmail : option string
}.

Record created_ticket : Type := mkCreatedTicket {
  ct_id : Z;
  ct_ticketNumber : string;
  ct_serviceId : Z;
  ct_serviceName : string;
  ct_state : ticket_state;
  ct_estimatedWait : Z;
  ct_createdAt : Z;
  ct_queuePosition : Z;
  ct_customerName : string
}.

(** [Math.max(service.current_number ?? 0, (service.range_start ?? 1) - 1) + 1]. *)
Definition nextNumber_of (sv : service) : Z :=
  Z.max (nullish (current_number sv) 0) (nullish (range_start sv) 1 - 1) + 1.

(** [service.range_end && nextNumber > service.range_end]. *)
Definition range_exhausted (sv : service) (nextNumber : Z) : bool :=
  truthy (range_end sv) && (nullish (range_end sv) 0 <? nextNumber).

(** The row of the kiosk INSERT: ticket_number, service_id, state,
    customer_name, customer_phone, customer_email, estimated_wait and
    priority are listed; the other columns take their defaults. *)
Definition kiosk_row (payload : ticket_payload) (ticketNumber : string)
    (estimatedWait now : Z) (newId : Z) : ticket :=
  let d := default_row newId now in
  mkTicket (t_id d) ticketNumber (p_serviceId payload) waiting
    (p_priority payload)
    (p_customerName payload) (p_customerPhone payload)
    (p_customerEmail payload)
    (created_at d) (called_at d) (served_at d) (completed_at d)
    (Some estimatedWait) (actual_wait d) (service_duration d)
    (counter_id d) (agent_id d)
    (original_service_id d) (transferred_at d)
    (recall_count d) (notes d).

Definition create_ticket_work (payload : ticket_payload) (nowIso : Z)
  : tx created_ticket :=
  (found <- query (active_service (p_serviceId payload)) ;;
   match found with
   | None => throw (httpError 404 "Service not found or inactive")
   | Some sv =>
       let nextNumber := nextNumber_of sv in
       throw_if (range_exhausted sv nextNumber)
         (httpError 409 "Service ticket range exhausted") ;;;
       let ticketNumber := format_ticket_number (prefix sv) nextNumber in
       run (set_current_number (p_serviceId payload) nextNumber) ;;;
       let estimatedServiceTime := or_else (estimated_service_time sv) 300 in
       let estimatedWait :=
         Z.max 0 (estimatedServiceTime * (nextNumber - 1)) in
       lastID <- run_insert
                   (insert_ticket
                      (kiosk_row payload ticketNumber estimatedWait nowIso)) ;;
       queueCount <- query (count_state (p_serviceId payload) waiting) ;;
       ret (mkCreatedTicket lastID ticketNumber (p_serviceId payload)
              (s_name sv) waiting estimatedWait nowIso queueCount
              (display_name (p_customerName payload) "Anonymous"))
   end)%tx.

(** The handler after payload validation. *)
Definition create_ticket (payload : ticket_payload) (nowIso : Z) (c : conn)
  : conn * (error + created_ticket) :=
  withTransaction (create_ticket_work payload nowIso) None c.

(* ===================================================================== *)
(** ** System reset service: performSystemReset *)
(* ===================================================================== *)

(** What the reset transaction returns. *)
Record reset_summary : Type := mkResetSummary {
  deletedTickets : Z;
  rs_services : list service
}.

(** Module-level variables of the service; [ioInstance] tells whether a
    socket server has been attached. *)
Record reset_module : Type := mkResetModule {
  ioInstance : bool;
  resetInProgress : bool;
  lastResetAt : option Z;
  lastResetReason : option string;
  lastResetSummary : option reset_summary
}.

(** Messages sent through the socket server. *)
Inductive broadcast : Type :=
| QueueUpdated (serviceId : Z) (snap : queue_snapshot)
| SystemAlert (text : string).

(** The process: the module variables, the connection, and the
    broadcasts sent so far, oldest first.  Writes to the event log
    ([logEvent]) are fire-and-forget and outside the model. *)
Record process : Type := mkProcess {
  reset_state : reset_module;
  db : conn;
  broadcasts : list broadcast
}.

Inductive reset_outcome : Type :=
| Skipped (msg : string)
| ResetDone (summary : reset_summary) (resetAt : Z) (reason : string).

(** [outcome.skipped]. *)
Definition skipped (o : reset_outcome) : bool :=
  match o with
  | Skipped _ => true
  | ResetDone _ _ _ => false
  end.

(** [SET current_ticket_id = NULL,
     state = CASE WHEN state = 'serving' THEN 'available' ELSE state END]. *)
Definition reset_counter (c : counter) : counter :=
  mkCounter (c_id c)
    (if counter_state_eqb (c_state c) serving then available else c_state c)
    (current_agent_id c) None (default_service_id c).

Definition zero_current_number (sv : service) : service :=
  mkService (s_id sv) (s_name sv) (prefix sv) (range_start sv)
    (range_end sv) (Some 0) (estimated_service_time sv) (is_active sv)
    (s_priority sv).

Definition reset_work : tx reset_summary :=
  (total <- query (fun s => Z.of_nat (List.length (tickets s))) ;;
   run (fun s => mkStore (tickets s) (ticket_seq s) (services s)
                   (map reset_counter (counters s)) (agent_services s)) ;;;
   run (fun s => mkStore [] (ticket_seq s) (services s) (counters s)
                   (agent_services s)) ;;;
   run (fun s => mkStore (tickets s) 0 (services s) (counters s)
                   (agent_services s)) ;;;
   run (fun s => mkStore (tickets s) (ticket_seq s)
                   (map zero_current_number (services s)) (counters s)
                   (agent_services s)) ;;;
   active <- query (fun s => filter is_active (services s)) ;;
   ret (mkResetSummary total active))%tx.

Definition empty_snapshot (sv : service) : broadcast :=
  QueueUpdated (s_id sv) (mkSnapshot (s_id sv) 0 0 []).

(** The broadcasts after a committed reset. *)
Definition reset_broadcasts (m : reset_module) (result : reset_summary)
    (reason : string) (silent : bool) : list broadcast :=
  if ioInstance m
  then (map empty_snapshot (rs_services result)
        ++ (if silent then []
            else [SystemAlert ("Queues reset (" ++ reason ++ ").")]))%list
  else [].

(** [performSystemReset({reason, ...})] run without interruption.  The
    [finally] clears the guard on both exits of the [try]. *)
Definition performSystemReset (reason : string) (silent : bool) (now : Z)
    (p : process) : process * (error + reset_outcome) :=
  if resetInProgress (reset_state p)
  then (p, inr (Skipped "Reset already in progress"))
  else
    let m := reset_state p in
    match withTransaction reset_work None (db p) with
    | (c', inr result) =>
        (mkProcess
           (mkResetModule (ioInstance m) false (Some now) (Some reason)
              (Some result))
           c'
           (broadcasts p ++ reset_broadcasts m result reason silent),
         inr (ResetDone result now reason))
    | (c', inl e) =>
        (mkProcess
           (mkResetModule (ioInstance m) false (lastResetAt m)
              (lastResetReason m) (lastResetSummary m))
           c' (broadcasts p),
         inl e)
    end.

(** The part of [performSystemReset] that runs before its first
    suspension: the guard test, the assignment [resetInProgress = true]
    and the submission of BEGIN by [withTransaction].  The process is in
    the returned state while the reset is in flight and other requests
    are served. *)
Definition performSystemReset_enter (p : process) : process :=
  if resetInProgress (reset_state p)
  then p
  else
    let m := reset_state p in
    mkProcess
      (mkResetModule (ioInstance m) true (lastResetAt m)
         (lastResetReason m) (lastResetSummary m))
      (fst (exec (BEGIN None) (db p)))
      (broadcasts p).

(* ===================================================================== *)
(** ** System reset service: presetServiceQueue *)
(* ===================================================================== *)

Record preset_args : Type := mkPresetArgs {
  pa_serviceId : Z;
  pa_startNumber : Z;
  pa_count : Z;
  pa_priority : Z
}.

Record inserted_ticket : Type := mkInserted {
  it_id : Z;
  it_ticket_number : string;
  it_created_at : Z;
  it_priority : Z
}.

Record preset_result : Type := mkPresetResult {
  insertedTickets : list inserted_ticket;
  skippedTickets : list string;
  finalNumber : Z;
  queueSnapshot : queue_snapshot
}.

(** The row of the preset INSERT: ticket_number, service_id, state,
    priority, created_at and estimated_wait are listed; the other
    columns take their defaults. *)
Definition preset_row (serviceId : Z) (ticketNumber : string)
    (priority createdAt estimatedWait : Z) (newId : Z) : ticket :=
  let d := default_row newId createdAt in
  mkTicket (t_id d) ticketNumber serviceId waiting priority
    (customer_name d) (customer_phone d) (customer_email d)
    (Some createdAt) (called_at d) (served_at d) (completed_at d)
    (Some estimatedWait) (actual_wait d) (service_duration d)
    (counter_id d) (agent_id d)
    (original_service_id d) (transferred_at d)
    (recall_count d) (notes d).

(** [SELECT id FROM tickets WHERE service_id = ? AND ticket_number = ?]. *)
Definition ticket_number_taken (serviceId : Z) (ticketNumber : string)
    (s : store) : bool :=
  existsb (fun t => (service_id t =? serviceId)
                    && String.eqb (ticket_number t) ticketNumber)
          (tickets s).

(** One turn of the loop [for (i = 1; i <= count; i += 1)]. *)
Definition preset_step (args : preset_args) (sv : service)
    (existingWaiting now : Z) (i : Z)
    (acc : list inserted_ticket * list string)
  : tx (list inserted_ticket * list string) :=
  (let numberValue := pa_startNumber args + i in
   let ticketNumber := format_ticket_number (prefix sv) numberValue in
   alreadyExists <- query (ticket_number_taken (pa_serviceId args)
                             ticketNumber) ;;
   if alreadyExists : bool
   then ret (fst acc, (snd acc ++ [ticketNumber])%list)
   else
     let inserted := Z.of_nat (List.length (fst acc)) in
     let queuePosition := existingWaiting + inserted in
     let createdAt := now + inserted in
     let estimatedWait :=
       or_else (estimated_service_time sv) 300 * queuePosition in
     lastID <- run_insert
                 (insert_ticket
                    (preset_row (pa_serviceId args) ticketNumber
                       (pa_priority args) createdAt estimatedWait)) ;;
     ret ((fst acc ++ [mkInserted lastID ticketNumber createdAt
                         (pa_priority args)])%list,
          snd acc))%tx.

(** The loop, over the values of [i] in order. *)
Fixpoint preset_loop (args : preset_args) (sv : service)
    (existingWaiting now : Z) (indices : list Z)
    (acc : list inserted_ticket * list string)
  : tx (list inserted_ticket * list string) :=
  match indices with
  | [] => ret acc
  | i :: rest =>
      (acc' <- preset_step args sv existingWaiting now i acc ;;
       preset_loop args sv existingWaiting now rest acc')%tx
  end.

(** The values [1, 2, ..., count]. *)
Definition loop_indices (count : Z) : list Z :=
  map Z.of_nat (seq 1 (Z.to_nat count)).

(** The snapshot built at the end of the preset transaction: rows in
    state [waiting] only. *)
Definition preset_snapshot (serviceId : Z) (s : store) : queue_snapshot :=
  let queueRows :=
    order_by priority_desc_created_asc
      (filter (fun t => (service_id t =? serviceId)
                        && ticket_state_eqb (t_state t) waiting)
              (tickets s)) in
  mkSnapshot serviceId (Z.of_nat (List.length queueRows))
    (count_state serviceId called s)
    (map snapshot_entry queueRows).

Definition preset_work (args : preset_args) (now : Z) : tx preset_result :=
  (found <- query (active_service (pa_serviceId args)) ;;
   match found with
   | None => throw (plainError "Service not found or inactive")
   | Some sv =>
       existingWaiting <-
         query (fun s => count_state (pa_serviceId args) waiting s
                         + count_state (pa_serviceId args) recycled s
                         + count_state (pa_serviceId args) called s) ;;
       acc <- preset_loop args sv existingWaiting now
                (loop_indices (pa_count args)) ([], []) ;;
       let targetCurrentNumber := pa_startNumber args + pa_count args in
       let newCurrentNumber :=
         Z.max (or_else (current_number sv) 0) targetCurrentNumber in
       run (set_current_number (pa_serviceId args) newCurrentNumber) ;;;
       snap <- query (preset_snapshot (pa_serviceId args)) ;;
       ret (mkPresetResult (fst acc) (snd acc) newCurrentNumber snap)
   end)%tx.

(** The argument checks at the top of [presetServiceQueue]. *)
Definition preset_check (args : preset_args) : option error :=
  if pa_serviceId args <=? 0
  then Some (plainError "serviceId must be a positive integer")
  else if pa_startNumber args <? 0
  then Some (plainError "startNumber must be zero or positive integer")
  else if pa_count args <=? 0
  then Some (plainError "count must be a positive integer")
  else if 500 <? pa_count args
  then Some (plainError "count may not exceed 500 tickets per request")
  else None.

(** [presetServiceQueue(args)]: checks, transaction, then the broadcast
    of the resulting snapshot. *)
Definition presetServiceQueue (args : preset_args) (now : Z) (p : process)
  : process * (error + preset_result) :=
  match preset_check args with
  | Some e => (p, inl e)
  | None =>
      match withTransaction (preset_work args now) None (db p) with
      | (c', inr result) =>
          (mkProcess (reset_state p) c'
             (broadcasts p
              ++ (if ioInstance (reset_state p)
                  then [QueueUpdated (pa_serviceId args)
                          (queueSnapshot result)]
                  else [])),
           inr result)
      | (c', inl e) => (mkProcess (reset_state p) c' (broadcasts p), inl e)
      end
  end.

(* ===================================================================== *)
(** ** Admin route POST /system/preset-queue *)
(* ===================================================================== *)

(** The request body after [parseInt(_, 10)]: [None] stands for [NaN]
    (and, for [priority], also for an absent field). *)
Record preset_body : Type := mkPresetBody {
  pb_serviceId : option Z;
  pb_startNumber : option Z;
  pb_count : option Z;
  pb_priority : option Z
}.

Fixpoint starts_with (p s : string) : bool :=
  match p, s with
  | EmptyString, _ => true
  | String a p', String b s' => Ascii.eqb a b && starts_with p' s'
  | String _ _, EmptyString => false
  end.

Fixpoint contains (p s : string) : bool :=
  starts_with p s
  || match s with
     | EmptyString => false
     | String _ s' => contains p s'
     end.

(** [/service|count|start/i.test(message)]. *)
Definition names_an_argument (msg : string) : bool :=
  let m := toUpperCase msg in
  contains "SERVICE" m || contains "COUNT" m || contains "START" m.

(** [Math.max(0, Math.min(priorityParsed, 2))], 0 for [NaN]. *)
Definition clamp_priority (v : option Z) : Z :=
  match v with
  | Some n => Z.max 0 (Z.min n 2)
  | None => 0
  end.

Definition preset_queue_route (body : preset_body) (now : Z) (p : process)
  : process * (error + preset_result) :=
  match pb_serviceId body, pb_startNumber body, pb_count body with
  | Some serviceId, Some startNumber, Some count =>
      if serviceId <=? 0
      then (p, inl (httpError 400 "serviceId must be a positive integer"))
      else if startNumber <? 0
      then (p, inl (httpError 400
                      "startNumber must be zero or a positive integer"))
      else if count <=? 0
      then (p, inl (httpError 400 "count must be a positive integer"))
      else
        match presetServiceQueue
                (mkPresetArgs serviceId startNumber count
                   (clamp_priority (pb_priority body)))
                now p with
        | (p', inr result) => (p', inr result)
        | (p', inl e) =>
            (p', inl (httpError
                        (if names_an_argument (message e) then 400 else 500)
                        (message e)))
        end
  | None, _, _ =>
      (p, inl (httpError 400 "serviceId must be a positive integer"))
  | Some serviceId, None, _ =>
      if serviceId <=? 0
      then (p, inl (httpError 400 "serviceId must be a positive integer"))
      else (p, inl (httpError 400
                      "startNumber must be zero or a positive integer"))
  | Some serviceId, Some startNumber, None =>
      if serviceId <=? 0
      then (p, inl (httpError 400 "serviceId must be a positive integer"))
      else if startNumber <? 0
      then (p, inl (httpError 400
                      "startNumber must be zero or a positive integer"))
      else (p, inl (httpError 400 "count must be a positive integer"))
  end.

(* ===================================================================== *)
(** ** Schema constraints *)
(* ===================================================================== *)

(** [tickets.id] is the primary key. *)
Definition primary_key (s : store) : Prop :=
  NoDup (map t_id (tickets s)).

(** [tickets.service_id] references [services.id]; the connection is
    opened with [PRAGMA foreign_keys = ON]. *)
Definition foreign_key (s : store) : Prop :=
  forall t, In t (tickets s) ->
            exists sv, In sv (services s) /\ s_id sv = service_id t.

(** The keys [ORDER BY priority DESC, created_at ASC] reads. *)
Definition order_key (t : ticket) : Z * Z * option Z :=
  (t_id t, t_priority t, created_at t).

(** Rows as the intake path writes them: a customer field is NULL or a
    non-empty text ([sanitizeString] in kiosk.js), and
    [original_service_id], when set, is the rowid of a service, hence
    not 0. *)
Definition intake_row (t : ticket) : Prop :=
  customer_name t <> Some ""
  /\ customer_phone t <> Some ""
  /\ customer_email t <> Some ""
  /\ original_service_id t <> Some 0.

(** Both constraints together. *)
Definition consistent (s : store) : Prop :=
  primary_key s /\ foreign_key s.

(** A waiting ticket is at no counter: counter_id, agent_id, called_at
    and served_at are null, as every INSERT and the recycle UPDATE write
    them. *)
Definition unassigned (t : ticket) : Prop :=
  counter_id t = None /\ agent_id t = None
  /\ called_at t = None /\ served_at t = None.

(** The row [t] with another recall_count. *)
Definition with_recall_count (n : Z) (t : ticket) : ticket :=
  mkTicket (t_id t) (ticket_number t) (service_id t) (t_state t)
    (t_priority t)
    (customer_name t) (customer_phone t) (customer_email t)
    (created_at t) (called_at t) (served_at t) (completed_at t)
    (estimated_wait t) (actual_wait t) (service_duration t)
    (counter_id t) (agent_id t)
    (original_service_id t) (transferred_at t) n (notes t).

(** [ORDER BY priority DESC, created_at ASC] read on two entries of a
    snapshot: the first may stand before the second. *)
Definition entry_before (a b : snapshot_ticket) : Prop :=
  q_priority b < q_priority a
  \/ (q_priority a = q_priority b
      /\ instant_leb (q_created_at a) (q_created_at b) = true).

(** The rows a snapshot of a service lists. *)
Definition in_queue (serviceId : Z) (t : ticket) : bool :=
  (service_id t =? serviceId)
  && (ticket_state_eqb (t_state t) waiting
      || ticket_state_eqb (t_state t) recycled).




(** The ticket number the preset loop forms at index [i]. *)
Definition preset_number (args : preset_args) (sv : service) (i : Z)
  : string :=
  format_ticket_number (prefix sv) (pa_startNumber args + i).

(** A row as the preset INSERT writes it. *)
Definition preset_made (args : preset_args) (t : ticket) : Prop :=
  service_id t = pa_serviceId args /\ t_state t = waiting
  /\ t_priority t = pa_priority args /\ unassigned t.

(* ===================================================================== *)
(** ** A small installation used in the examples *)
(* ===================================================================== *)

Module Demo.

Definition general : service :=
  mkService 1 "General" "A" (Some 1) (Some 999) (Some 0) (Some 300) true 0.

Definition payments : service :=
  mkService 2 "Payments" "B" (Some 1) (Some 999) (Some 0) (Some 300) true 0.

(** Counter 3, default service General, agent 7 logged in. *)
Definition counter3 : counter :=
  mkCounter 3 available (Some 7) None (Some 1).

(** Agent 7 is assigned to General; agent 8 has no assignment. *)
Definition empty_store : store :=
  mkStore [] 0 [general; payments] [counter3] [mkAgentService 7 1 0].

Definition conn0 : conn := open_conn empty_store.

(** Two kiosk tickets for General: A001 at priority 0, then A002 at
    priority 2. *)
Definition conn1 : conn :=
  fst (create_ticket (mkTicketPayload 1 0 (Some "Ann") None None) 1000 conn0).

Definition conn2 : conn :=
  fst (create_ticket (mkTicketPayload 1 2 None None None) 2000 conn1).

(** Agent 7 at counter 3 asks for the next ticket. *)
Definition next_body : call_next_body :=
  mkCallNextBody (Some 3) (Some 7) None None.

Definition conn3 : conn := fst (call_next next_body 5000 conn2).

(** Requests of agent 7 at counter 3 about ticket 1. *)
Definition ticket1_body : terminal_body :=
  mkTerminalBody (Some 1) (Some 3) (Some 7) None None None.

Definition conn4 : conn := fst (complete ticket1_body 65000 conn3).

(** The row of ticket 1 once called, and once completed. *)
Definition ticket1_called : ticket :=
  mkTicket 1 "A001" 1 called 0 (Some "Ann") None None
    (Some 1000) (Some 5000) (Some 5000) None (Some 0) None None
    (Some 3) (Some 7) None None 1 None.

Definition ticket1_completed : ticket :=
  mkTicket 1 "A001" 1 completed 0 (Some "Ann") None None
    (Some 1000) (Some 5000) (Some 5000) (Some 65000) (Some 0)
    (Some 4) (Some 60) (Some 3) (Some 7) None None 1 None.

(** The reset service of a fresh process with a socket server, and the
    process on the empty installation. *)
Definition idle_module : reset_module :=
  mkResetModule true false None None None.

Definition process0 : process := mkProcess idle_module conn0 [].

(** The process after two kiosk tickets, and the same process while a
    reset is in flight. *)
Definition process2 : process := mkProcess idle_module conn2 [].

Definition process2_resetting : process := performSystemReset_enter process2.

(** A preset of 500 tickets at instant 1000000, ticket 500 called by
    agent 7 a tenth of a second later, then completed after a minute. *)
Definition preset500 : process :=
  fst (presetServiceQueue (mkPresetArgs 1 0 500 0) 1000000 process0).

Definition preset500_called : conn :=
  fst (call_next (mkCallNextBody (Some 3) (Some 7) None (Some 500))
         1000100 (db preset500)).

Definition ticket500_body : terminal_body :=
  mkTerminalBody (Some 500) (Some 3) (Some 7) None None None.

(** A unit of work that writes and then throws. *)
Definition write_then_throw : tx unit :=
  (run (delete_ticket 1) ;;;
   run (set_current_number 1 500) ;;;
   throw (httpError 500 "boom"))%tx.

(** A unit of work that writes and returns. *)
Definition write_then_return : tx Z :=
  (run (delete_ticket 1) ;;; ret 42)%tx.

End Demo.

(* ===================================================================== *)
(** ** POST /recall and POST /no-show *)
(* ===================================================================== *)

Record recall_result : Type := mkRecallResult {
  rc_id : Z;
  rc_number : string;
  rc_serviceId : Z;
  rc_serviceName : string;
  rc_recallCount : Z;
  rc_calledAt : Z;
  rc_customerName : string;
  rc_queue : queue_snapshot
}.

(** [SET recall_count = recall_count + 1, called_at = ?]. *)
Definition mark_recalled (now : Z) (t : ticket) : ticket :=
  mkTicket (t_id t) (ticket_number t) (service_id t) (t_state t)
    (t_priority t)
    (customer_name t) (customer_phone t) (customer_email t)
    (created_at t) (Some now) (served_at t) (completed_at t)
    (estimated_wait t) (actual_wait t) (service_duration t)
    (counter_id t) (agent_id t)
    (original_service_id t) (transferred_at t) (recall_count t + 1)
    (notes t).

Definition recall_work (ticketId counterId agentId now : Z)
  : tx recall_result :=
  (found <- query (called_ticket ticketId counterId agentId) ;;
   match found with
   | None => throw (httpError 404 "Ticket not found or not in called state")
   | Some row =>
       let ticket := fst row in
       run (update_ticket ticketId (mark_recalled now)) ;;;
       queueSnapshot <- getQueueSnapshot (service_id ticket) ;;
       ret (mkRecallResult ticketId (ticket_number ticket)
              (service_id ticket) (s_name (snd row))
              (or_else (Some (recall_count ticket)) 0 + 1) now
              (display_name (customer_name ticket) "Customer")
              queueSnapshot)
   end)%tx.

Definition recall (body : terminal_body) (now : Z) (c : conn)
  : conn * (error + recall_result) :=
  match parsePositiveInt (b_ticketId body) "ticketId" with
  | inl e => (c, inl e)
  | inr ticketId =>
  match parsePositiveInt (b_counterId body) "counterId" with
  | inl e => (c, inl e)
  | inr counterId =>
  match parsePositiveInt (b_agentId body) "agentId" with
  | inl e => (c, inl e)
  | inr agentId =>
      withTransaction (recall_work ticketId counterId agentId now) None c
  end end end.

Record no_show_result : Type := mkNoShowResult {
  ns_id : Z;
  ns_number : string;
  ns_serviceId : Z;
  ns_serviceName : string;
  ns_completedAt : Z;
  ns_queue : queue_snapshot
}.

(** [SET state = 'no_show', completed_at = ?]. *)
Definition mark_no_show (now : Z) (t : ticket) : ticket :=
  mkTicket (t_id t) (ticket_number t) (service_id t) no_show
    (t_priority t)
    (customer_name t) (customer_phone t) (customer_email t)
    (created_at t) (called_at t) (served_at t) (Some now)
    (estimated_wait t) (actual_wait t) (service_duration t)
    (counter_id t) (agent_id t)
    (original_service_id t) (transferred_at t) (recall_count t)
    (notes t).

Definition no_show_work (ticketId counterId agentId now : Z)
  : tx no_show_result :=
  (found <- query (called_ticket ticketId counterId agentId) ;;
   match found with
   | None => throw (httpError 404 "Ticket not found or not in called state")
   | Some row =>
       let ticket := fst row in
       run (update_ticket ticketId (mark_no_show now)) ;;;
       run (update_counter counterId release_counter) ;;;
       queueSnapshot <- getQueueSnapshot (service_id ticket) ;;
       ret (mkNoShowResult ticketId (ticket_number ticket)
              (service_id ticket) (s_name (snd row)) now queueSnapshot)
   end)%tx.

Definition post_no_show (body : terminal_body) (now : Z) (c : conn)
  : conn * (error + no_show_result) :=
  match parsePositiveInt (b_ticketId body) "ticketId" with
  | inl e => (c, inl e)
  | inr ticketId =>
  match parsePositiveInt (b_counterId body) "counterId" with
  | inl e => (c, inl e)
  | inr counterId =>
  match parsePositiveInt (b_agentId body) "agentId" with
  | inl e => (c, inl e)
  | inr agentId =>
      withTransaction (no_show_work ticketId counterId agentId now) None c
  end end end.

(** The request of an agent at a counter about one ticket. *)
Definition ticket_request (ticketId counterId agentId : Z) : terminal_body :=
  mkTerminalBody (Some ticketId) (Some counterId) (Some agentId)
    None None None.

(* ===================================================================== *)
(** ** Text of request bodies *)
(* ===================================================================== *)

(** A character is a code unit below 256.  Of the characters that
    [String.prototype.trim] strips and [\s] matches, those are TAB, LF,
    VT, FF, CR, SPACE and NBSP. *)
Definition is_space (c : ascii) : bool :=
  let n := nat_of_ascii c in
  (Nat.leb 9 n && Nat.leb n 13) || Nat.eqb n 32 || Nat.eqb n 160.

Fixpoint trimStart (s : string) : string :=
  match s with
  | EmptyString => EmptyString
  | String c r => if is_space c then trimStart r else s
  end.

Fixpoint trimEnd (s : string) : string :=
  match s with
  | EmptyString => EmptyString
  | String c r =>
      match trimEnd r with
      | EmptyString => if is_space c then EmptyString else String c EmptyString
      | kept => String c kept
      end
  end.

(** [s.trim()]. *)
Definition trim (s : string) : string := trimEnd (trimStart s).

(** [s.slice(0, n)]. *)
Definition slice0 (n : nat) (s : string) : string := substring 0 n s.

(** [errors.join(', ')]. *)
Fixpoint join_errors (errors : list string) : string :=
  match errors with
  | [] => ""
  | [e] => e
  | e :: rest => e ++ ", " ++ join_errors rest
  end.

(* ===================================================================== *)
(** ** Regular expressions *)
(* ===================================================================== *)

(** The fragment of the regular expressions the sources use: character
    classes, sequence, alternation and repetition.  [regex_test r s] is
    [/^r$/.test(s)]: without the [m] flag the two anchors make the
    expression match the whole of [s]. *)
Inductive regex : Type :=
| Never
| Empty
| Class (p : ascii -> bool)
| Seq (a b : regex)
| Alt (a b : regex)
| Star (a : regex).

(** [a+], [a?] and a literal character. *)
Definition Plus (a : regex) : regex := Seq a (Star a).
Definition Opt (a : regex) : regex := Alt a Empty.
Definition Lit (c : ascii) : regex := Class (Ascii.eqb c).

Fixpoint nullable (r : regex) : bool :=
  match r with
  | Never => false
  | Empty => true
  | Class _ => false
  | Seq a b => nullable a && nullable b
  | Alt a b => nullable a || nullable b
  | Star _ => true
  end.

(** What is left of [r] to match after the character [c]. *)
Fixpoint deriv (c : ascii) (r : regex) : regex :=
  match r with
  | Never => Never
  | Empty => Never
  | Class p => if p c then Empty else Never
  | Seq a b =>
      if nullable a
      then Alt (Seq (deriv c a) b) (deriv c b)
      else Seq (deriv c a) b
  | Alt a b => Alt (deriv c a) (deriv c b)
  | Star a => Seq (deriv c a) (Star a)
  end.

Fixpoint regex_test (r : regex) (s : string) : bool :=
  match s with
  | EmptyString => nullable r
  | String c rest => regex_test (deriv c r) rest
  end.

(** The strings an expression denotes. *)
Inductive denotes : regex -> string -> Prop :=
| denotes_empty : denotes Empty ""
| denotes_class p c : p c = true -> denotes (Class p) (String c "")
| denotes_seq a b s t :
    denotes a s -> denotes b t -> denotes (Seq a b) (s ++ t)
| denotes_alt_l a b s : denotes a s -> denotes (Alt a b) s
| denotes_alt_r a b s : denotes b s -> denotes (Alt a b) s
| denotes_star_nil a : denotes (Star a) ""
| denotes_star_cons a c s t :
    denotes a (String c s) -> denotes (Star a) t ->
    denotes (Star a) (String c s ++ t).

(** [[^\s@]]. *)
Definition not_space_or_at (c : ascii) : bool :=
  negb (is_space c) && negb (Ascii.eqb c "@").

(** [/^[^\s@]+@[^\s@]+\.[^\s@]+$/i]; none of the classes has letters,
    so the [i] flag changes nothing. *)
Definition EMAIL_REGEX : regex :=
  Seq (Plus (Class not_space_or_at))
      (Seq (Lit "@")
           (Seq (Plus (Class not_space_or_at))
                (Seq (Lit ".") (Plus (Class not_space_or_at))))).

(** A character between two others, as in [[0-5]]. *)
Definition char_range (lo hi : ascii) (c : ascii) : bool :=
  Nat.leb (nat_of_ascii lo) (nat_of_ascii c)
  && Nat.leb (nat_of_ascii c) (nat_of_ascii hi).

(** [\d]. *)
Definition is_digit : ascii -> bool := char_range "0" "9".

(* ===================================================================== *)
(** ** kiosk.js: sanitizeString and validateTicketPayload *)
(* ===================================================================== *)

Definition MAX_NAME_LENGTH : nat := 120.
Definition MAX_PHONE_LENGTH : nat := 30.
Definition MAX_EMAIL_LENGTH : nat := 180.

(** [sanitizeString(value, maxLength)]; [None] as argument is a value
    that is not a string, [None] as result is [null]. *)
Definition sanitizeString (value : option string) (maxLength : nat)
  : option string :=
  match value with
  | None => None
  | Some v =>
      match trim v with
      | EmptyString => None
      | trimmed => Some (slice0 maxLength trimmed)
      end
  end.

(** The request body of POST /tickets.  [kb_serviceId] is
    [Number(body.serviceId)] when that is an integer and [None] when it
    is not (a fraction, an infinity or [NaN]); [kb_priority] is
    [Number(body.priority ?? 0)] read the same way; a customer field is
    [Some] when it is a string. *)
Record kiosk_body : Type := mkKioskBody {
  kb_serviceId : option Z;
  kb_priority : option Z;
  kb_customerName : option string;
  kb_customerPhone : option string;
  kb_customerEmail : option string
}.

(** [!Number.isInteger(v) || v <= 0]. *)
Definition not_positive_integer (v : option Z) : bool :=
  match v with
  | Some n => n <=? 0
  | None => true
  end.

(** [!Number.isInteger(v) || v < 0 || v > 2]. *)
Definition not_a_priority (v : option Z) : bool :=
  match v with
  | Some n => (n <? 0) || (2 <? n)
  | None => true
  end.

(** [customerEmail && !EMAIL_REGEX.test(customerEmail)]; a sanitized
    text is never empty, the test on [""] is kept as the code has it. *)
Definition email_rejected (customerEmail : option string) : bool :=
  match customerEmail with
  | None => false
  | Some "" => false
  | Some e => negb (regex_test EMAIL_REGEX e)
  end.

(** [validateTicketPayload(body)]: the list of errors, in the order in
    which they are pushed, or the payload. *)
Definition validateTicketPayload (body : kiosk_body)
  : list string + ticket_payload :=
  let errors1 :=
    if not_positive_integer (kb_serviceId body)
    then ["serviceId must be a positive integer"] else [] in
  let errors2 :=
    if not_a_priority (kb_priority body)
    then ["priority must be an integer between 0 and 2"] else [] in
  let customerName := sanitizeString (kb_customerName body) MAX_NAME_LENGTH in
  let customerPhone :=
    sanitizeString (kb_customerPhone body) MAX_PHONE_LENGTH in
  let customerEmail :=
    sanitizeString (kb_customerEmail body) MAX_EMAIL_LENGTH in
  let errors3 :=
    if email_rejected customerEmail
    then ["customerEmail is invalid"] else [] in
  match (errors1 ++ errors2 ++ errors3)%list,
        kb_serviceId body, kb_priority body with
  | [], Some serviceId, Some priority =>
      inr (mkTicketPayload serviceId priority customerName customerPhone
             customerEmail)
  | errors, _, _ => inl errors
  end.

(** POST /tickets: validation, then the transaction; a payload with
    errors is answered with 400 and the errors joined. *)
Definition post_tickets (body : kiosk_body) (nowIso : Z) (c : conn)
  : conn * (error + created_ticket) :=
  match validateTicketPayload body with
  | inl errors => (c, inl (httpError 400 (join_errors errors)))
  | inr payload => create_ticket payload nowIso c
  end.

(** Every ticket row is a row as the intake path writes them and names
    a service by a positive id. *)
Definition well_formed_rows (s : store) : Prop :=
  Forall (fun t => intake_row t /\ 0 < service_id t) (tickets s).

(** Every character of [s] satisfies [p]. *)
Fixpoint all_chars (p : ascii -> bool) (s : string) : bool :=
  match s with
  | EmptyString => true
  | String c r => p c && all_chars p r
  end.

(** A part of an address: not empty, without white space or [@]. *)
Definition address_part (s : string) : Prop :=
  s <> "" /\ all_chars not_space_or_at s = true.

(** What [sanitizeString(_, n)] returns: [null], or a text that is not
    empty, starts with a character that is not white space and has at
    most [n] characters. *)
Definition sanitized (n : nat) (v : option string) : Prop :=
  v = None
  \/ exists c r, v = Some (String c r) /\ is_space c = false
                 /\ (String.length (String c r) <= n)%nat.

(** The schema constraints together with the shape of the rows. *)
Definition sound_store (s : store) : Prop :=
  consistent s /\ well_formed_rows s.

(* ===================================================================== *)
(** ** Reset service: the scheduler *)
(* ===================================================================== *)

(** The value of a decimal digit. *)
Definition digit_value (c : ascii) : Z := Z.of_nat (nat_of_ascii c - 48).

(** The number a run of decimal digits denotes, read up to the first
    character that is no digit. *)
Fixpoint digits_value (acc : Z) (s : string) : Z :=
  match s with
  | EmptyString => acc
  | String c r =>
      if is_digit c then digits_value (acc * 10 + digit_value c) r else acc
  end.

Definition digits_prefix (s : string) : option Z :=
  match s with
  | EmptyString => None
  | String c _ => if is_digit c then Some (digits_value 0 s) else None
  end.

(** [parseInt(s, 10)]: leading white space is skipped, a sign may
    follow, then the longest run of decimal digits is read; [None] is
    [NaN]. *)
Definition parseInt10 (s : string) : option Z :=
  match trimStart s with
  | EmptyString => None
  | String c r =>
      if Ascii.eqb c "-" then option_map Z.opp (digits_prefix r)
      else if Ascii.eqb c "+" then digits_prefix r
      else digits_prefix (String c r)
  end.

(** [/^([01]?\d|2[0-3]):([0-5]\d)$/]. *)
Definition TIME_REGEX : regex :=
  Seq (Alt (Seq (Opt (Class (char_range "0" "1"))) (Class is_digit))
           (Seq (Lit "2") (Class (char_range "0" "3"))))
      (Seq (Lit ":") (Seq (Class (char_range "0" "5")) (Class is_digit))).

(** The two groups of a match of [TIME_REGEX]: the text before the
    colon and the text after it. *)
Fixpoint before_colon (s : string) : string :=
  match s with
  | EmptyString => EmptyString
  | String c r => if Ascii.eqb c ":" then EmptyString
                  else String c (before_colon r)
  end.

Fixpoint after_colon (s : string) : string :=
  match s with
  | EmptyString => EmptyString
  | String c r => if Ascii.eqb c ":" then r else after_colon r
  end.

(** [parseTimeToMinutes(timeString)]; the argument is [None] when it is
    not a string, the result is [None] when it is [NaN]. *)
Definition parseTimeToMinutes (timeString : option string) : option Z :=
  match timeString with
  | None => Some 0
  | Some s =>
      let t := trim s in
      if regex_test TIME_REGEX t
      then match parseInt10 (before_colon t), parseInt10 (after_colon t) with
           | Some hours, Some minutes => Some (hours * 60 + minutes)
           | _, _ => None
           end
      else Some 0
  end.

(** The module variable [schedulerConfig]. *)
Record scheduler_config : Type := mkSchedulerConfig {
  sc_enabled : bool;
  sc_time : string;
  sc_minutes : option Z
}.

(** [updateSchedulerConfig(config)] for the configuration
    [loadResetSettingsFromDb] builds: [time] a string, [enabled] a
    boolean. *)
Definition updateSchedulerConfig (time : string) (enabled : bool)
  : scheduler_config :=
  mkSchedulerConfig enabled
    (if String.eqb time "" then "00:00" else time)
    (parseTimeToMinutes (Some time)).

(** The scheduler's share of the module variables.  A day key
    [YYYY-MM-DD] is held as the number of the day it names. *)
Record scheduler : Type := mkScheduler {
  schedulerConfig : scheduler_config;
  lastResetDayKey : option Z
}.

(** What a tick reads off [new Date()]: the instant, the minutes since
    local midnight ([getHours() * 60 + getMinutes()]) and the UTC day
    ([toISOString().slice(0, 10)]). *)
Record wall_clock : Type := mkClock {
  clock_ms : Z;
  local_minutes : Z;
  utc_day : Z
}.

(** [nowMinutes < schedulerConfig.minutes]; false when the latter is
    [NaN]. *)
Definition before_reset_time (nowMinutes : Z) (minutes : option Z) : bool :=
  match minutes with
  | Some m => nowMinutes <? m
  | None => false
  end.

(** [lastResetDayKey === todayKey]. *)
Definition same_day (last : option Z) (todayKey : Z) : bool :=
  match last with
  | Some d => d =? todayKey
  | None => false
  end.

(** [maybeRunScheduledReset()].  A reset that throws leaves
    [lastResetDayKey] as it was. *)
Definition maybeRunScheduledReset (clk : wall_clock) (sch : scheduler)
    (p : process) : (scheduler * process) * (error + unit) :=
  let cfg := schedulerConfig sch in
  if negb (sc_enabled cfg) || resetInProgress (reset_state p)
  then ((sch, p), inr tt)
  else if before_reset_time (local_minutes clk) (sc_minutes cfg)
  then ((sch, p), inr tt)
  else if same_day (lastResetDayKey sch) (utc_day clk)
  then ((sch, p), inr tt)
  else
    match performSystemReset "scheduled" false (clock_ms clk) p with
    | (p', inr _) => ((mkScheduler cfg (Some (utc_day clk)), p'), inr tt)
    | (p', inl e) => ((sch, p'), inl e)
    end.

(** The callback of the timer set by [ensureSchedulerTimer]: an error of
    the check is logged and dropped. *)
Definition tick (st : scheduler * process) (clk : wall_clock)
  : scheduler * process :=
  fst (maybeRunScheduledReset clk (fst st) (snd st)).

(** The ticks of a run of the timer, in order. *)
Definition run_ticks (clocks : list wall_clock) (st : scheduler * process)
  : scheduler * process :=
  fold_left tick clocks st.

(** The number of transactions committed on a connection. *)
Definition commits (c : conn) : nat :=
  List.length (filter (fun m => match m with COMMIT => true | _ => false end)
                 (log c)).

(** A time of day as [HH:MM]. *)
Definition clock_text (hours minutes : Z) : string :=
  padStart 2 "0"%char (String_of hours) ++ ":"
  ++ padStart 2 "0"%char (String_of minutes).

(* ===================================================================== *)
(** ** Admin routes: toBoolean and validateServicePayload *)
(* ===================================================================== *)










(* ===================================================================== *)
(** ** Admin routes: the services of an agent *)
(* ===================================================================== *)











(* ===================================================================== *)
(** ** Terminal route POST /logout *)
(* ===================================================================== *)

(** [SET current_agent_id = NULL, state = 'offline']. *)
Definition sign_off (c : counter) : counter :=
  mkCounter (c_id c) offline None (current_ticket_id c)
    (default_service_id c).

(** POST /logout for numeric ids; the UPDATE runs on the connection
    outside any transaction of the handler, and [this.changes] is the
    number of rows it matched.  The result is the logout time. *)
Definition logout (agentId counterId : option Z) (now : Z) (s : store)
  : store * (error + Z) :=
  if negb (truthy agentId) || negb (truthy counterId)
  then (s, inl (httpError 400 "agentId and counterId are required"))
  else
    let aid := nullish agentId 0 in
    let cid := nullish counterId 0 in
    let matched c := (c_id c =? cid) && col_eqb (current_agent_id c) aid in
    if Nat.eqb (List.length (filter matched (counters s))) 0
    then (s, inl (httpError 400 "Agent not logged in to this counter"))
    else
      (mkStore (tickets s) (ticket_seq s) (services s)
         (map (fun c => if matched c then sign_off c else c) (counters s))
         (agent_services s),
       inr now).

(* ===================================================================== *)
(** ** The state [recycled] *)
(* ===================================================================== *)

(** No ticket row is in state [recycled]. *)
Definition no_recycled (s : store) : Prop :=
  Forall (fun t => t_state t <> recycled) (tickets s).

(* ===================================================================== *)
(** * Theorems *)
(* ===================================================================== *)

(** ** Basic facts about the helpers *)

Lemma ticket_state_eqb_eq a b : ticket_state_eqb a b = true <-> a = b.
Proof. destruct a, b; simpl; split; congruence. Qed.

Lemma find_app {A} (f : A -> bool) (l1 l2 : list A) :
  find f (l1 ++ l2) =
  match find f l1 with
  | Some x => Some x
  | None => find f l2
  end.
Proof.
  induction l1 as [|x l1 IH]; simpl; [reflexivity|].
  destruct (f x); [reflexivity | exact IH].
Qed.

Lemma find_none_all {A} (f : A -> bool) (l : list A) :
  (forall x, In x l -> f x = false) -> find f l = None.
Proof.
  induction l as [|x l IH]; simpl; intros H; [reflexivity|].
  rewrite (H x (or_introl eq_refl)). apply IH. intros y Hy. apply H. now right.
Qed.

Lemma find_is_some {A} (f : A -> bool) (l : list A) (x : A) :
  In x l -> f x = true -> exists y, find f l = Some y.
Proof.
  intros Hin Hf. destruct (find f l) as [y|] eqn:E.
  - now exists y.
  - exfalso. pose proof (find_none _ _ E x Hin) as H. congruence.
Qed.

(** *** ORDER BY keeps the rows *)

Section SortingFacts.
Context {A : Type}.
Variable le : A -> A -> bool.

Lemma insert_sorted_In (x y : A) (l : list A) :
  In y (insert_sorted le x l) <-> y = x \/ In y l.
Proof.
  induction l as [|z l IH]; simpl.
  - intuition.
  - destruct (le x z); simpl.
    + intuition.
    + rewrite IH. intuition.
Qed.

Lemma order_by_In (y : A) (l : list A) :
  In y (order_by le l) <-> In y l.
Proof.
  induction l as [|x l IH]; simpl.
  - tauto.
  - rewrite insert_sorted_In, IH. intuition.
Qed.

Lemma insert_sorted_length (x : A) (l : list A) :
  List.length (insert_sorted le x l) = S (List.length l).
Proof.
  induction l as [|z l IH]; simpl; [reflexivity|].
  destruct (le x z); simpl; [reflexivity | now rewrite IH].
Qed.

Lemma order_by_length (l : list A) :
  List.length (order_by le l) = List.length l.
Proof.
  induction l as [|x l IH]; simpl; [reflexivity|].
  now rewrite insert_sorted_length, IH.
Qed.

Lemma order_by_nil (l : list A) : order_by le l = [] <-> l = [].
Proof.
  split; intros H.
  - apply length_zero_iff_nil. rewrite <- order_by_length, H. reflexivity.
  - subst. reflexivity.
Qed.

Lemma order_by_head (l : list A) (x : A) :
  In x l -> exists y, hd_error (order_by le l) = Some y /\ In y l.
Proof.
  intros Hin. destruct (order_by le l) as [|y r] eqn:E.
  - apply (proj1 (order_by_nil l)) in E. rewrite E in Hin. inversion Hin.
  - exists y. split; [reflexivity|].
    apply order_by_In. rewrite E. now left.
Qed.
End SortingFacts.

(** *** The join with [services] *)

Lemma join_services_In ts svs t sv :
  In (t, sv) (join_services ts svs) <->
  In t ts /\ In sv svs /\ service_id t = s_id sv.
Proof.
  unfold join_services. rewrite in_flat_map. split.
  - intros (t' & Ht' & Hin). apply in_map_iff in Hin.
    destruct Hin as (sv' & Heq & Hf). inversion Heq; subst.
    apply filter_In in Hf. destruct Hf as [Hsv Hid].
    apply Z.eqb_eq in Hid. auto.
  - intros (Ht & Hsv & Hid). exists t. split; [assumption|].
    apply in_map_iff. exists sv. split; [reflexivity|].
    apply filter_In. split; [assumption|]. now apply Z.eqb_eq.
Qed.

(** A row test that names one ticket finds that ticket, joined with a
    service row of the ticket's service. *)
Lemma join_lookup (P : ticket -> bool) ts svs t :
  In t ts ->
  (exists sv, In sv svs /\ s_id sv = service_id t) ->
  P t = true ->
  (forall t', In t' ts -> P t' = true -> t' = t) ->
  exists sv,
    find (fun r => P (fst r)) (join_services ts svs) = Some (t, sv)
    /\ s_id sv = service_id t.
Proof.
  intros Hin Hfk HP Huniq.
  induction ts as [|x ts IH]; [contradiction|].
  unfold join_services in *. simpl. rewrite find_app.
  destruct (P x) eqn:HPx.
  - assert (x = t) by (apply Huniq; [now left | assumption]). subst x.
    destruct Hfk as (sv & Hsv & Hid).
    destruct (filter (fun sv0 => service_id t =? s_id sv0) svs)
      as [|sv0 rest] eqn:Ef.
    + exfalso.
      assert (Hm : In sv (filter (fun sv0 => service_id t =? s_id sv0) svs)).
      { apply filter_In. split; [assumption|]. apply Z.eqb_eq. congruence. }
      rewrite Ef in Hm. contradiction.
    + assert (Hm : In sv0 (filter (fun sv1 => service_id t =? s_id sv1) svs)).
      { rewrite Ef. now left. }
      apply filter_In in Hm. destruct Hm as [_ Hm]. apply Z.eqb_eq in Hm.
      exists sv0. simpl. rewrite HP. split; congruence.
  - rewrite find_none_all.
    + apply IH.
      * destruct Hin as [-> | Hin]; [congruence | assumption].
      * intros t' Ht'. apply Huniq. now right.
    + intros [t' sv'] Hr. apply in_map_iff in Hr.
      destruct Hr as (sv'' & Heq & _). inversion Heq; subst. exact HPx.
Qed.

Lemma primary_key_unique s t t' :
  primary_key s -> In t (tickets s) -> In t' (tickets s) ->
  t_id t' = t_id t -> t' = t.
Proof.
  unfold primary_key. intros Hnd. induction (tickets s) as [|x l IH];
    simpl; intros Ht Ht' Hid; [contradiction|].
  inversion Hnd as [|? ? Hnotin Hnd']; subst.
  destruct Ht as [<- | Ht], Ht' as [<- | Ht'].
  - reflexivity.
  - exfalso. apply Hnotin. rewrite <- Hid. now apply in_map.
  - exfalso. apply Hnotin. rewrite Hid. now apply in_map.
  - now apply IH.
Qed.

(** *** withTransaction on an idle connection *)

Section Transactions.
Context {A : Type}.
Variable work : tx A.
Variable mode : option string.

Lemma withTransaction_throw (c : conn) d e :
  idle c ->
  work (data c) = (d, inl e) ->
  withTransaction work mode c =
    (mkConn (data c) None (log c ++ [BEGIN (begin_mode mode); ROLLBACK]),
     inl e).
Proof.
  unfold idle, withTransaction, run_work, exec. intros Hidle Hw.
  rewrite Hidle. cbn. rewrite Hw. cbn.
  now rewrite <- app_assoc.
Qed.

Lemma withTransaction_return (c : conn) d r :
  idle c ->
  work (data c) = (d, inr r) ->
  withTransaction work mode c =
    (mkConn d None (log c ++ [BEGIN (begin_mode mode); COMMIT]), inr r).
Proof.
  unfold idle, withTransaction, run_work, exec. intros Hidle Hw.
  rewrite Hidle. cbn. rewrite Hw. cbn.
  now rewrite <- app_assoc.
Qed.

(** On a connection with a transaction already open, BEGIN is refused
    and [work] never runs. *)
Lemma withTransaction_busy (c : conn) s0 :
  snapshot c = Some s0 ->
  withTransaction work mode c =
    (c, inl (plainError "cannot start a transaction within a transaction")).
Proof.
  unfold withTransaction, exec. intros H. now rewrite H.
Qed.

(** An error leaving [withTransaction] is the refusal of BEGIN or an
    error thrown by [work]. *)
Lemma withTransaction_error (c : conn) e :
  snd (withTransaction work mode c) = inl e ->
  e = plainError "cannot start a transaction within a transaction"
  \/ exists d, work (data c) = (d, inl e).
Proof.
  destruct (snapshot c) as [s0|] eqn:Hs.
  - rewrite (withTransaction_busy c s0 Hs). simpl. intros H.
    left. congruence.
  - destruct (work (data c)) as [d [e'|r]] eqn:Hw.
    + rewrite (withTransaction_throw c d e' Hs Hw). simpl. intros H.
      right. exists d. congruence.
    + rewrite (withTransaction_return c d r Hs Hw). simpl. discriminate.
Qed.
End Transactions.

(** ** C8: transactional atomicity *)

(** C8.  For every unit of work run through [withTransaction] on an idle
    connection: if the work throws, whatever it wrote before, ROLLBACK is
    issued after BEGIN, no COMMIT is issued, the same error is rethrown
    and the data are those from before the call; if the work returns,
    COMMIT is issued (and no ROLLBACK), the data are those the work left
    and its result is returned unchanged. *)
Theorem withTransaction_atomic {A : Type} (work : tx A)
    (mode : option string) (c : conn) :
  idle c ->
  (forall d e, work (data c) = (d, inl e) ->
     withTransaction work mode c =
       (mkConn (data c) None
          (log c ++ [BEGIN (begin_mode mode); ROLLBACK]), inl e))
  /\
  (forall d r, work (data c) = (d, inr r) ->
     withTransaction work mode c =
       (mkConn d None
          (log c ++ [BEGIN (begin_mode mode); COMMIT]), inr r)).
Proof.
  intros Hidle. split; intros d x Hw.
  - exact (withTransaction_throw work mode c d x Hidle Hw).
  - exact (withTransaction_return work mode c d x Hidle Hw).
Qed.

Lemma withTransaction_atomic_witness :
  idle Demo.conn2
  /\ withTransaction Demo.write_then_throw None Demo.conn2 =
       (mkConn (data Demo.conn2) None
          (log Demo.conn2 ++ [BEGIN None; ROLLBACK]),
        inl (httpError 500 "boom"))
  /\ withTransaction Demo.write_then_return (Some "immediate") Demo.conn2 =
       (mkConn (delete_ticket 1 (data Demo.conn2)) None
          (log Demo.conn2 ++ [BEGIN (Some "IMMEDIATE"); COMMIT]),
        inr 42).
Proof.
  split; [reflexivity|]. split.
  - exact (proj1 (withTransaction_atomic Demo.write_then_throw None
                    Demo.conn2 eq_refl) _ _ eq_refl).
  - exact (proj2 (withTransaction_atomic Demo.write_then_return
                    (Some "immediate") Demo.conn2 eq_refl) _ _ eq_refl).
Defined.

(** The partial writes of [Demo.write_then_throw] are visible inside the
    transaction and gone after it. *)
Example write_then_throw_partial :
  tickets (fst (Demo.write_then_throw (data Demo.conn2)))
    <> tickets (data Demo.conn2)
  /\ data (fst (withTransaction Demo.write_then_throw None Demo.conn2))
     = data Demo.conn2.
Proof.
  split; [vm_compute; discriminate | reflexivity].
Qed.

(** ** Looking a ticket up by its assignment *)

Lemma parsePositiveInt_ok (n : Z) (field : string) :
  0 < n -> parsePositiveInt (Some n) field = inr n.
Proof.
  intros H. unfold parsePositiveInt.
  destruct (n <=? 0) eqn:E; [apply Z.leb_le in E; lia | reflexivity].
Qed.

Lemma assigned_ticket_found s t cid aid :
  primary_key s -> foreign_key s -> In t (tickets s) ->
  counter_id t = Some cid -> agent_id t = Some aid ->
  exists sv,
    assigned_ticket (t_id t) cid aid s = Some (t, sv)
    /\ s_id sv = service_id t.
Proof.
  intros Hpk Hfk Hin Hc Ha.
  unfold assigned_ticket, tickets_join_services.
  apply (join_lookup
           (fun x => (t_id x =? t_id t) && col_eqb (counter_id x) cid
                     && col_eqb (agent_id x) aid)).
  - exact Hin.
  - exact (Hfk t Hin).
  - rewrite Z.eqb_refl, Hc, Ha. simpl. now rewrite !Z.eqb_refl.
  - intros t' Hin' HP.
    apply andb_true_iff in HP. destruct HP as [HP _].
    apply andb_true_iff in HP. destruct HP as [HP _].
    apply Z.eqb_eq in HP. now apply (primary_key_unique s).
Qed.

Lemma called_ticket_found s t cid aid :
  primary_key s -> foreign_key s -> In t (tickets s) ->
  t_state t = called ->
  counter_id t = Some cid -> agent_id t = Some aid ->
  exists sv,
    called_ticket (t_id t) cid aid s = Some (t, sv)
    /\ s_id sv = service_id t.
Proof.
  intros Hpk Hfk Hin Hst Hc Ha.
  unfold called_ticket, tickets_join_services.
  apply (join_lookup
           (fun x => (t_id x =? t_id t)
                     && ticket_state_eqb (t_state x) called
                     && col_eqb (counter_id x) cid
                     && col_eqb (agent_id x) aid)).
  - exact Hin.
  - exact (Hfk t Hin).
  - rewrite Z.eqb_refl, Hst, Hc, Ha. simpl. now rewrite !Z.eqb_refl.
  - intros t' Hin' HP.
    apply andb_true_iff in HP. destruct HP as [HP _].
    apply andb_true_iff in HP. destruct HP as [HP _].
    apply andb_true_iff in HP. destruct HP as [HP _].
    apply Z.eqb_eq in HP. now apply (primary_key_unique s).
Qed.

(** ** POST /complete *)

Lemma complete_work_completed s row tid cid aid newNotes now :
  assigned_ticket tid cid aid s = Some row ->
  t_state (fst row) = completed ->
  complete_work tid cid aid newNotes now s =
    (s, inl (httpError 400 "Ticket already completed")).
Proof.
  intros Hfind Hst. unfold complete_work, bind, query.
  rewrite Hfind. unfold throw_if. rewrite Hst. reflexivity.
Qed.

Lemma complete_work_ok s row tid cid aid newNotes now :
  assigned_ticket tid cid aid s = Some row ->
  t_state (fst row) <> completed ->
  exists r,
    complete_work tid cid aid newNotes now s =
      (update_counter cid release_counter
         (update_ticket tid
            (mark_completed now (compute_actual_wait (fst row))
               (compute_service_duration now (fst row)) newNotes) s),
       inr r)
    /\ cr_actualWait r = compute_actual_wait (fst row)
    /\ cr_serviceDuration r = compute_service_duration now (fst row)
    /\ cr_id r = tid.
Proof.
  intros Hfind Hst. unfold complete_work, bind, query.
  rewrite Hfind. unfold throw_if.
  destruct (ticket_state_eqb (t_state (fst row)) completed) eqn:E.
  - apply ticket_state_eqb_eq in E. contradiction.
  - eexists. split; [reflexivity|]. simpl. auto.
Qed.

Lemma complete_parsed body tid cid aid now c :
  b_ticketId body = Some tid -> b_counterId body = Some cid ->
  b_agentId body = Some aid -> 0 < tid -> 0 < cid -> 0 < aid ->
  complete body now c =
    withTransaction (complete_work tid cid aid (b_notes body) now) None c.
Proof.
  intros Ht Hc Ha Htid Hcid Haid. unfold complete.
  rewrite Ht, Hc, Ha.
  now rewrite !parsePositiveInt_ok by assumption.
Qed.

(** C3.  A complete request for a ticket that is already [completed]
    and assigned to the requesting counter and agent is answered with
    the 400 error "Ticket already completed"; the transaction is rolled
    back and the connection holds the same data as before, so the
    ticket's row (state [completed] included) is unchanged. *)
Theorem complete_rejects_completed_ticket :
  forall (c : conn) (t : ticket) (cid aid now : Z) (body : terminal_body),
    idle c -> primary_key (data c) -> foreign_key (data c) ->
    In t (tickets (data c)) ->
    t_state t = completed ->
    counter_id t = Some cid -> agent_id t = Some aid ->
    0 < t_id t -> 0 < cid -> 0 < aid ->
    b_ticketId body = Some (t_id t) ->
    b_counterId body = Some cid -> b_agentId body = Some aid ->
    complete body now c =
      (mkConn (data c) None (log c ++ [BEGIN None; ROLLBACK]),
       inl (httpError 400 "Ticket already completed"))
    /\ In t (tickets (data (fst (complete body now c)))).
Proof.
  intros c t cid aid now body Hidle Hpk Hfk Hin Hst Hc Ha Htid Hcid Haid
    Hbt Hbc Hba.
  destruct (assigned_ticket_found (data c) t cid aid Hpk Hfk Hin Hc Ha)
    as (sv & Hfind & _).
  assert (Heq : complete body now c =
      (mkConn (data c) None (log c ++ [BEGIN None; ROLLBACK]),
       inl (httpError 400 "Ticket already completed"))).
  { rewrite (complete_parsed body (t_id t) cid aid now c) by assumption.
    apply (withTransaction_throw _ None c (data c)); [assumption|].
    now apply (complete_work_completed (data c) (t, sv)). }
  split; [exact Heq|]. rewrite Heq. exact Hin.
Qed.

(** Discharging the schema constraints on a concrete store. *)
Ltac concrete_key :=
  unfold primary_key; vm_compute;
  repeat (constructor; [vm_compute; intuition discriminate|]);
  constructor.

Ltac concrete_reference :=
  unfold foreign_key; vm_compute;
  let t := fresh "t" in
  let H := fresh "H" in
  intros t H;
  repeat (destruct H as [<- | H];
          [eexists; split;
           [first [left; reflexivity
                  | right; left; reflexivity
                  | right; right; left; reflexivity]
           | reflexivity]
          |]);
  destruct H.

Ltac concrete_row :=
  vm_compute;
  first [left; reflexivity
        | right; left; reflexivity
        | right; right; left; reflexivity
        | right; right; right; left; reflexivity].

Lemma complete_rejects_completed_ticket_witness :
  In Demo.ticket1_completed (tickets (data Demo.conn4))
  /\ complete Demo.ticket1_body 70000 Demo.conn4 =
       (mkConn (data Demo.conn4) None
          (log Demo.conn4 ++ [BEGIN None; ROLLBACK]),
        inl (httpError 400 "Ticket already completed")).
Proof.
  split; [concrete_row|].
  refine (proj1 (complete_rejects_completed_ticket Demo.conn4
                   Demo.ticket1_completed 3 7 70000 Demo.ticket1_body
                   eq_refl _ _ _ eq_refl eq_refl eq_refl eq_refl eq_refl
                   eq_refl eq_refl eq_refl eq_refl)).
  - concrete_key.
  - concrete_reference.
  - concrete_row.
Defined.

(** Floored division by 1000. *)
Lemma floor_seconds_spec (ms : Z) :
  1000 * floor_seconds ms <= ms < 1000 * floor_seconds ms + 1000.
Proof.
  unfold floor_seconds.
  pose proof (Z.div_mod ms 1000 ltac:(lia)).
  pose proof (Z.mod_pos_bound ms 1000 ltac:(lia)). lia.
Qed.

Lemma floor_seconds_nonneg (ms : Z) : 0 <= ms -> 0 <= floor_seconds ms.
Proof. intros H. unfold floor_seconds. apply Z.div_pos; lia. Qed.

(** C5.  Completing a ticket that is not yet completed stores
    and returns [actual_wait] and [service_duration] computed as follows,
    where servedAt is [served_at], or [called_at] when [served_at] is
    null: [actual_wait] is null unless [created_at] and servedAt are both
    present, and is then the floor of (servedAt - created_at) / 1000;
    [service_duration] is null unless servedAt is present, and is then
    the floor of (completion time - servedAt) / 1000.  Each value is
    non-negative when the earlier instant of its difference is not after
    the later one. *)
Theorem complete_wait_and_duration :
  forall (c : conn) (t : ticket) (cid aid now : Z) (body : terminal_body),
    idle c -> primary_key (data c) -> foreign_key (data c) ->
    In t (tickets (data c)) ->
    t_state t <> completed ->
    counter_id t = Some cid -> agent_id t = Some aid ->
    0 < t_id t -> 0 < cid -> 0 < aid ->
    b_ticketId body = Some (t_id t) ->
    b_counterId body = Some cid -> b_agentId body = Some aid ->
    exists (r : complete_result) (wait duration : option Z),
      snd (complete body now c) = inr r
      /\ cr_actualWait r = wait /\ cr_serviceDuration r = duration
      /\ In (mark_completed now wait duration (b_notes body) t)
            (tickets (data (fst (complete body now c))))
      /\ (created_at t = None \/ servedAt_of t = None -> wait = None)
      /\ (forall created served,
             created_at t = Some created -> servedAt_of t = Some served ->
             exists w, wait = Some w
                       /\ 1000 * w <= served - created < 1000 * w + 1000
                       /\ (created <= served -> 0 <= w))
      /\ (servedAt_of t = None -> duration = None)
      /\ (forall served,
             servedAt_of t = Some served ->
             exists d, duration = Some d
                       /\ 1000 * d <= now - served < 1000 * d + 1000
                       /\ (served <= now -> 0 <= d)).
Proof.
  intros c t cid aid now body Hidle Hpk Hfk Hin Hst Hc Ha Htid Hcid Haid
    Hbt Hbc Hba.
  destruct (assigned_ticket_found (data c) t cid aid Hpk Hfk Hin Hc Ha)
    as (sv & Hfind & _).
  destruct (complete_work_ok (data c) (t, sv) (t_id t) cid aid
              (b_notes body) now Hfind Hst)
    as (r & Hrun & Hw & Hd & _).
  simpl in Hrun, Hw, Hd.
  exists r, (compute_actual_wait t), (compute_service_duration now t).
  rewrite (complete_parsed body (t_id t) cid aid now c) by assumption.
  rewrite (withTransaction_return _ None c _ r Hidle Hrun). simpl.
  split; [reflexivity|]. split; [assumption|]. split; [assumption|].
  split.
  { apply in_map_iff. exists t. split; [|assumption].
    now rewrite Z.eqb_refl. }
  unfold compute_actual_wait, compute_service_duration.
  split.
  { intros [H | H]; rewrite H; [reflexivity|].
    now destruct (created_at t). }
  split.
  { intros created served Hcr Hsv. rewrite Hcr, Hsv.
    exists (floor_seconds (served - created)).
    split; [reflexivity|]. split; [apply floor_seconds_spec|].
    intros Hle. apply floor_seconds_nonneg. lia. }
  split.
  { intros H. now rewrite H. }
  intros served Hsv. rewrite Hsv.
  exists (floor_seconds (now - served)).
  split; [reflexivity|]. split; [apply floor_seconds_spec|].
  intros Hle. apply floor_seconds_nonneg. lia.
Qed.

Lemma complete_wait_and_duration_witness :
  exists r,
    snd (complete Demo.ticket1_body 65000 Demo.conn3) = inr r
    /\ cr_actualWait r = Some 4 /\ cr_serviceDuration r = Some 60.
Proof.
  destruct (complete_wait_and_duration Demo.conn3 Demo.ticket1_called
              3 7 65000 Demo.ticket1_body eq_refl
              ltac:(concrete_key) ltac:(concrete_reference)
              ltac:(concrete_row) ltac:(discriminate)
              eq_refl eq_refl eq_refl eq_refl eq_refl eq_refl eq_refl
              eq_refl)
    as (r & wait & duration & Hr & Hw & Hd & _ & _ & Hwait & _ & Hdur).
  exists r. split; [exact Hr|].
  destruct (Hwait 1000 5000 eq_refl eq_refl) as (w & Hweq & Hwb & _).
  destruct (Hdur 5000 eq_refl) as (d & Hdeq & Hdb & _).
  rewrite Hw, Hd, Hweq, Hdeq.
  split; f_equal; lia.
Defined.

(** ** The data a transaction leaves behind *)

Lemma withTransaction_data {A} (work : tx A) (mode : option string)
    (c : conn) :
  data (fst (withTransaction work mode c)) = data c
  \/ data (fst (withTransaction work mode c)) = fst (work (data c)).
Proof.
  destruct (snapshot c) as [s0|] eqn:Hs.
  - left. now rewrite (withTransaction_busy work mode c s0 Hs).
  - destruct (work (data c)) as [d [e|r]] eqn:Hw.
    + left. now rewrite (withTransaction_throw work mode c d e Hs Hw).
    + right. now rewrite (withTransaction_return work mode c d r Hs Hw).
Qed.

(** ** POST /recycle *)

Lemma mark_recycled_order_key t : order_key (mark_recycled t) = order_key t.
Proof. reflexivity. Qed.

Lemma update_ticket_order_keys (f : ticket -> ticket) tid s :
  (forall t, order_key (f t) = order_key t) ->
  map order_key (tickets (update_ticket tid f s))
  = map order_key (tickets s).
Proof.
  intros Hf. unfold update_ticket. simpl. rewrite map_map.
  apply map_ext. intros t. destruct (t_id t =? tid); [apply Hf | reflexivity].
Qed.

(** Whatever its outcome, the work of recycle leaves the ordering keys
    of every ticket as they were. *)
Lemma recycle_work_order_keys tid cid aid pos now s :
  map order_key (tickets (fst (recycle_work tid cid aid pos now s)))
  = map order_key (tickets s).
Proof.
  unfold recycle_work, bind, query.
  destruct (assigned_ticket tid cid aid s) as [row|]; [|reflexivity].
  unfold throw_if.
  destruct (negb (ticket_state_eqb (t_state (fst row)) called));
    [reflexivity|].
  simpl. apply update_ticket_order_keys. exact mark_recycled_order_key.
Qed.

Lemma recycle_order_keys body now c :
  map order_key (tickets (data (fst (recycle body now c))))
  = map order_key (tickets (data c)).
Proof.
  unfold recycle.
  destruct (parsePositiveInt (b_ticketId body) "ticketId") as [e|tid];
    [reflexivity|].
  destruct (parsePositiveInt (b_counterId body) "counterId") as [e|cid];
    [reflexivity|].
  destruct (parsePositiveInt (b_agentId body) "agentId") as [e|aid];
    [reflexivity|].
  destruct (parseOptionalPositiveInt (b_position body) "position" (Some 3))
    as [e|pos]; [reflexivity|].
  match goal with
  | |- context [withTransaction ?w ?m c] =>
      destruct (withTransaction_data w m c) as [H | H]; rewrite H
  end.
  - reflexivity.
  - apply recycle_work_order_keys.
Qed.

Lemma recycle_work_ok s row tid cid aid pos now :
  assigned_ticket tid cid aid s = Some row ->
  t_state (fst row) = called ->
  exists r,
    recycle_work tid cid aid pos now s =
      (update_counter cid release_counter
         (update_ticket tid mark_recycled s), inr r)
    /\ rr_id r = tid /\ rr_requestedPosition r = pos.
Proof.
  intros Hfind Hst. unfold recycle_work, bind, query.
  rewrite Hfind. unfold throw_if. rewrite Hst. simpl.
  eexists. split; [reflexivity|]. simpl. auto.
Qed.

Lemma position_accepted (position : option Z) :
  (forall p, position = Some p -> 0 <= p) ->
  exists pos, parseOptionalPositiveInt position "position" (Some 3)
              = inr (Some pos).
Proof.
  intros H. unfold parseOptionalPositiveInt.
  destruct position as [p|]; simpl.
  - specialize (H p eq_refl).
    destruct (p =? 0) eqn:E; simpl.
    + now exists 3.
    + apply Z.eqb_neq in E.
      destruct (p <=? 0) eqn:E'; [apply Z.leb_le in E'; lia|].
      now exists p.
  - now exists 3.
Qed.

(** C4.  For a ticket in state [called] assigned to the requesting
    counter and agent: whatever [position] the caller supplies, the id,
    priority and created_at of every ticket are the same after the
    request as before; and when the position is absent, zero or a
    positive integer (any other is refused with 400 before the
    transaction), recycle succeeds, the ticket's row has state
    [waiting] with counter_id, agent_id, called_at and served_at null
    and its priority and created_at unchanged, and the counter has state
    [available] and current_ticket_id null. *)
Theorem recycle_returns_ticket_to_waiting :
  forall (c : conn) (t : ticket) (cid aid now : Z) (body : terminal_body),
    idle c -> primary_key (data c) -> foreign_key (data c) ->
    In t (tickets (data c)) ->
    t_state t = called ->
    counter_id t = Some cid -> agent_id t = Some aid ->
    0 < t_id t -> 0 < cid -> 0 < aid ->
    b_ticketId body = Some (t_id t) ->
    b_counterId body = Some cid -> b_agentId body = Some aid ->
    map order_key (tickets (data (fst (recycle body now c))))
      = map order_key (tickets (data c))
    /\ ((forall p, b_position body = Some p -> 0 <= p) ->
        (exists r, snd (recycle body now c) = inr r /\ rr_id r = t_id t)
        /\ data (fst (recycle body now c))
           = update_counter cid release_counter
               (update_ticket (t_id t) mark_recycled (data c))
        /\ In (mark_recycled t) (tickets (data (fst (recycle body now c))))
        /\ (forall t',
               In t' (tickets (data (fst (recycle body now c)))) ->
               t_id t' = t_id t ->
               t_state t' = waiting
               /\ counter_id t' = None /\ agent_id t' = None
               /\ called_at t' = None /\ served_at t' = None
               /\ t_priority t' = t_priority t
               /\ created_at t' = created_at t)
        /\ (forall k,
               In k (counters (data (fst (recycle body now c)))) ->
               c_id k = cid ->
               c_state k = available /\ current_ticket_id k = None)).
Proof.
  intros c t cid aid now body Hidle Hpk Hfk Hin Hst Hc Ha Htid Hcid Haid
    Hbt Hbc Hba.
  split; [apply recycle_order_keys|].
  intros Hpos.
  destruct (assigned_ticket_found (data c) t cid aid Hpk Hfk Hin Hc Ha)
    as (sv & Hfind & _).
  destruct (position_accepted (b_position body) Hpos) as (pos & Hparse).
  destruct (recycle_work_ok (data c) (t, sv) (t_id t) cid aid pos now
              Hfind Hst) as (r & Hrun & Hrid & _).
  assert (Heq : recycle body now c =
            (mkConn (update_counter cid release_counter
                       (update_ticket (t_id t) mark_recycled (data c)))
               None (log c ++ [BEGIN None; COMMIT]), inr r)).
  { unfold recycle. rewrite Hbt, Hbc, Hba, Hparse.
    rewrite !parsePositiveInt_ok by assumption. simpl.
    exact (withTransaction_return _ None c _ r Hidle Hrun). }
  rewrite Heq. simpl.
  split; [now exists r|]. split; [reflexivity|].
  split.
  { apply in_map_iff. exists t. split; [|assumption].
    now rewrite Z.eqb_refl. }
  split.
  - intros t' Hin' Hid'.
    apply in_map_iff in Hin'. destruct Hin' as (t0 & Heq0 & Hin0).
    destruct (t_id t0 =? t_id t) eqn:E.
    + apply Z.eqb_eq in E.
      assert (t0 = t) by now apply (primary_key_unique (data c)).
      subst t0 t'. simpl. repeat split.
    + apply Z.eqb_neq in E. subst t'. contradiction.
  - intros k Hk Hid.
    apply in_map_iff in Hk. destruct Hk as (k0 & Heq0 & Hin0).
    destruct (c_id k0 =? cid) eqn:E.
    + subst k. simpl. auto.
    + apply Z.eqb_neq in E. subst k. contradiction.
Qed.

Lemma recycle_returns_ticket_to_waiting_witness :
  In (mark_recycled Demo.ticket1_called)
     (tickets (data (fst (recycle
                            (mkTerminalBody (Some 1) (Some 3) (Some 7) None
                               (Some 1) None)
                            9000 Demo.conn3))))
  /\ data (fst (recycle
                  (mkTerminalBody (Some 1) (Some 3) (Some 7) None
                     (Some 1) None) 9000 Demo.conn3))
     = data (fst (recycle
                    (mkTerminalBody (Some 1) (Some 3) (Some 7) None
                       (Some 250) None) 9000 Demo.conn3)).
Proof.
  pose proof (recycle_returns_ticket_to_waiting Demo.conn3
                Demo.ticket1_called 3 7 9000
                (mkTerminalBody (Some 1) (Some 3) (Some 7) None (Some 1) None)
                eq_refl ltac:(concrete_key) ltac:(concrete_reference)
                ltac:(concrete_row) eq_refl eq_refl eq_refl eq_refl eq_refl
                eq_refl eq_refl eq_refl eq_refl) as [_ H1].
  assert (Hp : forall p : Z, Some 1 = Some p -> 0 <= p).
  { intros p Hp. injection Hp as <-. lia. }
  destruct (H1 Hp) as (_ & _ & Hrow & _).
  split; [exact Hrow | reflexivity].
Defined.

(** ** POST /transfer *)

Lemma max_ticket_id_ge (l : list ticket) (t : ticket) :
  In t l -> t_id t <= max_ticket_id l.
Proof.
  unfold max_ticket_id.
  induction l as [|x l IH]; intros Hin; [destruct Hin|].
  cbn [fold_right]. destruct Hin as [-> | Hin]; [lia|].
  specialize (IH Hin). lia.
Qed.

(** The rowid of an inserted ticket is not in use. *)
Lemma next_ticket_id_fresh (s : store) (t : ticket) :
  In t (tickets s) -> t_id t < next_ticket_id s.
Proof.
  intros Hin. unfold next_ticket_id.
  pose proof (max_ticket_id_ge _ _ Hin). lia.
Qed.

Lemma active_service_found (s : store) (sv : service) :
  In sv (services s) -> is_active sv = true ->
  exists sv', active_service (s_id sv) s = Some sv'
              /\ s_id sv' = s_id sv /\ is_active sv' = true.
Proof.
  intros Hin Hact. unfold active_service.
  destruct (find_is_some
              (fun x => (s_id x =? s_id sv) && is_active x)
              (services s) sv Hin) as (sv' & Hfind).
  { now rewrite Z.eqb_refl, Hact. }
  exists sv'. split; [exact Hfind|].
  apply find_some in Hfind. destruct Hfind as [_ H].
  apply andb_true_iff in H. destruct H as [H1 H2].
  apply Z.eqb_eq in H1. auto.
Qed.

Lemma text_or_null_intake (v : option string) :
  v <> Some "" -> text_or_null v = v.
Proof.
  destruct v as [[|a r]|]; simpl; intros H; congruence.
Qed.

Lemma transfer_work_ok s t sv tsv tid target cid aid now :
  called_ticket tid cid aid s = Some (t, sv) ->
  active_service target s = Some tsv ->
  s_id tsv <> service_id t ->
  exists r,
    transfer_work tid target cid aid now s =
      (delete_ticket tid
         (update_counter cid release_counter
            (fst (insert_ticket (transferred_row t target now) s))),
       inr r)
    /\ tr_id r = next_ticket_id s
    /\ tr_oldTicketId r = tid.
Proof.
  intros Hfind Htarget Hdiff. unfold transfer_work, bind, query.
  rewrite Hfind, Htarget. unfold throw_if. simpl.
  destruct (s_id tsv =? service_id t) eqn:E;
    [apply Z.eqb_eq in E; contradiction|].
  eexists. split; [reflexivity|]. simpl. auto.
Qed.

(** C2.  For a ticket in state [called] at the requesting counter and
    agent, written by the intake path, and an active target service
    other than the ticket's service, transfer succeeds and commits; the
    ticket table afterwards is the old table without the old row plus
    exactly one row, whose rowid was not in use.  That row belongs to the
    target service, is [waiting], has the ticket_number, priority and
    customer_name/phone/email of the old row, has original_service_id
    equal to the old row's original_service_id when set and to its
    service_id otherwise, and has transferred_at set to the instant of
    the transfer. *)
Theorem transfer_moves_ticket :
  forall (c : conn) (t : ticket) (target : service) (cid aid now : Z)
         (body : terminal_body),
    idle c -> primary_key (data c) -> foreign_key (data c) ->
    In t (tickets (data c)) ->
    t_state t = called ->
    counter_id t = Some cid -> agent_id t = Some aid ->
    intake_row t ->
    In target (services (data c)) -> is_active target = true ->
    s_id target <> service_id t ->
    0 < t_id t -> 0 < s_id target -> 0 < cid -> 0 < aid ->
    b_ticketId body = Some (t_id t) ->
    b_targetServiceId body = Some (s_id target) ->
    b_counterId body = Some cid -> b_agentId body = Some aid ->
    exists (r : transfer_result) (n : ticket),
      snd (transfer body now c) = inr r
      /\ log (fst (transfer body now c)) = (log c ++ [BEGIN None; COMMIT])%list
      /\ tickets (data (fst (transfer body now c)))
         = (filter (fun x => negb (t_id x =? t_id t)) (tickets (data c))
            ++ [n])%list
      /\ (forall x, In x (tickets (data (fst (transfer body now c)))) ->
                    t_id x <> t_id t)
      /\ (forall x, In x (tickets (data c)) -> t_id x <> t_id n)
      /\ tr_id r = t_id n
      /\ service_id n = s_id target
      /\ t_state n = waiting
      /\ ticket_number n = ticket_number t
      /\ t_priority n = t_priority t
      /\ customer_name n = customer_name t
      /\ customer_phone n = customer_phone t
      /\ customer_email n = customer_email t
      /\ original_service_id n
         = Some (match original_service_id t with
                 | Some original => original
                 | None => service_id t
                 end)
      /\ transferred_at n = Some now.
Proof.
  intros c t target cid aid now body Hidle Hpk Hfk Hin Hst Hc Ha Hrow
    Htin Hact Hdiff Htid Htarget Hcid Haid Hbt Hbs Hbc Hba.
  destruct (called_ticket_found (data c) t cid aid Hpk Hfk Hin Hst Hc Ha)
    as (sv & Hfind & _).
  destruct (active_service_found (data c) target Htin Hact)
    as (tsv & Hlookup & Htsv & _).
  assert (Hdiff' : s_id tsv <> service_id t) by congruence.
  destruct (transfer_work_ok (data c) t sv tsv (t_id t) (s_id target)
              cid aid now Hfind Hlookup Hdiff') as (r & Hrun & Hrid & _).
  pose proof (next_ticket_id_fresh (data c)) as Hfresh.
  set (n := transferred_row t (s_id target) now (next_ticket_id (data c))).
  assert (Heq : transfer body now c =
            (mkConn
               (delete_ticket (t_id t)
                  (update_counter cid release_counter
                     (fst (insert_ticket
                             (transferred_row t (s_id target) now)
                             (data c)))))
               None (log c ++ [BEGIN None; COMMIT]), inr r)).
  { unfold transfer. rewrite Hbt, Hbs, Hbc, Hba.
    rewrite !parsePositiveInt_ok by assumption.
    exact (withTransaction_return _ None c _ r Hidle Hrun). }
  assert (Hnew : negb (t_id n =? t_id t) = true).
  { apply negb_true_iff, Z.eqb_neq. specialize (Hfresh t Hin).
    subst n. simpl. lia. }
  assert (Htable :
            tickets (data (fst (transfer body now c)))
            = (filter (fun x => negb (t_id x =? t_id t)) (tickets (data c))
               ++ [n])%list).
  { rewrite Heq. unfold delete_ticket, update_counter, insert_ticket.
    cbn [fst data tickets]. rewrite filter_app. cbn [filter].
    fold n. now rewrite Hnew. }
  destruct Hrow as (Hname & Hphone & Hemail & Horig).
  exists r, n. rewrite Htable.
  split; [now rewrite Heq|]. split; [now rewrite Heq|].
  split; [reflexivity|].
  split.
  { intros x Hx. apply in_app_or in Hx. destruct Hx as [Hx | [<- | []]].
    - apply filter_In in Hx. destruct Hx as [_ Hx].
      now apply negb_true_iff, Z.eqb_neq in Hx.
    - now apply negb_true_iff, Z.eqb_neq in Hnew. }
  split.
  { intros x Hx. specialize (Hfresh x Hx). subst n. simpl. lia. }
  split; [exact Hrid|].
  subst n. simpl.
  rewrite !text_or_null_intake by assumption.
  repeat split.
  unfold originalServiceId_of, or_else.
  destruct (original_service_id t) as [o|]; [|reflexivity].
  destruct (o =? 0) eqn:E; [|reflexivity].
  apply Z.eqb_eq in E. subst o. contradiction.
Qed.

Lemma transfer_moves_ticket_witness :
  exists r n,
    snd (transfer
           (mkTerminalBody (Some 1) (Some 3) (Some 7) None None (Some 2))
           9000 Demo.conn3) = inr r
    /\ tickets (data (fst (transfer
           (mkTerminalBody (Some 1) (Some 3) (Some 7) None None (Some 2))
           9000 Demo.conn3)))
       = (filter (fun x => negb (t_id x =? 1)) (tickets (data Demo.conn3))
          ++ [n])%list
    /\ service_id n = 2 /\ ticket_number n = "A001"
    /\ customer_name n = Some "Ann"
    /\ original_service_id n = Some 1.
Proof.
  assert (Hrow : intake_row Demo.ticket1_called).
  { repeat split; discriminate. }
  destruct (transfer_moves_ticket Demo.conn3 Demo.ticket1_called
              Demo.payments 3 7 9000
              (mkTerminalBody (Some 1) (Some 3) (Some 7) None None (Some 2))
              eq_refl ltac:(concrete_key) ltac:(concrete_reference)
              ltac:(concrete_row) eq_refl eq_refl eq_refl Hrow
              ltac:(concrete_row) eq_refl ltac:(discriminate)
              eq_refl eq_refl eq_refl eq_refl eq_refl eq_refl eq_refl
              eq_refl)
    as (r & n & Hr & _ & Htable & _ & _ & _ & Hsvc & _ & Hnum & _ & Hname
        & _ & _ & Horig & _).
  exists r, n. repeat split; assumption.
Defined.

(** ** kiosk.js: POST /tickets *)






(** A service whose range is used up answers 409 and keeps its data. *)
Example create_ticket_range_exhausted :
  let full :=
    open_conn (mkStore [] 0
                 [mkService 1 "General" "A" (Some 1) (Some 999) (Some 999)
                    (Some 300) true 0] [] []) in
  create_ticket (mkTicketPayload 1 0 None None None) 1000 full
  = (mkConn (data full) None [BEGIN None; ROLLBACK],
     inl (httpError 409 "Service ticket range exhausted")).
Proof. reflexivity. Qed.

(** Numbers of four digits and more are not cut to three. *)
Example format_ticket_number_examples :
  format_ticket_number "A" 1 = "A001"
  /\ format_ticket_number "A" 42 = "A042"
  /\ format_ticket_number "B" 999 = "B999"
  /\ format_ticket_number "B" 1000 = "B1000".
Proof. repeat split. Qed.

(** ** Call-next against the display order *)

(** C1.  On the installation [Demo.conn2] the waiting pool of service 1
    holds A001 (priority 0, created first) and A002 (priority 2, created
    second).  The snapshot lists A002 first, as priority DESC,
    created_at ASC demands; call-next without a ticketId hands out A001:
    its query orders by created_at alone. *)
Theorem call_next_ignores_priority :
  exists (snap : queue_snapshot) (r : call_next_result),
    getQueueSnapshot 1 (data Demo.conn2) = (data Demo.conn2, inr snap)
    /\ map q_ticket_number (snap_tickets snap) = ["A002"; "A001"]
    /\ map q_priority (snap_tickets snap) = [2; 0]
    /\ map q_created_at (snap_tickets snap) = [Some 2000; Some 1000]
    /\ snd (call_next Demo.next_body 5000 Demo.conn2) = inr r
    /\ cnr_number r = "A001"
    /\ Some (cnr_id r) <> option_map q_id (hd_error (snap_tickets snap)).
Proof.
  eexists. eexists.
  split; [reflexivity|]. split; [reflexivity|]. split; [reflexivity|].
  split; [reflexivity|]. split; [reflexivity|]. split; [reflexivity|].
  vm_compute. discriminate.
Qed.

(** What the next-ticket query does return: a waiting row of the
    service, no later in created_at than any other waiting row. *)
Lemma insert_sorted_head_le {A} (le : A -> A -> bool) (x : A) (l : list A) :
  (forall a b, le a b = false -> le b a = true) ->
  (forall a b c, le a b = true -> le b c = true -> le a c = true) ->
  (forall h, hd_error l = Some h -> forall y, In y l -> le h y = true) ->
  forall h, hd_error (insert_sorted le x l) = Some h ->
            forall y, In y (insert_sorted le x l) -> le h y = true.
Proof.
  intros Htotal Htrans Hl h Hh y Hy.
  apply insert_sorted_In in Hy.
  assert (Hrefl : forall a, le a a = true).
  { intros a. destruct (le a a) eqn:E; [reflexivity|].
    pose proof (Htotal a a E). congruence. }
  destruct l as [|z l]; simpl in *.
  - injection Hh as <-. destruct Hy as [-> | []]. apply Hrefl.
  - destruct (le x z) eqn:E; simpl in Hh; injection Hh as <-.
    + destruct Hy as [-> | Hy]; [apply Hrefl|].
      apply (Htrans _ z); [assumption|]. now apply (Hl z eq_refl).
    + destruct Hy as [-> | Hy]; [now apply Htotal|].
      now apply (Hl z eq_refl).
Qed.

Lemma order_by_head_le {A} (le : A -> A -> bool) (l : list A) :
  (forall a b, le a b = false -> le b a = true) ->
  (forall a b c, le a b = true -> le b c = true -> le a c = true) ->
  forall h, hd_error (order_by le l) = Some h ->
            forall y, In y l -> le h y = true.
Proof.
  intros Htotal Htrans. induction l as [|x l IH]; simpl.
  - discriminate.
  - intros h Hh y Hy.
    apply (insert_sorted_head_le le x (order_by le l) Htotal Htrans);
      [ | exact Hh | ].
    + intros h' Hh' y' Hy'. apply (IH h' Hh'). now apply order_by_In in Hy'.
    + apply insert_sorted_In. destruct Hy as [-> | Hy]; [now left|].
      right. now apply order_by_In.
Qed.

Lemma instant_leb_total a b : instant_leb a b = false -> instant_leb b a = true.
Proof.
  destruct a as [x|], b as [y|]; simpl; try congruence.
  rewrite Z.leb_gt, Z.leb_le. lia.
Qed.

Lemma instant_leb_trans a b c :
  instant_leb a b = true -> instant_leb b c = true -> instant_leb a c = true.
Proof.
  destruct a as [x|], b as [y|], c as [z|]; simpl; try congruence.
  rewrite !Z.leb_le. lia.
Qed.

Lemma next_waiting_ticket_earliest serviceId s row :
  next_waiting_ticket serviceId s = Some row ->
  service_id (fst row) = serviceId
  /\ t_state (fst row) = waiting
  /\ In (fst row) (tickets s)
  /\ forall t, In t (tickets s) -> service_id t = serviceId ->
               t_state t = waiting ->
               (exists sv, In sv (services s) /\ s_id sv = service_id t) ->
               instant_leb (created_at (fst row)) (created_at t) = true.
Proof.
  unfold next_waiting_ticket. intros Hhd.
  set (keep := fun r : ticket * service =>
                 (service_id (fst r) =? serviceId)
                 && ticket_state_eqb (t_state (fst r)) waiting) in *.
  set (le := fun a b : ticket * service =>
               instant_leb (created_at (fst a)) (created_at (fst b))) in *.
  assert (Hrow : In row (filter keep (tickets_join_services s))).
  { apply (order_by_In le). destruct (order_by le _) as [|h r];
      [discriminate|]. injection Hhd as <-. now left. }
  apply filter_In in Hrow. destruct Hrow as [Hjoin Hkeep].
  unfold keep in Hkeep. apply andb_true_iff in Hkeep.
  destruct Hkeep as [Hsid Hst].
  apply Z.eqb_eq in Hsid. apply ticket_state_eqb_eq in Hst.
  destruct row as [t0 sv0]. apply join_services_In in Hjoin.
  destruct Hjoin as (Hin0 & _ & _). simpl in *.
  repeat split; try assumption.
  intros t Hin Hs Hw (sv & Hsv & Hid).
  apply (order_by_head_le le (filter keep (tickets_join_services s))
           (fun a b => instant_leb_total _ _)
           (fun a b c => instant_leb_trans _ _ _)
           (t0, sv0) Hhd (t, sv)).
  apply filter_In. split.
  - apply join_services_In. auto.
  - unfold keep. simpl. rewrite Hs, Hw, Z.eqb_refl. reflexivity.
Qed.

(** ** Negative waits *)

(** A negative wait.  Ticket 500 of a preset carries a created_at 499 ms
    after the preset instant; called 100 ms after the preset, it is
    completed with actual_wait = floor(-399 / 1000) = -1. *)
Lemma complete_negative_actual_wait :
  exists r t,
    snd (complete Demo.ticket500_body 1060000 Demo.preset500_called) = inr r
    /\ cr_actualWait r = Some (-1)
    /\ In t (tickets (data (fst (complete Demo.ticket500_body 1060000
                                   Demo.preset500_called))))
    /\ t_id t = 500 /\ t_state t = completed
    /\ created_at t = Some 1000499 /\ served_at t = Some 1000100
    /\ actual_wait t = Some (-1)
    /\ -1 < 0.
Proof.
  eexists. eexists.
  split; [vm_compute; reflexivity|]. split; [reflexivity|].
  split.
  { apply (nth_error_In _ 499). vm_compute. reflexivity. }
  repeat split.
Qed.

(** ** presetServiceQueue *)

Lemma preset_check_rejects (args : preset_args) :
  pa_serviceId args <= 0 \/ pa_startNumber args < 0
  \/ pa_count args <= 0 \/ 500 < pa_count args ->
  exists e, preset_check args = Some e.
Proof.
  intros H. unfold preset_check.
  destruct (pa_serviceId args <=? 0) eqn:E1; [eauto|].
  destruct (pa_startNumber args <? 0) eqn:E2; [eauto|].
  destruct (pa_count args <=? 0) eqn:E3; [eauto|].
  destruct (500 <? pa_count args) eqn:E4; [eauto|].
  apply Z.leb_gt in E1, E3. apply Z.ltb_ge in E2, E4. lia.
Qed.

(** C6.  [presetServiceQueue] rejects every non-positive
    serviceId, every negative startNumber, every non-positive count and
    every count above 500 before it opens a transaction: the process,
    with its connection, data and statement log, is exactly as before.
    The admin route in front of it answers 400 in the same cases and
    leaves the process unchanged as well. *)
Theorem preset_rejects_invalid_arguments :
  forall (args : preset_args) (now : Z) (p : process),
    pa_serviceId args <= 0 \/ pa_startNumber args < 0
    \/ pa_count args <= 0 \/ 500 < pa_count args ->
    (exists e, presetServiceQueue args now p = (p, inl e))
    /\ (forall priority,
           exists e,
             preset_queue_route
               (mkPresetBody (Some (pa_serviceId args))
                  (Some (pa_startNumber args)) (Some (pa_count args))
                  priority) now p = (p, inl e)
             /\ status e = Some 400).
Proof.
  intros args now p H.
  assert (Hfun : forall a, pa_serviceId a <= 0 \/ pa_startNumber a < 0
                           \/ pa_count a <= 0 \/ 500 < pa_count a ->
                           exists e, presetServiceQueue a now p = (p, inl e)).
  { intros a Ha. destruct (preset_check_rejects a Ha) as (e & He).
    exists e. unfold presetServiceQueue. now rewrite He. }
  split; [now apply Hfun|].
  intros priority. unfold preset_queue_route. simpl.
  destruct (pa_serviceId args <=? 0) eqn:E1; [eexists; split; reflexivity|].
  destruct (pa_startNumber args <? 0) eqn:E2; [eexists; split; reflexivity|].
  destruct (pa_count args <=? 0) eqn:E3; [eexists; split; reflexivity|].
  apply Z.leb_gt in E1, E3. apply Z.ltb_ge in E2.
  assert (Hbig : 500 < pa_count args) by lia.
  unfold presetServiceQueue, preset_check. simpl.
  apply Z.leb_gt in E1, E3. apply Z.ltb_ge in E2. apply Z.ltb_lt in Hbig.
  rewrite E1, E2, E3, Hbig.
  eexists. split; reflexivity.
Qed.

Lemma preset_rejects_invalid_arguments_witness :
  (exists e, presetServiceQueue (mkPresetArgs 1 (-1) 5 0) 1000 Demo.process2
             = (Demo.process2, inl e))
  /\ (exists e, presetServiceQueue (mkPresetArgs 1 10 501 0) 1000 Demo.process2
                = (Demo.process2, inl e)).
Proof.
  split.
  - apply (preset_rejects_invalid_arguments (mkPresetArgs 1 (-1) 5 0)).
    simpl. lia.
  - apply (preset_rejects_invalid_arguments (mkPresetArgs 1 10 501 0)).
    simpl. lia.
Defined.

(** startNumber 0 is not positive, yet the request is accepted, a
    transaction is committed and tickets are inserted. *)
Lemma preset_accepts_start_number_zero :
  pa_startNumber (mkPresetArgs 1 0 2 0) <= 0
  /\ exists r,
       snd (presetServiceQueue (mkPresetArgs 1 0 2 0) 1000 Demo.process0)
         = inr r
       /\ map it_ticket_number (insertedTickets r) = ["A001"; "A002"]
       /\ log (db (fst (presetServiceQueue (mkPresetArgs 1 0 2 0) 1000
                          Demo.process0)))
          = [BEGIN None; COMMIT]
       /\ map ticket_number
            (tickets (data (db (fst (presetServiceQueue
                                       (mkPresetArgs 1 0 2 0) 1000
                                       Demo.process0)))))
          = ["A001"; "A002"]
       /\ tickets (data (db Demo.process0)) = [].
Proof.
  split; [simpl; lia|].
  eexists. split; [reflexivity|]. repeat split.
Qed.

(** The spec's scenario: start 10, count 5 on an empty queue. *)
Example preset_from_ten :
  exists r,
    snd (presetServiceQueue (mkPresetArgs 1 10 5 0) 1000 Demo.process0) = inr r
    /\ map it_ticket_number (insertedTickets r)
       = ["A011"; "A012"; "A013"; "A014"; "A015"]
    /\ skippedTickets r = []
    /\ finalNumber r = 15.
Proof. eexists. split; [reflexivity|]. repeat split. Qed.

(** ** performSystemReset *)

(** C7.  While the guard [resetInProgress] is set, [performSystemReset]
    returns the skipped outcome at once and the process is exactly as
    before: module variables, connection (data, open transaction,
    statement log) and broadcasts.  No BEGIN is issued and no table is
    touched. *)
Theorem reset_skipped_while_in_progress :
  forall (reason : string) (silent : bool) (now : Z) (p : process),
    resetInProgress (reset_state p) = true ->
    performSystemReset reason silent now p
      = (p, inr (Skipped "Reset already in progress"))
    /\ skipped (Skipped "Reset already in progress") = true.
Proof.
  intros reason silent now p H. unfold performSystemReset.
  now rewrite H.
Qed.

Lemma reset_skipped_while_in_progress_witness :
  resetInProgress (reset_state Demo.process2_resetting) = true
  /\ performSystemReset "manual" false 9000 Demo.process2_resetting
     = (Demo.process2_resetting, inr (Skipped "Reset already in progress"))
  /\ List.length (tickets (data (db Demo.process2_resetting))) = 2%nat.
Proof.
  split; [reflexivity|]. split.
  - exact (proj1 (reset_skipped_while_in_progress "manual" false 9000
                    Demo.process2_resetting eq_refl)).
  - reflexivity.
Defined.

(** Entering a reset sets the guard, so a request arriving before the
    reset finishes is skipped. *)
Lemma reset_enter_sets_guard (p : process) :
  resetInProgress (reset_state (performSystemReset_enter p)) = true.
Proof.
  unfold performSystemReset_enter.
  destruct (resetInProgress (reset_state p)) eqn:E; [exact E | reflexivity].
Qed.

(** An uninterrupted reset empties the ticket table, zeroes the
    sequences and leaves the guard clear. *)
Example reset_runs_when_idle :
  exists r,
    performSystemReset "manual" false 9000 Demo.process2 = (r, inr
      (ResetDone (mkResetSummary 2 (filter is_active
                                      (map zero_current_number
                                         (services (data Demo.conn2)))))
         9000 "manual"))
    /\ tickets (data (db r)) = []
    /\ ticket_seq (data (db r)) = 0
    /\ resetInProgress (reset_state r) = false.
Proof. eexists. split; [reflexivity|]. repeat split. Qed.

(** ** The assignment check of call-next *)

Lemma parsePositiveInt_inv (v : option Z) (field : string) :
  (exists n, v = Some n /\ 0 < n /\ parsePositiveInt v field = inr n)
  \/ parsePositiveInt v field
     = inl (httpError 400 (field ++ " must be a positive integer")).
Proof.
  unfold parsePositiveInt. destruct v as [n|]; [|now right].
  destruct (n <=? 0) eqn:E; [now right|].
  left. exists n. apply Z.leb_gt in E. auto.
Qed.

Lemma parseOptionalPositiveInt_inv (v : option Z) (field : string) :
  (truthy v = true /\ parseOptionalPositiveInt v field None = inr v)
  \/ (truthy v = false /\ parseOptionalPositiveInt v field None = inr None)
  \/ parseOptionalPositiveInt v field None
     = inl (httpError 400 (field ++ " must be a positive integer")).
Proof.
  unfold parseOptionalPositiveInt.
  destruct (truthy v) eqn:Ht; [|now right; left].
  destruct (parsePositiveInt_inv v field) as [(n & -> & Hn & Hp) | Hp];
    rewrite Hp.
  - now left.
  - now right; right.
Qed.

(** The rows of an agent's assignment query are the agent's rows of
    [agent_services]. *)
Lemma agent_service_rows_In agentId s a :
  In a (agent_service_rows agentId s) <->
  In a (agent_services s) /\ as_agent_id a = agentId.
Proof.
  unfold agent_service_rows. rewrite order_by_In, filter_In, Z.eqb_eq.
  reflexivity.
Qed.

Lemma agent_without_assignments agentId s :
  (forall a, In a (agent_services s) -> as_agent_id a <> agentId) ->
  agent_service_rows agentId s = [].
Proof.
  intros H. destruct (agent_service_rows agentId s) as [|a r] eqn:E;
    [reflexivity|].
  assert (Ha : In a (agent_service_rows agentId s)) by (rewrite E; now left).
  apply agent_service_rows_In in Ha. destruct Ha as [Hin Hid].
  exfalso. exact (H a Hin Hid).
Qed.

(** The errors of service resolution.  The 403 needs a requested
    service, at least one assignment, and none for that service. *)
Lemma resolve_service_error counterId agentId requested s s' e :
  resolve_service counterId agentId requested s = (s', inl e) ->
  e = httpError 404 "Requested service not found"
  \/ e = httpError 400 "Unable to determine service for agent"
  \/ (e = not_assigned_error
      /\ truthy requested = true
      /\ agent_service_rows agentId s <> []
      /\ existsb (fun row => as_service_id row =? nullish requested 0)
                 (agent_service_rows agentId s) = false).
Proof.
  unfold resolve_service, bind, query, throw_if, throw, ret. cbv zeta.
  destruct (truthy requested) eqn:Ht.
  - destruct (active_service (nullish requested 0) s) as [sv|];
      [|intros H; injection H as _ <-; now left].
    destruct (negb (Nat.eqb (List.length (agent_service_rows agentId s)) 0)
              && negb (existsb
                         (fun row => as_service_id row =? nullish requested 0)
                         (agent_service_rows agentId s))) eqn:Econd.
    + intros H. injection H as _ <-. right. right.
      apply andb_true_iff in Econd. destruct Econd as [H1 H2].
      split; [reflexivity|]. split; [reflexivity|]. split.
      * intros Hnil. rewrite Hnil in H1. discriminate.
      * now apply negb_true_iff in H2.
    + discriminate.
  - destruct (agent_service_rows agentId s) as [|a rows].
    + destruct (counter_default_service counterId s) as [sv|]; simpl.
      * discriminate.
      * destruct (first_active_service s); simpl; [discriminate|].
        intros H. injection H as _ <-. now right; left.
    + destruct (active_service (as_service_id a) s); simpl; [discriminate|].
      intros H. injection H as _ <-. now right; left.
Qed.

Lemma select_ticket_error counterId agentId requested ticketId s s' e :
  select_ticket counterId agentId requested ticketId s = (s', inl e) ->
  (truthy ticketId = true
   /\ (e = httpError 404 "Requested ticket is not available for calling"
       \/ e = httpError 403 "Agent is not authorized for this service"))
  \/ (truthy ticketId = false
      /\ (e = httpError 404 "No tickets waiting in queue"
          \/ exists s0,
               resolve_service counterId agentId requested s = (s0, inl e))).
Proof.
  unfold select_ticket. destruct (truthy ticketId) eqn:Ht.
  - unfold bind, query, throw_if, throw, ret.
    destruct (waiting_ticket_by_id (nullish ticketId 0) s) as [row|];
      [|intros H; injection H as _ <-; left; auto].
    destruct (agent_authorized agentId (service_id (fst row)) s); simpl.
    + discriminate.
    + intros H. injection H as _ <-. left. auto.
  - unfold bind at 1.
    destruct (resolve_service counterId agentId requested s)
      as [s0 [e0|sv]] eqn:Er.
    + intros H. injection H as _ <-. right. split; [reflexivity|].
      right. now exists s0.
    + unfold bind, query, throw, ret.
      destruct (next_waiting_ticket (s_id sv) s0); [discriminate|].
      intros H. injection H as _ <-. right. auto.
Qed.

Lemma call_next_work_error counterId agentId requested ticketId now s s' e :
  call_next_work counterId agentId requested ticketId now s = (s', inl e) ->
  exists s0,
    select_ticket counterId agentId requested ticketId s = (s0, inl e).
Proof.
  unfold call_next_work. unfold bind at 1.
  destruct (select_ticket counterId agentId requested ticketId s)
    as [s0 [e0|row]].
  - intros H. injection H as _ <-. now exists s0.
  - unfold bind, run, getQueueSnapshot, query, ret. discriminate.
Qed.

(** Every error answer of call-next, by origin. *)
Lemma call_next_error body now c e :
  snd (call_next body now c) = inl e ->
  (exists field,
      In field ["counterId"; "agentId"; "serviceId"; "ticketId"]
      /\ e = httpError 400 (field ++ " must be a positive integer"))
  \/ e = plainError "cannot start a transaction within a transaction"
  \/ exists counterId agentId s0,
       cn_counterId body = Some counterId
       /\ cn_agentId body = Some agentId
       /\ ((truthy (cn_serviceId body) = true
            /\ truthy (cn_ticketId body) = true
            /\ select_ticket counterId agentId (cn_serviceId body)
                 (cn_ticketId body) (data c) = (s0, inl e))
           \/ (truthy (cn_serviceId body) = true
               /\ truthy (cn_ticketId body) = false
               /\ select_ticket counterId agentId (cn_serviceId body)
                    None (data c) = (s0, inl e))
           \/ (truthy (cn_serviceId body) = false
               /\ truthy (cn_ticketId body) = true
               /\ select_ticket counterId agentId None
                    (cn_ticketId body) (data c) = (s0, inl e))
           \/ (truthy (cn_serviceId body) = false
               /\ truthy (cn_ticketId body) = false
               /\ select_ticket counterId agentId None None (data c)
                  = (s0, inl e))).
Proof.
  unfold call_next.
  destruct (parsePositiveInt_inv (cn_counterId body) "counterId")
    as [(counterId & Hc & _ & ->) | ->];
    [|cbn [snd]; intros H; injection H as <-; left;
      exists "counterId"; simpl; auto].
  destruct (parsePositiveInt_inv (cn_agentId body) "agentId")
    as [(agentId & Ha & _ & ->) | ->];
    [|cbn [snd]; intros H; injection H as <-; left;
      exists "agentId"; simpl; auto].
  destruct (parseOptionalPositiveInt_inv (cn_serviceId body) "serviceId")
    as [[Hs ->] | [[Hs ->] | ->]];
    [ | |cbn [snd]; intros H; injection H as <-; left;
         exists "serviceId"; simpl; auto];
  (destruct (parseOptionalPositiveInt_inv (cn_ticketId body) "ticketId")
    as [[Ht ->] | [[Ht ->] | ->]];
    [ | |cbn [snd]; intros H; injection H as <-; left;
         exists "ticketId"; simpl; auto 6]);
  intros H; apply withTransaction_error in H;
  (destruct H as [-> | (d & Hw)]; [now right; left|]);
  apply call_next_work_error in Hw; destruct Hw as (s0 & Hsel);
  right; right; exists counterId, agentId, s0;
  (split; [exact Hc|]); (split; [exact Ha|]).
  - left. auto.
  - right. left. auto.
  - right. right. left. auto.
  - right. right. right. auto.
Qed.

Lemma existsb_false {A} (f : A -> bool) (l : list A) :
  existsb f l = false -> forall x, In x l -> f x = false.
Proof.
  intros H x Hx. destruct (f x) eqn:E; [|reflexivity].
  assert (existsb f l = true) by (apply existsb_exists; eauto).
  congruence.
Qed.

Lemma truthy_some (v : option Z) :
  truthy v = true -> exists n, v = Some n /\ n <> 0 /\ nullish v 0 = n.
Proof.
  destruct v as [n|]; simpl; [|discriminate].
  intros H. apply negb_true_iff, Z.eqb_neq in H. now exists n.
Qed.

(** An agent without assignments who names an active service with a
    waiting ticket is served from that service. *)
Lemma call_next_unassigned_served body now c counterId agentId sid sv t :
  idle c ->
  cn_counterId body = Some counterId -> 0 < counterId ->
  cn_agentId body = Some agentId -> 0 < agentId ->
  cn_serviceId body = Some sid -> 0 < sid ->
  truthy (cn_ticketId body) = false ->
  (forall a, In a (agent_services (data c)) -> as_agent_id a <> agentId) ->
  In sv (services (data c)) -> s_id sv = sid -> is_active sv = true ->
  In t (tickets (data c)) -> service_id t = sid -> t_state t = waiting ->
  exists r, snd (call_next body now c) = inr r /\ cnr_serviceId r = sid.
Proof.
  intros Hidle Hc Hcpos Ha Hapos Hs Hspos Ht Hnone Hsv Hsid Hact Hin Htsid
    Hwait.
  destruct (active_service_found (data c) sv Hsv Hact)
    as (sv' & Hfind & Hsv' & _).
  rewrite Hsid in Hfind, Hsv'.
  assert (Hnext : exists row,
             next_waiting_ticket sid (data c) = Some row).
  { unfold next_waiting_ticket.
    destruct (order_by_head
                (fun a b : ticket * service =>
                   instant_leb (created_at (fst a)) (created_at (fst b)))
                (filter (fun r : ticket * service =>
                           (service_id (fst r) =? sid)
                           && ticket_state_eqb (t_state (fst r)) waiting)
                        (tickets_join_services (data c)))
                (t, sv)) as (row & Hrow & _).
    - apply filter_In. split.
      + apply join_services_In. repeat split; try assumption. congruence.
      + simpl. rewrite Htsid, Hwait, Z.eqb_refl. reflexivity.
    - now exists row. }
  destruct Hnext as (row & Hnext).
  destruct (next_waiting_ticket_earliest sid (data c) row Hnext)
    as (Hrsid & _).
  assert (Hresolve : resolve_service counterId agentId (Some sid) (data c)
                     = (data c, inr sv')).
  { unfold resolve_service, bind, query, throw_if, throw, ret. cbv zeta.
    rewrite (agent_without_assignments agentId (data c) Hnone).
    assert (Htruthy : truthy (Some sid) = true).
    { simpl. apply negb_true_iff, Z.eqb_neq. lia. }
    rewrite Htruthy. change (nullish (Some sid) 0) with sid.
    rewrite Hfind. reflexivity. }
  assert (Hwork : exists d r,
             call_next_work counterId agentId (Some sid) None now (data c)
             = (d, inr r) /\ cnr_serviceId r = sid).
  { unfold call_next_work, select_ticket. simpl truthy. cbv iota.
    unfold bind at 1. unfold bind at 1. rewrite Hresolve.
    unfold bind at 1. unfold query at 1. rewrite Hsv', Hnext.
    unfold ret at 1. unfold bind, run, getQueueSnapshot, query, ret.
    eexists. eexists. split; [reflexivity|]. exact Hrsid. }
  destruct Hwork as (d & r & Hwork & Hr).
  exists r. split; [|exact Hr].
  unfold call_next. rewrite Hc, Ha, Hs.
  rewrite !parsePositiveInt_ok by assumption.
  assert (Hp1 : parseOptionalPositiveInt (Some sid) "serviceId" None
                = inr (Some sid)).
  { unfold parseOptionalPositiveInt.
    assert (Htruthy : truthy (Some sid) = true).
    { simpl. apply negb_true_iff, Z.eqb_neq. lia. }
    rewrite Htruthy. now rewrite parsePositiveInt_ok. }
  assert (Hp2 : parseOptionalPositiveInt (cn_ticketId body) "ticketId" None
                = inr None).
  { unfold parseOptionalPositiveInt. now rewrite Ht. }
  rewrite Hp1, Hp2.
  now rewrite (withTransaction_return _ None c d r Hidle Hwork).
Qed.

(** C10.  (1) The answer 403 "Agent is not assigned to this service" is
    given only to a request without ticketId that names a service, from
    an agent who has at least one [agent_services] row and none for the
    named service.  (2) An agent with no [agent_services] row never gets
    a 403 from a request without ticketId, whether it names a service or
    falls back to the counter's default service or the first active
    service.  (3) Such an agent, naming an active service that has a
    waiting ticket, is handed a ticket of that service. *)
Theorem call_next_assignment_check :
  forall (body : call_next_body) (now : Z) (c : conn),
    (forall e,
        snd (call_next body now c) = inl e ->
        message e = "Agent is not assigned to this service" ->
        status e = Some 403
        /\ truthy (cn_ticketId body) = false
        /\ exists agentId sid,
             cn_agentId body = Some agentId
             /\ cn_serviceId body = Some sid
             /\ (exists a, In a (agent_services (data c))
                           /\ as_agent_id a = agentId)
             /\ (forall a, In a (agent_services (data c)) ->
                           as_agent_id a = agentId ->
                           as_service_id a <> sid))
    /\ (forall agentId e,
           cn_agentId body = Some agentId ->
           truthy (cn_ticketId body) = false ->
           (forall a, In a (agent_services (data c)) ->
                      as_agent_id a <> agentId) ->
           snd (call_next body now c) = inl e ->
           status e <> Some 403)
    /\ (forall counterId agentId sid sv t,
           idle c ->
           cn_counterId body = Some counterId -> 0 < counterId ->
           cn_agentId body = Some agentId -> 0 < agentId ->
           cn_serviceId body = Some sid -> 0 < sid ->
           truthy (cn_ticketId body) = false ->
           (forall a, In a (agent_services (data c)) ->
                      as_agent_id a <> agentId) ->
           In sv (services (data c)) -> s_id sv = sid ->
           is_active sv = true ->
           In t (tickets (data c)) -> service_id t = sid ->
           t_state t = waiting ->
           exists r, snd (call_next body now c) = inr r
                     /\ cnr_serviceId r = sid).
Proof.
  intros body now c. split; [|split].
  - intros e He Hmsg.
    destruct (call_next_error body now c e He)
      as [(field & Hfield & ->) | [-> | (counterId & agentId & s0 & Hc & Ha
                                         & Hsel)]].
    + simpl in Hfield.
      destruct Hfield as [<- | [<- | [<- | [<- | []]]]]; discriminate.
    + discriminate.
    + assert (Hcase :
                exists requested ticketId,
                  truthy ticketId = truthy (cn_ticketId body)
                  /\ (truthy requested = true -> requested = cn_serviceId body)
                  /\ select_ticket counterId agentId requested ticketId
                       (data c) = (s0, inl e)).
      { destruct Hsel as [(Hs & Ht & H) | [(Hs & Ht & H) | [(Hs & Ht & H)
                                                            | (Hs & Ht & H)]]].
        - exists (cn_serviceId body), (cn_ticketId body). auto.
        - exists (cn_serviceId body), None. rewrite Ht. auto.
        - exists None, (cn_ticketId body). split; [reflexivity|].
          split; [discriminate | assumption].
        - exists None, None. rewrite Ht. split; [reflexivity|].
          split; [discriminate | assumption]. }
      destruct Hcase as (requested & ticketId & Htid & Hreq & Hselect).
      apply select_ticket_error in Hselect.
      destruct Hselect as [(_ & [-> | ->]) | (Hfalse & [-> | (s1 & Hres)])];
        try discriminate.
      apply resolve_service_error in Hres.
      destruct Hres as [-> | [-> | (-> & Htruthy & Hrows & Hex)]];
        try discriminate.
      split; [reflexivity|]. split; [congruence|].
      destruct (truthy_some requested Htruthy) as (sid & Hsome & _ & Hnull).
      exists agentId, sid. split; [exact Ha|].
      split; [rewrite <- (Hreq Htruthy); exact Hsome|].
      rewrite Hnull in Hex. split.
      * destruct (agent_service_rows agentId (data c)) as [|a rows] eqn:E;
          [congruence|].
        exists a. apply agent_service_rows_In. rewrite E. now left.
      * intros a Hin Hid.
        assert (Hrow : In a (agent_service_rows agentId (data c)))
          by (apply agent_service_rows_In; auto).
        pose proof (existsb_false _ _ Hex a Hrow) as Hneq.
        now apply Z.eqb_neq in Hneq.
  - intros agentId e Ha Ht Hnone He.
    destruct (call_next_error body now c e He)
      as [(field & _ & ->) | [-> | (counterId & agentId' & s0 & Hc & Ha'
                                    & Hsel)]].
    + simpl. discriminate.
    + simpl. discriminate.
    + assert (agentId' = agentId) by congruence. subst agentId'.
      assert (Hselect :
                exists requested,
                  select_ticket counterId agentId requested None (data c)
                  = (s0, inl e)).
      { destruct Hsel as [(_ & Ht' & _) | [(_ & _ & H) | [(_ & Ht' & _)
                                                          | (_ & _ & H)]]];
          try congruence; eauto. }
      destruct Hselect as (requested & Hselect).
      apply select_ticket_error in Hselect.
      destruct Hselect as [(Htrue & _) | (_ & [-> | (s1 & Hres)])];
        [discriminate | simpl; discriminate |].
      apply resolve_service_error in Hres.
      destruct Hres as [-> | [-> | (_ & _ & Hrows & _)]];
        [simpl; discriminate | simpl; discriminate |].
      exfalso. apply Hrows. now apply agent_without_assignments.
  - intros counterId agentId sid sv t. apply call_next_unassigned_served.
Qed.

Lemma call_next_assignment_check_witness :
  (exists r,
      snd (call_next (mkCallNextBody (Some 3) (Some 8) (Some 1) None) 5000
             Demo.conn2) = inr r
      /\ cnr_serviceId r = 1)
  /\ snd (call_next (mkCallNextBody (Some 3) (Some 7) (Some 2) None) 5000
            Demo.conn2) = inl not_assigned_error
  /\ status not_assigned_error = Some 403.
Proof.
  split; [|split].
  - refine (proj2 (proj2 (call_next_assignment_check
                            (mkCallNextBody (Some 3) (Some 8) (Some 1) None)
                            5000 Demo.conn2))
              3 8 1
              (mkService 1 "General" "A" (Some 1) (Some 999) (Some 2)
                 (Some 300) true 0)
              (mkTicket 1 "A001" 1 waiting 0 (Some "Ann") None None
                 (Some 1000) None None None (Some 0) None None None None
                 None None 0 None)
              eq_refl eq_refl eq_refl eq_refl eq_refl eq_refl eq_refl
              eq_refl _ _ eq_refl eq_refl _ eq_refl eq_refl).
    + vm_compute. intros a [<- | []]. discriminate.
    + vm_compute. left. reflexivity.
    + concrete_row.
  - reflexivity.
  - exact (proj1 (proj1 (call_next_assignment_check
                           (mkCallNextBody (Some 3) (Some 7) (Some 2) None)
                           5000 Demo.conn2)
                    not_assigned_error eq_refl eq_refl)).
Defined.

(** The cherry-pick branch has its own check: with a ticketId an agent
    without assignments is refused, under a different message. *)
Example call_next_cherry_pick_unassigned :
  snd (call_next (mkCallNextBody (Some 3) (Some 8) None (Some 1)) 5000
         Demo.conn2)
  = inl (httpError 403 "Agent is not authorized for this service").
Proof. reflexivity. Qed.

(** Without a named service an agent without assignments is served from
    the counter's default service. *)
Example call_next_unassigned_default_service :
  exists r,
    snd (call_next (mkCallNextBody (Some 3) (Some 8) None None) 5000
           Demo.conn2) = inr r
    /\ cnr_serviceId r = 1 /\ cnr_agentId r = 8.
Proof. eexists. split; [reflexivity|]. split; reflexivity. Qed.

(** ** The schema constraints are kept *)

Lemma consistent_update_ticket (f : ticket -> ticket) (tid : Z) (s : store) :
  (forall t, t_id (f t) = t_id t) ->
  (forall t, service_id (f t) = service_id t) ->
  consistent s -> consistent (update_ticket tid f s).
Proof.
  intros Hid Hsid [Hpk Hfk]. split.
  - unfold primary_key, update_ticket in *. simpl. rewrite map_map.
    erewrite map_ext; [exact Hpk|].
    intros t. simpl. destruct (t_id t =? tid); [apply Hid | reflexivity].
  - intros t Hin. unfold update_ticket in Hin. simpl in Hin.
    apply in_map_iff in Hin. destruct Hin as (t0 & Heq & Hin0).
    destruct (Hfk t0 Hin0) as (sv & Hsv & Hsv_id).
    exists sv. split; [exact Hsv|].
    destruct (t_id t0 =? tid); subst t; [rewrite Hsid|]; exact Hsv_id.
Qed.

Lemma consistent_update_counter (f : counter -> counter) (cid : Z)
    (s : store) :
  consistent s -> consistent (update_counter cid f s).
Proof. intros H. exact H. Qed.

Lemma consistent_set_current_number (sid n : Z) (s : store) :
  consistent s -> consistent (set_current_number sid n s).
Proof.
  intros [Hpk Hfk]. split; [exact Hpk|].
  intros t Hin. destruct (Hfk t Hin) as (sv & Hsv & Hid).
  unfold set_current_number. simpl.
  eexists. split; [apply in_map; exact Hsv|].
  simpl. destruct (s_id sv =? sid); exact Hid.
Qed.

Lemma consistent_insert (row : Z -> ticket) (s : store) :
  (forall i, t_id (row i) = i) ->
  (forall i, exists sv, In sv (services s) /\ s_id sv = service_id (row i)) ->
  consistent s -> consistent (fst (insert_ticket row s)).
Proof.
  intros Hrow Hsv [Hpk Hfk]. split.
  - unfold primary_key, insert_ticket in *. simpl.
    rewrite map_app. simpl. rewrite Hrow.
    apply NoDup_app; [exact Hpk | repeat constructor; intros [] | ].
    intros i Hi [<- | []].
    apply in_map_iff in Hi. destruct Hi as (t & Hid & Hin).
    pose proof (next_ticket_id_fresh s t Hin). lia.
  - intros t Hin. unfold insert_ticket in Hin. simpl in Hin.
    apply in_app_or in Hin. destruct Hin as [Hin | [<- | []]].
    + exact (Hfk t Hin).
    + apply Hsv.
Qed.

Lemma consistent_delete (tid : Z) (s : store) :
  consistent s -> consistent (delete_ticket tid s).
Proof.
  intros [Hpk Hfk]. split.
  - unfold primary_key, delete_ticket in *. simpl.
    induction (tickets s) as [|x l IH]; simpl; [constructor|].
    inversion Hpk as [|? ? Hnotin Hnd]; subst.
    destruct (negb (t_id x =? tid)); simpl; [|now apply IH].
    constructor; [|now apply IH].
    intros Hin. apply Hnotin. apply in_map_iff in Hin.
    destruct Hin as (y & Hid & Hy). apply filter_In in Hy.
    apply in_map_iff. exists y. tauto.
  - intros t Hin. unfold delete_ticket in Hin. simpl in Hin.
    apply filter_In in Hin. exact (Hfk t (proj1 Hin)).
Qed.

(** A property of the data that the work keeps is kept by the
    transaction around it. *)
Lemma withTransaction_keeps {A} (P : store -> Prop) (work : tx A)
    (mode : option string) (c : conn) :
  (forall s, P s -> P (fst (work s))) ->
  P (data c) -> P (data (fst (withTransaction work mode c))).
Proof.
  intros Hwork HP.
  destruct (withTransaction_data work mode c) as [H | H]; rewrite H;
    [exact HP | now apply Hwork].
Qed.

Lemma complete_consistent body now c :
  consistent (data c) -> consistent (data (fst (complete body now c))).
Proof.
  intros H. unfold complete.
  destruct (parsePositiveInt (b_ticketId body) "ticketId"); [exact H|].
  destruct (parsePositiveInt (b_counterId body) "counterId"); [exact H|].
  destruct (parsePositiveInt (b_agentId body) "agentId"); [exact H|].
  apply withTransaction_keeps; [|exact H].
  intros s Hs. unfold complete_work, bind, query.
  destruct (assigned_ticket _ _ _ s) as [row|]; [|exact Hs].
  unfold throw_if.
  destruct (ticket_state_eqb (t_state (fst row)) completed); [exact Hs|].
  simpl. apply consistent_update_counter.
  now apply consistent_update_ticket.
Qed.

Lemma recycle_consistent body now c :
  consistent (data c) -> consistent (data (fst (recycle body now c))).
Proof.
  intros H. unfold recycle.
  destruct (parsePositiveInt (b_ticketId body) "ticketId"); [exact H|].
  destruct (parsePositiveInt (b_counterId body) "counterId"); [exact H|].
  destruct (parsePositiveInt (b_agentId body) "agentId"); [exact H|].
  destruct (parseOptionalPositiveInt (b_position body) "position" (Some 3));
    [exact H|].
  apply withTransaction_keeps; [|exact H].
  intros s Hs. unfold recycle_work, bind, query.
  destruct (assigned_ticket _ _ _ s) as [row|]; [|exact Hs].
  unfold throw_if.
  destruct (negb (ticket_state_eqb (t_state (fst row)) called)); [exact Hs|].
  simpl. apply consistent_update_counter.
  now apply consistent_update_ticket.
Qed.

Lemma transfer_consistent body now c :
  consistent (data c) -> consistent (data (fst (transfer body now c))).
Proof.
  intros H. unfold transfer.
  destruct (parsePositiveInt (b_ticketId body) "ticketId"); [exact H|].
  destruct (parsePositiveInt (b_targetServiceId body) "targetServiceId")
    as [|target]; [exact H|].
  destruct (parsePositiveInt (b_counterId body) "counterId"); [exact H|].
  destruct (parsePositiveInt (b_agentId body) "agentId"); [exact H|].
  apply withTransaction_keeps; [|exact H].
  intros s Hs. unfold transfer_work, bind, query.
  destruct (called_ticket _ _ _ s) as [row|]; [|exact Hs].
  destruct (active_service target s) as [tsv|] eqn:Et; [|exact Hs].
  unfold throw_if.
  destruct (s_id tsv =? service_id (fst row)); [exact Hs|].
  simpl. apply consistent_delete.
  apply (consistent_update_counter release_counter).
  apply consistent_insert; [reflexivity | | exact Hs].
  intros i. exists tsv. unfold active_service in Et.
  apply find_some in Et. destruct Et as [Hin Hok].
  apply andb_true_iff in Hok. destruct Hok as [Hid _].
  apply Z.eqb_eq in Hid. simpl. auto.
Qed.

Lemma create_ticket_consistent payload now c :
  consistent (data c) -> consistent (data (fst (create_ticket payload now c))).
Proof.
  intros H. unfold create_ticket.
  apply withTransaction_keeps; [|exact H].
  intros s Hs. unfold create_ticket_work, bind, query.
  destruct (active_service (p_serviceId payload) s) as [sv|] eqn:Es;
    [|exact Hs].
  unfold throw_if.
  destruct (range_exhausted sv (nextNumber_of sv)); [exact Hs|].
  set (s1 := set_current_number (p_serviceId payload) (nextNumber_of sv) s).
  set (row := kiosk_row payload
                (format_ticket_number (prefix sv) (nextNumber_of sv))
                (Z.max 0 (or_else (estimated_service_time sv) 300
                          * (nextNumber_of sv - 1))) now).
  change (consistent (fst (insert_ticket row s1))).
  apply consistent_insert; [reflexivity | |
    now apply consistent_set_current_number].
  intros i. unfold active_service in Es.
  apply find_some in Es. destruct Es as [Hin Hok].
  apply andb_true_iff in Hok. destruct Hok as [Hid _].
  apply Z.eqb_eq in Hid. unfold set_current_number. simpl.
  eexists. split; [apply in_map; exact Hin|].
  simpl. destruct (s_id sv =? p_serviceId payload); exact Hid.
Qed.

Lemma text_or_null_not_empty (v : option string) : text_or_null v <> Some "".
Proof. destruct v as [[|a r]|]; simpl; discriminate. Qed.

(** A transferred row is again a row as intake writes them. *)
Lemma transferred_row_intake (old : ticket) (target now i : Z) :
  service_id old <> 0 ->
  intake_row (transferred_row old target now i).
Proof.
  intros Hsid. unfold intake_row, transferred_row. simpl.
  repeat split; try apply text_or_null_not_empty.
  unfold originalServiceId_of, or_else.
  destruct (original_service_id old) as [o|]; [|congruence].
  destruct (o =? 0) eqn:E; [congruence|].
  apply Z.eqb_neq in E. congruence.
Qed.

Lemma kiosk_row_intake payload number wait now i :
  p_customerName payload <> Some "" ->
  p_customerPhone payload <> Some "" ->
  p_customerEmail payload <> Some "" ->
  intake_row (kiosk_row payload number wait now i).
Proof.
  intros H1 H2 H3. unfold intake_row, kiosk_row. simpl.
  repeat split; try assumption. discriminate.
Qed.

Lemma preset_row_intake serviceId number priority createdAt wait i :
  intake_row (preset_row serviceId number priority createdAt wait i).
Proof. unfold intake_row, preset_row. simpl. repeat split; discriminate. Qed.

(** Ticket selection only reads. *)
Lemma resolve_service_reads counterId agentId requested s :
  fst (resolve_service counterId agentId requested s) = s.
Proof.
  unfold resolve_service, bind, query, throw_if, throw, ret. cbv zeta.
  destruct (truthy requested).
  - destruct (active_service (nullish requested 0) s); [|reflexivity].
    destruct (negb _ && negb _); reflexivity.
  - destruct (agent_service_rows agentId s) as [|a rows].
    + destruct (counter_default_service counterId s); [reflexivity|].
      destruct (first_active_service s); reflexivity.
    + destruct (active_service (as_service_id a) s); reflexivity.
Qed.

Lemma select_ticket_reads counterId agentId requested ticketId s :
  fst (select_ticket counterId agentId requested ticketId s) = s.
Proof.
  unfold select_ticket. destruct (truthy ticketId).
  - unfold bind, query, throw_if, throw, ret.
    destruct (waiting_ticket_by_id (nullish ticketId 0) s) as [row|];
      [|reflexivity].
    destruct (agent_authorized agentId (service_id (fst row)) s);
      reflexivity.
  - unfold bind at 1.
    pose proof (resolve_service_reads counterId agentId requested s) as Hr.
    destruct (resolve_service counterId agentId requested s) as [s0 [e|sv]];
      simpl in Hr; subst s0; [reflexivity|].
    unfold bind, query, throw, ret.
    destruct (next_waiting_ticket (s_id sv) s); reflexivity.
Qed.

Lemma call_next_consistent body now c :
  consistent (data c) -> consistent (data (fst (call_next body now c))).
Proof.
  intros H. unfold call_next.
  destruct (parsePositiveInt (cn_counterId body) "counterId")
    as [|counterId]; [exact H|].
  destruct (parsePositiveInt (cn_agentId body) "agentId")
    as [|agentId]; [exact H|].
  destruct (parseOptionalPositiveInt (cn_serviceId body) "serviceId" None)
    as [|requested]; [exact H|].
  destruct (parseOptionalPositiveInt (cn_ticketId body) "ticketId" None)
    as [|ticketId]; [exact H|].
  apply withTransaction_keeps; [|exact H].
  intros s Hs. unfold call_next_work. unfold bind at 1.
  pose proof (select_ticket_reads counterId agentId requested ticketId s)
    as Hr.
  destruct (select_ticket counterId agentId requested ticketId s)
    as [s0 [e|row]]; simpl in Hr; subst s0; [exact Hs|].
  unfold bind, run, getQueueSnapshot, query, ret. simpl.
  apply (consistent_update_counter (mark_serving (t_id (fst row)) agentId)).
  now apply consistent_update_ticket.
Qed.

(** The states of the example installation satisfy the constraints. *)
Example demo_consistent :
  consistent (data Demo.conn0) /\ consistent (data Demo.conn2)
  /\ consistent (data Demo.conn3) /\ consistent (data Demo.conn4).
Proof.
  assert (H0 : consistent (data Demo.conn0)).
  { split; [constructor | intros t []]. }
  assert (H2 : consistent (data Demo.conn2)).
  { now apply create_ticket_consistent, create_ticket_consistent. }
  assert (H3 : consistent (data Demo.conn3)).
  { now apply call_next_consistent. }
  assert (H4 : consistent (data Demo.conn4)).
  { now apply complete_consistent. }
  auto.
Qed.

(* ===================================================================== *)
(** * Further properties of the lifecycle handlers *)
(* ===================================================================== *)

(** ** What success and failure of a transaction tell *)

Lemma withTransaction_failure_data {A} (work : tx A) (mode : option string)
    (c : conn) (e : error) :
  snd (withTransaction work mode c) = inl e ->
  data (fst (withTransaction work mode c)) = data c.
Proof.
  destruct (snapshot c) as [s0|] eqn:Hs.
  - now rewrite (withTransaction_busy work mode c s0 Hs).
  - destruct (work (data c)) as [d [e'|r]] eqn:Hw.
    + now rewrite (withTransaction_throw work mode c d e' Hs Hw).
    + rewrite (withTransaction_return work mode c d r Hs Hw). discriminate.
Qed.

Lemma withTransaction_success {A} (work : tx A) (mode : option string)
    (c : conn) (r : A) :
  snd (withTransaction work mode c) = inr r ->
  idle c
  /\ exists d,
       work (data c) = (d, inr r)
       /\ fst (withTransaction work mode c)
          = mkConn d None (log c ++ [BEGIN (begin_mode mode); COMMIT]).
Proof.
  destruct (snapshot c) as [s0|] eqn:Hs.
  - rewrite (withTransaction_busy work mode c s0 Hs). discriminate.
  - destruct (work (data c)) as [d [e'|r']] eqn:Hw.
    + rewrite (withTransaction_throw work mode c d e' Hs Hw). discriminate.
    + rewrite (withTransaction_return work mode c d r' Hs Hw). simpl.
      intros H. injection H as <-. split; [exact Hs|]. now exists d.
Qed.

Lemma parsePositiveInt_success (v : option Z) (field : string) (n : Z) :
  parsePositiveInt v field = inr n -> v = Some n /\ 0 < n.
Proof.
  unfold parsePositiveInt. destruct v as [m|]; [|discriminate].
  destruct (m <=? 0) eqn:E; [discriminate|].
  intros H. injection H as <-. apply Z.leb_gt in E. auto.
Qed.

Lemma parseOptionalPositiveInt_success (v : option Z) (field : string)
    (r : option Z) :
  parseOptionalPositiveInt v field None = inr r ->
  (truthy v = true /\ r = v) \/ (truthy v = false /\ r = None).
Proof.
  intros H.
  destruct (parseOptionalPositiveInt_inv v field) as [[Ht E] | [[Ht E] | E]].
  - left. rewrite E in H. injection H as <-. auto.
  - right. rewrite E in H. injection H as <-. auto.
  - rewrite E in H. discriminate.
Qed.

(** ** Every refused request leaves the data alone *)

(** X1.  Whatever the state of the connection, a request to call-next,
    complete, recall, no-show, recycle, transfer or the kiosk's ticket
    creation that is answered with an error leaves every table as it
    was. *)
Theorem refused_request_changes_nothing :
  forall (now : Z) (c : conn) (e : error),
    (forall body, snd (call_next body now c) = inl e ->
                  data (fst (call_next body now c)) = data c)
    /\ (forall body, snd (complete body now c) = inl e ->
                     data (fst (complete body now c)) = data c)
    /\ (forall body, snd (recall body now c) = inl e ->
                     data (fst (recall body now c)) = data c)
    /\ (forall body, snd (post_no_show body now c) = inl e ->
                     data (fst (post_no_show body now c)) = data c)
    /\ (forall body, snd (recycle body now c) = inl e ->
                     data (fst (recycle body now c)) = data c)
    /\ (forall body, snd (transfer body now c) = inl e ->
                     data (fst (transfer body now c)) = data c)
    /\ (forall payload, snd (create_ticket payload now c) = inl e ->
                        data (fst (create_ticket payload now c)) = data c).
Proof.
  intros now c e.
  repeat split; intros body;
    unfold call_next, complete, recall, post_no_show, recycle, transfer,
      create_ticket;
    repeat match goal with
      | |- context [match parsePositiveInt ?v ?f with _ => _ end] =>
          destruct (parsePositiveInt v f); [reflexivity|]
      | |- context [match parseOptionalPositiveInt ?v ?f ?d with _ => _ end] =>
          destruct (parseOptionalPositiveInt v f d); [reflexivity|]
      end;
    apply withTransaction_failure_data.
Qed.

Lemma refused_request_changes_nothing_witness :
  snd (transfer (mkTerminalBody (Some 1) (Some 3) (Some 7) None None (Some 9))
         9000 Demo.conn3)
    = inl (httpError 400 "Invalid target service")
  /\ data (fst (transfer
                  (mkTerminalBody (Some 1) (Some 3) (Some 7) None None
                     (Some 9)) 9000 Demo.conn3))
     = data Demo.conn3.
Proof.
  split; [reflexivity|].
  exact (proj1 (proj2 (proj2 (proj2 (proj2 (proj2
           (refused_request_changes_nothing 9000 Demo.conn3
              (httpError 400 "Invalid target service")))))))
           (mkTerminalBody (Some 1) (Some 3) (Some 7) None None (Some 9))
           eq_refl).
Defined.

(** ** What a successful call-next did *)

Lemma hd_error_In {A} (l : list A) (x : A) : hd_error l = Some x -> In x l.
Proof. destruct l; simpl; [discriminate|]. intros H. injection H as <-. now left. Qed.

Lemma select_ticket_success counterId agentId requested ticketId s s' row :
  select_ticket counterId agentId requested ticketId s = (s', inr row) ->
  s' = s
  /\ In row (tickets_join_services s)
  /\ t_state (fst row) = waiting
  /\ (truthy ticketId = true ->
        t_id (fst row) = nullish ticketId 0
        /\ agent_authorized agentId (service_id (fst row)) s = true)
  /\ (truthy ticketId = false ->
        exists sv,
          resolve_service counterId agentId requested s = (s, inr sv)
          /\ next_waiting_ticket (s_id sv) s = Some row).
Proof.
  intros H.
  pose proof (select_ticket_reads counterId agentId requested ticketId s)
    as Hreads. rewrite H in Hreads. simpl in Hreads. subst s'.
  split; [reflexivity|].
  unfold select_ticket in H. destruct (truthy ticketId) eqn:Ht.
  - unfold bind, query, throw_if, throw, ret in H.
    destruct (waiting_ticket_by_id (nullish ticketId 0) s) as [row0|] eqn:Ef;
      [|discriminate].
    destruct (agent_authorized agentId (service_id (fst row0)) s) eqn:Ea;
      simpl in H; [|discriminate].
    injection H as <-.
    unfold waiting_ticket_by_id in Ef. apply find_some in Ef.
    destruct Ef as [Hin Hok]. apply andb_true_iff in Hok.
    destruct Hok as [Hid Hst]. apply Z.eqb_eq in Hid.
    apply ticket_state_eqb_eq in Hst.
    split; [exact Hin|]. split; [exact Hst|].
    split; [auto | discriminate].
  - unfold bind at 1 in H.
    pose proof (resolve_service_reads counterId agentId requested s) as Hr.
    destruct (resolve_service counterId agentId requested s)
      as [s0 [e|sv]] eqn:Eres; simpl in Hr; subst s0; [discriminate|].
    unfold bind, query, throw, ret in H.
    destruct (next_waiting_ticket (s_id sv) s) as [row0|] eqn:En;
      [|discriminate].
    injection H as <-.
    destruct (next_waiting_ticket_earliest (s_id sv) s row0 En)
      as (_ & Hst & _).
    assert (Hin : In row0 (tickets_join_services s)).
    { unfold next_waiting_ticket in En. apply hd_error_In in En.
      apply order_by_In in En. apply filter_In in En. tauto. }
    split; [exact Hin|]. split; [exact Hst|].
    split; [discriminate|]. intros _. now exists sv.
Qed.

Lemma call_next_work_success counterId agentId requested ticketId now s s' r :
  call_next_work counterId agentId requested ticketId now s = (s', inr r) ->
  exists row,
    select_ticket counterId agentId requested ticketId s = (s, inr row)
    /\ s' = update_counter counterId (mark_serving (t_id (fst row)) agentId)
              (update_ticket (t_id (fst row))
                 (mark_called now counterId agentId) s)
    /\ r = mkCallNextResult (t_id (fst row)) (ticket_number (fst row))
             (service_id (fst row)) (s_name (snd row))
             (display_name (customer_name (fst row)) "Customer")
             counterId agentId now
             (build_snapshot (service_id (fst row)) s').
Proof.
  unfold call_next_work. unfold bind at 1.
  pose proof (select_ticket_reads counterId agentId requested ticketId s)
    as Hr.
  destruct (select_ticket counterId agentId requested ticketId s)
    as [s0 [e|row]]; simpl in Hr; subst s0; [discriminate|].
  unfold bind, run, getQueueSnapshot, query, ret. intros H.
  injection H as <- <-. exists row. repeat split.
Qed.

(** A successful answer of call-next, traced back to the request, the
    selected row and the statements run. *)
Lemma call_next_success body now c r :
  snd (call_next body now c) = inr r ->
  exists counterId agentId requested ticketId row,
    cn_counterId body = Some counterId /\ 0 < counterId
    /\ cn_agentId body = Some agentId /\ 0 < agentId
    /\ ((truthy (cn_ticketId body) = true /\ ticketId = cn_ticketId body)
        \/ (truthy (cn_ticketId body) = false /\ ticketId = None))
    /\ idle c
    /\ select_ticket counterId agentId requested ticketId (data c)
       = (data c, inr row)
    /\ data (fst (call_next body now c))
       = update_counter counterId (mark_serving (t_id (fst row)) agentId)
           (update_ticket (t_id (fst row))
              (mark_called now counterId agentId) (data c))
    /\ r = mkCallNextResult (t_id (fst row)) (ticket_number (fst row))
             (service_id (fst row)) (s_name (snd row))
             (display_name (customer_name (fst row)) "Customer")
             counterId agentId now
             (build_snapshot (service_id (fst row))
                (data (fst (call_next body now c)))).
Proof.
  unfold call_next.
  destruct (parsePositiveInt (cn_counterId body) "counterId")
    as [|counterId] eqn:Ec; [discriminate|].
  destruct (parsePositiveInt (cn_agentId body) "agentId")
    as [|agentId] eqn:Ea; [discriminate|].
  destruct (parseOptionalPositiveInt (cn_serviceId body) "serviceId" None)
    as [|requested] eqn:Es; [discriminate|].
  destruct (parseOptionalPositiveInt (cn_ticketId body) "ticketId" None)
    as [|ticketId] eqn:Et; [discriminate|].
  intros H. apply withTransaction_success in H.
  destruct H as (Hidle & d & Hwork & Hconn). rewrite Hconn. simpl.
  apply call_next_work_success in Hwork.
  destruct Hwork as (row & Hsel & -> & ->).
  apply parsePositiveInt_success in Ec, Ea.
  exists counterId, agentId, requested, ticketId, row.
  destruct Ec as [Hc Hcp]. destruct Ea as [Ha Hap].
  repeat split; try assumption.
  destruct (parseOptionalPositiveInt_success _ _ _ Et) as [[Ht ->] | [Ht ->]];
    auto.
Qed.

Lemma join_row_ticket (s : store) (row : ticket * service) :
  In row (tickets_join_services s) ->
  In (fst row) (tickets s) /\ In (snd row) (services s)
  /\ service_id (fst row) = s_id (snd row).
Proof. destruct row as [t sv]. apply join_services_In. Qed.

(** X2.  When call-next succeeds, the ticket it returns was a [waiting]
    row; afterwards the row of that ticket is [called] with called_at
    and served_at the instant of the call, counter_id and agent_id those
    of the request and recall_count one higher; every other ticket row
    is as before; the counter's row is [serving] with current_ticket_id
    the ticket and current_agent_id the agent; and the queue snapshot in
    the answer does not list the called ticket. *)
Theorem call_next_effects :
  forall (body : call_next_body) (now : Z) (c : conn) (r : call_next_result),
    primary_key (data c) ->
    snd (call_next body now c) = inr r ->
    exists (t : ticket) (counterId agentId : Z),
      cn_counterId body = Some counterId /\ cn_agentId body = Some agentId
      /\ In t (tickets (data c)) /\ t_state t = waiting
      /\ cnr_id r = t_id t /\ cnr_number r = ticket_number t
      /\ cnr_serviceId r = service_id t
      /\ tickets (data (fst (call_next body now c)))
         = map (fun x => if t_id x =? t_id t
                         then mark_called now counterId agentId t else x)
               (tickets (data c))
      /\ counters (data (fst (call_next body now c)))
         = map (fun k => if c_id k =? counterId
                         then mkCounter (c_id k) serving (Some agentId)
                                (Some (t_id t)) (default_service_id k)
                         else k)
               (counters (data c))
      /\ services (data (fst (call_next body now c))) = services (data c)
      /\ ~ In (t_id t) (map q_id (snap_tickets (cnr_queue r))).
Proof.
  intros body now c r Hpk Hok.
  destruct (call_next_success body now c r Hok)
    as (counterId & agentId & requested & ticketId & row & Hc & _ & Ha & _
        & _ & _ & Hsel & Hdata & ->).
  apply select_ticket_success in Hsel.
  destruct Hsel as (_ & Hjoin & Hst & _).
  destruct (join_row_ticket (data c) row Hjoin) as (Hin & _ & _).
  exists (fst row), counterId, agentId. rewrite Hdata. simpl.
  repeat split; try assumption.
  - apply map_ext_in. intros x Hx.
    destruct (t_id x =? t_id (fst row)) eqn:E; [|reflexivity].
    apply Z.eqb_eq in E.
    now rewrite (primary_key_unique (data c) (fst row) x Hpk Hin Hx E).
  - unfold waiting_rows. rewrite map_map. simpl. intros Hq.
    apply in_map_iff in Hq. destruct Hq as (x & Hid & Hx).
    apply order_by_In in Hx. apply filter_In in Hx.
    destruct Hx as [Hx Hkeep]. apply in_map_iff in Hx.
    destruct Hx as (x0 & Hx0 & _).
    destruct (t_id x0 =? t_id (fst row)) eqn:E.
    + subst x. simpl in Hkeep. rewrite andb_false_r in Hkeep. discriminate.
    + subst x. apply Z.eqb_neq in E. contradiction.
Qed.

Lemma call_next_effects_witness :
  exists r,
    snd (call_next Demo.next_body 5000 Demo.conn2) = inr r
    /\ cnr_id r = 1
    /\ nth_error (tickets (data Demo.conn3)) 0 = Some Demo.ticket1_called
    /\ map c_state (counters (data Demo.conn3)) = [serving].
Proof.
  eexists. split; [reflexivity|].
  destruct (call_next_effects Demo.next_body 5000 Demo.conn2 _
              ltac:(concrete_key) eq_refl)
    as (t & counterId & agentId & _ & _ & _ & _ & Hid & _).
  repeat split.
Defined.

(** X3.  Without a ticketId, call-next hands out a waiting ticket of the
    service it resolved that is no later in created_at than any other
    waiting ticket of that service (a null created_at counting as
    earliest); priority plays no part. *)
Theorem call_next_first_come_first_served :
  forall (body : call_next_body) (now : Z) (c : conn) (r : call_next_result),
    foreign_key (data c) ->
    truthy (cn_ticketId body) = false ->
    snd (call_next body now c) = inr r ->
    exists t,
      In t (tickets (data c)) /\ t_id t = cnr_id r
      /\ service_id t = cnr_serviceId r /\ t_state t = waiting
      /\ forall t',
           In t' (tickets (data c)) ->
           service_id t' = cnr_serviceId r -> t_state t' = waiting ->
           instant_leb (created_at t) (created_at t') = true.
Proof.
  intros body now c r Hfk Hno Hok.
  destruct (call_next_success body now c r Hok)
    as (counterId & agentId & requested & ticketId & row & _ & _ & _ & _
        & Hcase & _ & Hsel & _ & ->).
  assert (Hfalse : truthy ticketId = false).
  { destruct Hcase as [[Ht _] | [_ ->]]; [congruence | reflexivity]. }
  apply select_ticket_success in Hsel.
  destruct Hsel as (_ & Hjoin & Hst & _ & Hqueue).
  destruct (Hqueue Hfalse) as (sv & _ & Hnext).
  destruct (next_waiting_ticket_earliest (s_id sv) (data c) row Hnext)
    as (Hsid & _ & Hin & Hmin).
  exists (fst row). simpl. repeat split; try assumption.
  intros t' Hin' Hsid' Hst'. apply Hmin; try assumption; [congruence|].
  exact (Hfk t' Hin').
Qed.

Lemma call_next_first_come_first_served_witness :
  exists r t,
    snd (call_next Demo.next_body 5000 Demo.conn2) = inr r
    /\ In t (tickets (data Demo.conn2)) /\ t_id t = cnr_id r
    /\ created_at t = Some 1000.
Proof.
  destruct (call_next_first_come_first_served Demo.next_body 5000 Demo.conn2
              _ ltac:(concrete_reference) eq_refl eq_refl)
    as (t & Hin & Hid & _ & _ & _).
  eexists. exists t. split; [reflexivity|].
  split; [exact Hin|]. split; [exact Hid|].
  vm_compute in Hin. simpl in Hid.
  destruct Hin as [<- | [<- | []]]; [reflexivity | discriminate].
Defined.

(** X4.  A ticket handed out by call-next cannot be handed out again by
    the next call-next, whoever asks and whether by ticketId or from the
    queue: the ticket is no longer [waiting]. *)
Theorem call_next_never_repeats :
  forall (body body' : call_next_body) (now now' : Z) (c : conn)
         (r r' : call_next_result),
    snd (call_next body now c) = inr r ->
    snd (call_next body' now' (fst (call_next body now c))) = inr r' ->
    cnr_id r' <> cnr_id r.
Proof.
  intros body body' now now' c r r' Hok Hok'.
  destruct (call_next_success body now c r Hok)
    as (counterId & agentId & requested & ticketId & row & _ & _ & _ & _
        & _ & _ & _ & Hdata & ->).
  destruct (call_next_success body' now' _ r' Hok')
    as (counterId' & agentId' & requested' & ticketId' & row' & _ & _ & _
        & _ & _ & _ & Hsel' & _ & ->).
  apply select_ticket_success in Hsel'.
  destruct Hsel' as (_ & Hjoin' & Hst' & _).
  destruct (join_row_ticket _ row' Hjoin') as (Hin' & _ & _).
  rewrite Hdata in Hin'. simpl in Hin'. simpl.
  apply in_map_iff in Hin'. destruct Hin' as (x & Hx & _).
  destruct (t_id x =? t_id (fst row)) eqn:E.
  - rewrite <- Hx in Hst'. discriminate.
  - apply Z.eqb_neq in E. now rewrite <- Hx.
Qed.

Lemma call_next_never_repeats_witness :
  exists r r',
    snd (call_next Demo.next_body 5000 Demo.conn2) = inr r
    /\ snd (call_next (mkCallNextBody (Some 3) (Some 7) None None) 6000
              Demo.conn3) = inr r'
    /\ cnr_id r = 1 /\ cnr_id r' = 2 /\ cnr_id r' <> cnr_id r.
Proof.
  eexists. eexists. split; [reflexivity|]. split; [reflexivity|].
  split; [reflexivity|]. split; [reflexivity|].
  exact (call_next_never_repeats Demo.next_body
           (mkCallNextBody (Some 3) (Some 7) None None) 5000 6000
           Demo.conn2 _ _ eq_refl eq_refl).
Defined.

(** ** Recall and no-show *)

Lemma called_ticket_none (s : store) (tid cid aid : Z) :
  (forall x, In x (tickets s) -> t_id x = tid -> t_state x <> called) ->
  called_ticket tid cid aid s = None.
Proof.
  intros H. unfold called_ticket. apply find_none_all.
  intros [x sv] Hin. apply join_services_In in Hin. destruct Hin as (Hx & _).
  simpl. destruct (t_id x =? tid) eqn:E; [|reflexivity].
  apply Z.eqb_eq in E. specialize (H x Hx E).
  destruct (ticket_state_eqb (t_state x) called) eqn:Es; [|reflexivity].
  apply ticket_state_eqb_eq in Es. contradiction.
Qed.

Lemma recall_parsed tid cid aid now c :
  0 < tid -> 0 < cid -> 0 < aid ->
  recall (ticket_request tid cid aid) now c
  = withTransaction (recall_work tid cid aid now) None c.
Proof.
  intros. unfold recall, ticket_request.
  cbn [b_ticketId b_counterId b_agentId b_targetServiceId b_position b_notes].
  now rewrite !parsePositiveInt_ok by assumption.
Qed.


Lemma recycle_parsed tid cid aid now c :
  0 < tid -> 0 < cid -> 0 < aid ->
  recycle (ticket_request tid cid aid) now c
  = withTransaction (recycle_work tid cid aid 3 now) None c.
Proof.
  intros. unfold recycle, ticket_request.
  cbn [b_ticketId b_counterId b_agentId b_targetServiceId b_position b_notes].
  now rewrite !parsePositiveInt_ok by assumption.
Qed.

Lemma transfer_parsed tid target cid aid now c :
  0 < tid -> 0 < target -> 0 < cid -> 0 < aid ->
  transfer (mkTerminalBody (Some tid) (Some cid) (Some aid) None None
              (Some target)) now c
  = withTransaction (transfer_work tid target cid aid now) None c.
Proof.
  intros. unfold transfer.
  cbn [b_ticketId b_counterId b_agentId b_targetServiceId b_position b_notes].
  now rewrite !parsePositiveInt_ok by assumption.
Qed.

(** *** Updates the queue snapshot does not see *)

Lemma filter_map_commute {A} (p : A -> bool) (f : A -> A) (l : list A) :
  (forall x, p (f x) = p x) ->
  filter p (map f l) = map f (filter p l).
Proof.
  intros H. induction l as [|x l IH]; simpl; [reflexivity|].
  rewrite H. destruct (p x); simpl; now rewrite IH.
Qed.

Lemma insert_sorted_map {A} (le : A -> A -> bool) (f : A -> A) x l :
  (forall a b, le (f a) (f b) = le a b) ->
  insert_sorted le (f x) (map f l) = map f (insert_sorted le x l).
Proof.
  intros H. induction l as [|y l IH]; simpl; [reflexivity|].
  rewrite H. destruct (le x y); simpl; [reflexivity | now rewrite IH].
Qed.

Lemma order_by_map {A} (le : A -> A -> bool) (f : A -> A) (l : list A) :
  (forall a b, le (f a) (f b) = le a b) ->
  order_by le (map f l) = map f (order_by le l).
Proof.
  intros H. induction l as [|x l IH]; simpl; [reflexivity|].
  now rewrite IH, insert_sorted_map.
Qed.

(** A snapshot reads the ticket table only. *)
Lemma build_snapshot_tickets (sid : Z) (s1 s2 : store) :
  tickets s1 = tickets s2 -> build_snapshot sid s1 = build_snapshot sid s2.
Proof.
  intros H. unfold build_snapshot, count_state, waiting_rows.
  now rewrite H.
Qed.

(** An UPDATE that keeps service, state and the columns the snapshot
    shows does not change any snapshot. *)
Lemma build_snapshot_update (f : ticket -> ticket) (tid sid : Z) (s : store) :
  (forall x, service_id (f x) = service_id x) ->
  (forall x, t_state (f x) = t_state x) ->
  (forall x, snapshot_entry (f x) = snapshot_entry x) ->
  build_snapshot sid (update_ticket tid f s) = build_snapshot sid s.
Proof.
  intros Hsid Hst Hentry.
  set (g := fun x => if t_id x =? tid then f x else x).
  assert (Gsid : forall x, service_id (g x) = service_id x).
  { intros x. unfold g. destruct (t_id x =? tid); auto. }
  assert (Gst : forall x, t_state (g x) = t_state x).
  { intros x. unfold g. destruct (t_id x =? tid); auto. }
  assert (Gentry : forall x, snapshot_entry (g x) = snapshot_entry x).
  { intros x. unfold g. destruct (t_id x =? tid); auto. }
  assert (Gprio : forall x, t_priority (g x) = t_priority x).
  { intros x. exact (f_equal q_priority (Gentry x)). }
  assert (Gcreated : forall x, created_at (g x) = created_at x).
  { intros x. exact (f_equal q_created_at (Gentry x)). }
  assert (Hcount : forall st,
             count_state sid st (update_ticket tid f s)
             = count_state sid st s).
  { intros st. unfold count_state, update_ticket. simpl. fold g.
    rewrite filter_map_commute, length_map; [reflexivity|].
    intros x. now rewrite Gsid, Gst. }
  unfold build_snapshot. rewrite !Hcount. f_equal.
  unfold waiting_rows, update_ticket. simpl. fold g.
  rewrite filter_map_commute by (intros x; now rewrite Gsid, Gst).
  rewrite order_by_map.
  - rewrite map_map. apply map_ext. exact Gentry.
  - intros a b. unfold priority_desc_created_asc.
    now rewrite !Gprio, !Gcreated.
Qed.

Lemma recall_work_ok s row tid cid aid now :
  called_ticket tid cid aid s = Some row ->
  exists r,
    recall_work tid cid aid now s
    = (update_ticket tid (mark_recalled now) s, inr r)
    /\ rc_recallCount r = recall_count (fst row) + 1
    /\ rc_calledAt r = now
    /\ rc_queue r = build_snapshot (service_id (fst row)) s.
Proof.
  intros Hfind. unfold recall_work, bind, query, run, getQueueSnapshot, ret.
  rewrite Hfind. eexists. split; [reflexivity|]. simpl.
  split.
  { unfold or_else. destruct (recall_count (fst row) =? 0) eqn:E;
      [apply Z.eqb_eq in E; lia | reflexivity]. }
  split; [reflexivity|].
  now apply build_snapshot_update.
Qed.

(** X5.  Recall of a ticket that is [called] at the requesting counter
    and agent commits; it adds one to recall_count and sets called_at to
    the instant of the recall in that ticket's row, changes nothing else
    in any table (served_at in particular stays), reports the new
    recall_count, and returns the same queue snapshot as before the
    recall.  For a ticket in any other state the answer is 404 and the
    data are unchanged. *)
Theorem recall_effects :
  forall (c : conn) (t : ticket) (cid aid now : Z),
    idle c -> primary_key (data c) -> foreign_key (data c) ->
    In t (tickets (data c)) ->
    counter_id t = Some cid -> agent_id t = Some aid ->
    0 < t_id t -> 0 < cid -> 0 < aid ->
    (t_state t = called ->
       exists r,
         recall (ticket_request (t_id t) cid aid) now c
         = (mkConn (update_ticket (t_id t) (mark_recalled now) (data c))
              None (log c ++ [BEGIN None; COMMIT]), inr r)
         /\ tickets (update_ticket (t_id t) (mark_recalled now) (data c))
            = map (fun x => if t_id x =? t_id t
                            then mkTicket (t_id t) (ticket_number t)
                                   (service_id t) called (t_priority t)
                                   (customer_name t) (customer_phone t)
                                   (customer_email t) (created_at t)
                                   (Some now) (served_at t) (completed_at t)
                                   (estimated_wait t) (actual_wait t)
                                   (service_duration t) (counter_id t)
                                   (agent_id t) (original_service_id t)
                                   (transferred_at t) (recall_count t + 1)
                                   (notes t)
                            else x)
                  (tickets (data c))
         /\ rc_recallCount r = recall_count t + 1
         /\ rc_queue r = build_snapshot (service_id t) (data c))
    /\ (t_state t <> called ->
          recall (ticket_request (t_id t) cid aid) now c
          = (mkConn (data c) None (log c ++ [BEGIN None; ROLLBACK]),
             inl (httpError 404 "Ticket not found or not in called state"))).
Proof.
  intros c t cid aid now Hidle Hpk Hfk Hin Hc Ha Htid Hcid Haid.
  rewrite (recall_parsed (t_id t) cid aid now c) by assumption.
  split.
  - intros Hst.
    destruct (called_ticket_found (data c) t cid aid Hpk Hfk Hin Hst Hc Ha)
      as (sv & Hfind & _).
    destruct (recall_work_ok (data c) (t, sv) (t_id t) cid aid now Hfind)
      as (r & Hrun & Hcount & _ & Hq).
    exists r. split; [exact (withTransaction_return _ None c _ r Hidle Hrun)|].
    split; [|split; assumption].
    unfold update_ticket. simpl. apply map_ext_in. intros x Hx.
    destruct (t_id x =? t_id t) eqn:E; [|reflexivity].
    apply Z.eqb_eq in E.
    rewrite (primary_key_unique (data c) t x Hpk Hin Hx E).
    unfold mark_recalled. now rewrite Hst.
  - intros Hst.
    apply (withTransaction_throw _ None c (data c)); [assumption|].
    unfold recall_work, bind, query.
    rewrite called_ticket_none; [reflexivity|].
    intros x Hx Hid. now rewrite (primary_key_unique (data c) t x Hpk Hin Hx Hid).
Qed.

Lemma recall_effects_witness :
  exists r,
    snd (recall (ticket_request 1 3 7) 7000 Demo.conn3) = inr r
    /\ rc_recallCount r = 2
    /\ rc_queue r = build_snapshot 1 (data Demo.conn3).
Proof.
  destruct (proj1 (recall_effects Demo.conn3 Demo.ticket1_called 3 7 7000
                     eq_refl ltac:(concrete_key) ltac:(concrete_reference)
                     ltac:(concrete_row) eq_refl eq_refl eq_refl eq_refl
                     eq_refl) eq_refl)
    as (r & Hrun & _ & Hcount & Hq).
  exists r. change (recall (ticket_request (t_id Demo.ticket1_called) 3 7)
                      7000 Demo.conn3)
    with (recall (ticket_request 1 3 7) 7000 Demo.conn3) in Hrun.
  rewrite Hrun. repeat split; assumption.
Defined.


Lemma assigned_ticket_state (s : store) (tid cid aid : Z)
    (row : ticket * service) :
  assigned_ticket tid cid aid s = Some row ->
  In (fst row) (tickets s) /\ t_id (fst row) = tid.
Proof.
  unfold assigned_ticket. intros H. apply find_some in H.
  destruct H as [Hin Hok]. apply join_row_ticket in Hin.
  apply andb_true_iff in Hok. destruct Hok as [Hok _].
  apply andb_true_iff in Hok. destruct Hok as [Hid _].
  apply Z.eqb_eq in Hid. tauto.
Qed.



(** ** Call-next followed by complete or recycle *)

(** The state after a successful call-next, for the requests that
    follow it. *)
Lemma after_call_next body now c r :
  consistent (data c) ->
  snd (call_next body now c) = inr r ->
  exists (t : ticket) (cid aid : Z),
    cn_counterId body = Some cid /\ 0 < cid
    /\ cn_agentId body = Some aid /\ 0 < aid
    /\ In t (tickets (data c)) /\ t_state t = waiting /\ cnr_id r = t_id t
    /\ idle (fst (call_next body now c))
    /\ consistent (data (fst (call_next body now c)))
    /\ data (fst (call_next body now c))
       = update_counter cid (mark_serving (t_id t) aid)
           (update_ticket (t_id t) (mark_called now cid aid) (data c))
    /\ In (mark_called now cid aid t)
          (tickets (data (fst (call_next body now c)))).
Proof.
  intros Hcons Hok.
  pose proof (call_next_consistent body now c Hcons) as Hcons'.
  destruct (call_next_success body now c r Hok)
    as (cid & aid & requested & ticketId & row & Hc & Hcp & Ha & Hap & _
        & Hidle & Hsel & Hdata & ->).
  apply select_ticket_success in Hsel.
  destruct Hsel as (_ & Hjoin & Hst & _).
  destruct (join_row_ticket (data c) row Hjoin) as (Hin & _ & _).
  exists (fst row), cid, aid.
  repeat split; try assumption; try apply Hcons'.
  - unfold call_next in *.
    rewrite Hc, Ha in *. rewrite !parsePositiveInt_ok in * by assumption.
    destruct (parseOptionalPositiveInt (cn_serviceId body) "serviceId" None);
      [discriminate|].
    destruct (parseOptionalPositiveInt (cn_ticketId body) "ticketId" None);
      [discriminate|].
    apply withTransaction_success in Hok.
    destruct Hok as (_ & d & _ & ->). reflexivity.
  - rewrite Hdata. unfold update_counter, update_ticket. simpl.
    apply in_map_iff. exists (fst row). split; [|assumption].
    now rewrite Z.eqb_refl.
Qed.

(** X7.  A ticket handed out by call-next can be completed by the same
    counter and agent: the complete request commits, the ticket's row
    becomes [completed] with completed_at the instant of the request,
    service_duration is the whole seconds between the call and the
    completion, actual_wait the whole seconds between created_at and the
    call (null when created_at is null), and the counter's row is
    [available] with current_ticket_id null. *)
Theorem call_next_then_complete :
  forall (body : call_next_body) (called_at_ms done_ms : Z) (c : conn)
         (r : call_next_result),
    consistent (data c) ->
    snd (call_next body called_at_ms c) = inr r ->
    0 < cnr_id r ->
    exists (t : ticket) (r2 : complete_result) (c2 : conn),
      In t (tickets (data c)) /\ t_id t = cnr_id r
      /\ complete (ticket_request (cnr_id r) (cnr_counterId r) (cnr_agentId r))
           done_ms (fst (call_next body called_at_ms c)) = (c2, inr r2)
      /\ cr_serviceDuration r2 = Some ((done_ms - called_at_ms) / 1000)
      /\ cr_actualWait r2
         = match created_at t with
           | Some created => Some ((called_at_ms - created) / 1000)
           | None => None
           end
      /\ (exists t2, In t2 (tickets (data c2)) /\ t_id t2 = cnr_id r
                     /\ t_state t2 = completed
                     /\ completed_at t2 = Some done_ms
                     /\ actual_wait t2 = cr_actualWait r2
                     /\ service_duration t2 = cr_serviceDuration r2)
      /\ (forall k, In k (counters (data c2)) -> c_id k = cnr_counterId r ->
                    c_state k = available /\ current_ticket_id k = None).
Proof.
  intros body t0 t1 c r Hcons Hok Hpos.
  destruct (after_call_next body t0 c r Hcons Hok)
    as (t & cid & aid & Hc & Hcp & Ha & Hap & Hin & Hst & Hid & Hidle1
        & Hcons1 & Hdata1 & Hrow1).
  destruct (call_next_success body t0 c r Hok)
    as (cid' & aid' & _ & _ & row & Hc' & _ & Ha' & _ & _ & _ & _ & _ & Hr).
  assert (cid' = cid) by congruence. assert (aid' = aid) by congruence.
  subst cid' aid'.
  assert (Hrc : cnr_counterId r = cid) by (rewrite Hr; reflexivity).
  assert (Hra : cnr_agentId r = aid) by (rewrite Hr; reflexivity).
  rewrite Hrc, Hra, Hid in *.
  set (c1 := fst (call_next body t0 c)) in *.
  set (t1row := mark_called t0 cid aid t) in *.
  destruct (assigned_ticket_found (data c1) t1row cid aid
              (proj1 Hcons1) (proj2 Hcons1) Hrow1 eq_refl eq_refl)
    as (sv & Hfind & _).
  assert (Hnot : t_state (fst (t1row, sv)) <> completed) by discriminate.
  destruct (complete_work_ok (data c1) (t1row, sv) (t_id t) cid aid None t1
              Hfind Hnot) as (r2 & Hrun & Hw & Hd & _).
  simpl in Hw, Hd.
  exists t, r2. eexists.
  split; [exact Hin|]. split; [reflexivity|].
  split.
  { rewrite (complete_parsed (ticket_request (t_id t) cid aid) (t_id t) cid
               aid t1 c1) by (try reflexivity; assumption).
    exact (withTransaction_return _ None c1 _ r2 Hidle1 Hrun). }
  split; [rewrite Hd; reflexivity|].
  split.
  { rewrite Hw. unfold compute_actual_wait, t1row. simpl.
    now destruct (created_at t). }
  split.
  - exists (mark_completed t1 (compute_actual_wait t1row)
              (compute_service_duration t1 t1row) None t1row).
    split.
    { simpl. apply in_map_iff. exists t1row. split; [|exact Hrow1].
      unfold t1row at 1. simpl. now rewrite Z.eqb_refl. }
    simpl. rewrite Hw, Hd. repeat split.
  - intros k Hk Hkid. simpl in Hk.
    apply in_map_iff in Hk. destruct Hk as (k0 & Hk0 & _).
    destruct (c_id k0 =? cid) eqn:E.
    + subst k. simpl. auto.
    + apply Z.eqb_neq in E. subst k. contradiction.
Qed.

Lemma call_next_then_complete_witness :
  exists r r2 c2,
    snd (call_next Demo.next_body 5000 Demo.conn2) = inr r
    /\ complete (ticket_request 1 3 7) 65000 Demo.conn3 = (c2, inr r2)
    /\ cr_serviceDuration r2 = Some 60 /\ cr_actualWait r2 = Some 4.
Proof.
  assert (Hcons : consistent (data Demo.conn2)).
  { split; [concrete_key | concrete_reference]. }
  destruct (call_next_then_complete Demo.next_body 5000 65000 Demo.conn2 _
              Hcons eq_refl eq_refl)
    as (t & r2 & c2 & Hin & Hid & Hrun & Hd & Hw & _).
  eexists. exists r2, c2. split; [reflexivity|].
  split; [exact Hrun|]. split; [exact Hd|].
  rewrite Hw. vm_compute in Hin. simpl in Hid.
  destruct Hin as [<- | [<- | []]]; [reflexivity | discriminate].
Defined.

(** X8.  Call-next followed by recycle from the same counter and agent
    puts the ticket back: when the ticket was at no counter before the
    call, the ticket table after the recycle is the table from before
    the call except that the ticket's recall_count is one higher, so the
    ticket keeps its place in the queue. *)
Theorem call_next_then_recycle :
  forall (body : call_next_body) (now later : Z) (c : conn)
         (r : call_next_result),
    consistent (data c) ->
    (forall t, In t (tickets (data c)) -> t_state t = waiting -> unassigned t) ->
    snd (call_next body now c) = inr r ->
    0 < cnr_id r ->
    exists (r2 : recycle_result) (c2 : conn),
      recycle (ticket_request (cnr_id r) (cnr_counterId r) (cnr_agentId r))
        later (fst (call_next body now c)) = (c2, inr r2)
      /\ tickets (data c2)
         = map (fun x => if t_id x =? cnr_id r
                         then with_recall_count (recall_count x + 1) x
                         else x)
               (tickets (data c))
      /\ build_snapshot (cnr_serviceId r) (data c2)
         = build_snapshot (cnr_serviceId r) (data c).
Proof.
  intros body t0 t1 c r Hcons Hwaiting Hok Hpos.
  destruct (after_call_next body t0 c r Hcons Hok)
    as (t & cid & aid & Hc & Hcp & Ha & Hap & Hin & Hst & Hid & Hidle1
        & Hcons1 & Hdata1 & Hrow1).
  destruct (call_next_success body t0 c r Hok)
    as (cid' & aid' & _ & _ & row & Hc' & _ & Ha' & _ & _ & _ & _ & _ & Hr).
  assert (cid' = cid) by congruence. assert (aid' = aid) by congruence.
  subst cid' aid'.
  assert (Hrc : cnr_counterId r = cid) by (rewrite Hr; reflexivity).
  assert (Hra : cnr_agentId r = aid) by (rewrite Hr; reflexivity).
  assert (Hrs : cnr_serviceId r = service_id (fst row))
    by (rewrite Hr; reflexivity).
  rewrite Hrc, Hra, Hid in *.
  set (c1 := fst (call_next body t0 c)) in *.
  set (t1row := mark_called t0 cid aid t) in *.
  destruct (assigned_ticket_found (data c1) t1row cid aid
              (proj1 Hcons1) (proj2 Hcons1) Hrow1 eq_refl eq_refl)
    as (sv & Hfind & _).
  destruct (recycle_work_ok (data c1) (t1row, sv) (t_id t) cid aid 3 t1
              Hfind eq_refl) as (r2 & Hrun & _).
  exists r2. eexists.
  assert (Htable :
            tickets (update_counter cid release_counter
                       (update_ticket (t_id t) mark_recycled (data c1)))
            = map (fun x => if t_id x =? t_id t
                            then with_recall_count (recall_count x + 1) x
                            else x)
                  (tickets (data c))).
  { rewrite Hdata1. unfold update_counter, update_ticket. simpl.
    rewrite map_map. apply map_ext_in. intros x Hx.
    destruct (t_id x =? t_id t) eqn:E.
    - simpl. rewrite E. apply Z.eqb_eq in E.
      rewrite (primary_key_unique (data c) t x (proj1 Hcons) Hin Hx E).
      destruct (Hwaiting t Hin Hst) as (H1 & H2 & H3 & H4).
      unfold mark_recycled, mark_called, with_recall_count. simpl.
      rewrite H1, H2, H3, H4, Hst. reflexivity.
    - now rewrite E. }
  split.
  { rewrite recycle_parsed by assumption.
    exact (withTransaction_return _ None c1 _ r2 Hidle1 Hrun). }
  cbn [data]. split; [exact Htable|].
  rewrite (build_snapshot_tickets (cnr_serviceId r) _
             (update_ticket (t_id t)
                (fun x => with_recall_count (recall_count x + 1) x)
                (data c)) Htable).
  exact (build_snapshot_update
           (fun x => with_recall_count (recall_count x + 1) x)
           (t_id t) (cnr_serviceId r) (data c)
           (fun x => eq_refl) (fun x => eq_refl) (fun x => eq_refl)).
Qed.

Lemma call_next_then_recycle_witness :
  exists r2 c2,
    recycle (ticket_request 1 3 7) 9000 Demo.conn3 = (c2, inr r2)
    /\ map recall_count (tickets (data c2)) = [1; 0]
    /\ map t_state (tickets (data c2)) = [waiting; waiting].
Proof.
  assert (Hcons : consistent (data Demo.conn2)).
  { split; [concrete_key | concrete_reference]. }
  assert (Hw : forall t, In t (tickets (data Demo.conn2)) ->
                         t_state t = waiting -> unassigned t).
  { vm_compute. intros t [<- | [<- | []]] _; repeat split. }
  destruct (call_next_then_recycle Demo.next_body 5000 9000 Demo.conn2 _
              Hcons Hw eq_refl eq_refl)
    as (r2 & c2 & Hrun & Htable & _).
  exists r2, c2. split; [exact Hrun|].
  rewrite Htable. split; reflexivity.
Defined.

(** ** The queue snapshot *)

Section SortedFacts.
Context {A : Type}.
Variable le : A -> A -> bool.
Hypothesis le_total : forall a b, le a b = false -> le b a = true.
Hypothesis le_trans :
  forall a b c, le a b = true -> le b c = true -> le a c = true.

Lemma insert_sorted_sorted (x : A) (l : list A) :
  StronglySorted (fun a b => le a b = true) l ->
  StronglySorted (fun a b => le a b = true) (insert_sorted le x l).
Proof.
  induction 1 as [|y l Hl IH Hy]; simpl.
  - repeat constructor.
  - destruct (le x y) eqn:E.
    + constructor; [now constructor|].
      constructor; [exact E|].
      rewrite Forall_forall in *. intros z Hz.
      apply (le_trans x y z E). now apply Hy.
    + constructor; [exact IH|].
      rewrite Forall_forall in *. intros z Hz.
      apply insert_sorted_In in Hz. destruct Hz as [-> | Hz].
      * now apply le_total.
      * now apply Hy.
Qed.

Lemma order_by_sorted (l : list A) :
  StronglySorted (fun a b => le a b = true) (order_by le l).
Proof.
  induction l as [|x l IH]; simpl; [constructor|].
  now apply insert_sorted_sorted.
Qed.

Lemma insert_sorted_perm (x : A) (l : list A) :
  Permutation (insert_sorted le x l) (x :: l).
Proof.
  induction l as [|y l IH]; simpl; [reflexivity|].
  destruct (le x y); [reflexivity|].
  rewrite IH. apply perm_swap.
Qed.

Lemma order_by_perm (l : list A) : Permutation (order_by le l) l.
Proof.
  induction l as [|x l IH]; simpl; [reflexivity|].
  rewrite insert_sorted_perm. now constructor.
Qed.
End SortedFacts.

Lemma StronglySorted_map {A B} (R : A -> A -> Prop) (R' : B -> B -> Prop)
    (f : A -> B) (l : list A) :
  (forall a b, R a b -> R' (f a) (f b)) ->
  StronglySorted R l -> StronglySorted R' (map f l).
Proof.
  intros H. induction 1 as [|x l Hl IH Hx]; simpl; constructor.
  - exact IH.
  - rewrite Forall_forall in *. intros y Hy. apply in_map_iff in Hy.
    destruct Hy as (z & <- & Hz). apply H. now apply Hx.
Qed.

Lemma priority_order_total a b :
  priority_desc_created_asc a b = false ->
  priority_desc_created_asc b a = true.
Proof.
  unfold priority_desc_created_asc. intros H.
  apply orb_false_iff in H. destruct H as [H1 H2].
  apply Z.ltb_ge in H1.
  destruct (t_priority a <? t_priority b) eqn:E; [reflexivity|].
  apply Z.ltb_ge in E. simpl.
  assert (Heq : t_priority a = t_priority b) by lia.
  rewrite Heq, Z.eqb_refl in *. simpl in *. now apply instant_leb_total.
Qed.

Lemma priority_order_trans a b c :
  priority_desc_created_asc a b = true ->
  priority_desc_created_asc b c = true ->
  priority_desc_created_asc a c = true.
Proof.
  unfold priority_desc_created_asc. intros H1 H2.
  apply orb_true_iff in H1, H2. apply orb_true_iff.
  destruct H1 as [H1 | H1], H2 as [H2 | H2];
    try (apply andb_true_iff in H1; destruct H1 as [H1 H1']);
    try (apply andb_true_iff in H2; destruct H2 as [H2 H2']);
    rewrite ?Z.ltb_lt, ?Z.eqb_eq in *.
  - left. lia.
  - left. lia.
  - left. lia.
  - right. apply andb_true_iff. split; [apply Z.eqb_eq; lia|].
    now apply (instant_leb_trans _ (created_at b)).
Qed.

Lemma filter_length_disjoint {A} (p q : A -> bool) (l : list A) :
  (forall x, p x = true -> q x = false) ->
  List.length (filter (fun x => p x || q x) l)
  = (List.length (filter p l) + List.length (filter q l))%nat.
Proof.
  intros H. induction l as [|x l IH]; simpl; [reflexivity|].
  destruct (p x) eqn:Ep; simpl.
  - rewrite (H x Ep). simpl. now rewrite IH.
  - destruct (q x); simpl; rewrite IH; lia.
Qed.

(** X9.  The snapshot of a service lists exactly the service's rows in
    state [waiting] or [recycled], each once, ordered by priority
    descending and then created_at ascending (null first); [waiting] is
    the number of listed entries and [serving] the number of the
    service's [called] rows; an entry is flagged recycled exactly when
    its state is [recycled]. *)
Theorem snapshot_lists_queue_in_order :
  forall (serviceId : Z) (s : store),
    exists snap,
      getQueueSnapshot serviceId s = (s, inr snap)
      /\ snap_serviceId snap = serviceId
      /\ StronglySorted entry_before (snap_tickets snap)
      /\ Permutation (snap_tickets snap)
           (map snapshot_entry (filter (in_queue serviceId) (tickets s)))
      /\ snap_waiting snap = Z.of_nat (List.length (snap_tickets snap))
      /\ snap_serving snap
         = Z.of_nat (List.length
                       (filter (fun t => (service_id t =? serviceId)
                                         && ticket_state_eqb (t_state t) called)
                               (tickets s)))
      /\ forall q, In q (snap_tickets snap) ->
                   q_service_id q = serviceId
                   /\ (q_state q = waiting \/ q_state q = recycled)
                   /\ (q_isRecycled q = true <-> q_state q = recycled).
Proof.
  intros serviceId s. exists (build_snapshot serviceId s).
  split; [reflexivity|]. split; [reflexivity|].
  unfold build_snapshot, waiting_rows. simpl.
  change (fun t => (service_id t =? serviceId)
                   && (ticket_state_eqb (t_state t) waiting
                       || ticket_state_eqb (t_state t) recycled))
    with (in_queue serviceId).
  split.
  { apply (StronglySorted_map
             (fun a b => priority_desc_created_asc a b = true)).
    - intros a b H. unfold priority_desc_created_asc in H.
      unfold entry_before. simpl.
      apply orb_true_iff in H. destruct H as [H | H].
      + left. now apply Z.ltb_lt.
      + right. apply andb_true_iff in H. destruct H as [H1 H2].
        apply Z.eqb_eq in H1. auto.
    - apply order_by_sorted.
      + exact priority_order_total.
      + exact priority_order_trans. }
  split.
  { apply Permutation_map. apply order_by_perm. }
  split.
  { rewrite length_map, order_by_length. unfold count_state, in_queue.
    rewrite <- Nat2Z.inj_add. f_equal.
    rewrite <- (filter_length_disjoint
                  (fun t => (service_id t =? serviceId)
                            && ticket_state_eqb (t_state t) waiting)
                  (fun t => (service_id t =? serviceId)
                            && ticket_state_eqb (t_state t) recycled)).
    - f_equal. apply filter_ext. intros t.
      now destruct (service_id t =? serviceId).
    - intros t H. apply andb_true_iff in H. destruct H as [_ H].
      apply ticket_state_eqb_eq in H. rewrite H. apply andb_false_r. }
  split; [reflexivity|].
  intros q Hq. apply in_map_iff in Hq. destruct Hq as (t & <- & Ht).
  apply order_by_In in Ht. apply filter_In in Ht. destruct Ht as [_ Ht].
  unfold in_queue in Ht. apply andb_true_iff in Ht. destruct Ht as [H1 H2].
  apply Z.eqb_eq in H1. apply orb_true_iff in H2. simpl.
  split; [exact H1|]. split.
  - destruct H2 as [H2 | H2]; apply ticket_state_eqb_eq in H2; auto.
  - apply ticket_state_eqb_eq.
Qed.

(** ** More on transfer *)

Lemma filter_out_unique (l : list ticket) (t : ticket) :
  NoDup (map t_id l) -> In t l ->
  S (List.length (filter (fun x => negb (t_id x =? t_id t)) l))
  = List.length l.
Proof.
  induction l as [|x l IH]; simpl; intros Hnd Hin; [contradiction|].
  inversion Hnd as [|? ? Hnotin Hnd']; subst.
  destruct Hin as [-> | Hin].
  - rewrite Z.eqb_refl. simpl. f_equal.
    rewrite (proj2 (filter_ext_in_iff _ (fun _ => true) l)).
    + clear. induction l; simpl; auto.
    + intros y Hy. apply negb_true_iff, Z.eqb_neq. intros E.
      apply Hnotin. rewrite <- E. now apply in_map.
  - destruct (t_id x =? t_id t) eqn:E.
    + exfalso. apply Z.eqb_eq in E. apply Hnotin. rewrite E.
      now apply in_map.
    + simpl. f_equal. now apply IH.
Qed.

(** X10.  After a successful transfer the number of ticket rows is the
    same as before; the row inserted in the target service is at no
    counter, keeps created_at (or takes the instant of the transfer when
    created_at was null), estimated_wait, recall_count and notes of the
    old row; the counter of the request is [available] with
    current_ticket_id null; the answer's snapshot of the target service
    lists the new ticket and its snapshot of the old service lists
    neither the new nor the old ticket. *)
Theorem transfer_effects :
  forall (c : conn) (t : ticket) (target : service) (cid aid now : Z),
    idle c -> primary_key (data c) -> foreign_key (data c) ->
    In t (tickets (data c)) -> t_state t = called ->
    counter_id t = Some cid -> agent_id t = Some aid ->
    In target (services (data c)) -> is_active target = true ->
    s_id target <> service_id t ->
    0 < t_id t -> 0 < s_id target -> 0 < cid -> 0 < aid ->
    exists (r : transfer_result) (c1 : conn) (n : ticket),
      transfer (mkTerminalBody (Some (t_id t)) (Some cid) (Some aid) None None
                  (Some (s_id target))) now c = (c1, inr r)
      /\ List.length (tickets (data c1)) = List.length (tickets (data c))
      /\ In n (tickets (data c1)) /\ t_id n = tr_id r
      /\ unassigned n
      /\ created_at n = Some (match created_at t with
                              | Some created => created
                              | None => now
                              end)
      /\ estimated_wait n = estimated_wait t
      /\ recall_count n = recall_count t /\ notes n = notes t
      /\ completed_at n = None /\ actual_wait n = None
      /\ service_duration n = None
      /\ (forall k, In k (counters (data c1)) -> c_id k = cid ->
                    c_state k = available /\ current_ticket_id k = None)
      /\ In (tr_id r) (map q_id (snap_tickets (tr_toQueue r)))
      /\ ~ In (tr_id r) (map q_id (snap_tickets (tr_fromQueue r)))
      /\ ~ In (t_id t) (map q_id (snap_tickets (tr_fromQueue r))).
Proof.
  intros c t target cid aid now Hidle Hpk Hfk Hin Hst Hc Ha Htin Hact Hdiff
    Htid Htarget Hcid Haid.
  destruct (called_ticket_found (data c) t cid aid Hpk Hfk Hin Hst Hc Ha)
    as (sv & Hfind & _).
  destruct (active_service_found (data c) target Htin Hact)
    as (tsv & Hlookup & Htsv & _).
  assert (Hdiff' : s_id tsv <> service_id t) by congruence.
  set (n := transferred_row t (s_id target) now (next_ticket_id (data c))).
  set (d1 := delete_ticket (t_id t)
               (update_counter cid release_counter
                  (fst (insert_ticket (transferred_row t (s_id target) now)
                          (data c))))).
  assert (Hrun : transfer_work (t_id t) (s_id target) cid aid now (data c)
                 = (d1, inr (mkTransferResult (next_ticket_id (data c))
                               (ticket_number t) (ticket_number t)
                               (s_id target) (s_name tsv)
                               (originalServiceId_of t) now (t_priority t)
                               (t_id t)
                               (build_snapshot (service_id t) d1)
                               (build_snapshot (s_id target) d1)))).
  { unfold transfer_work, bind, query. rewrite Hfind, Hlookup.
    unfold throw_if. cbn [fst].
    destruct (s_id tsv =? service_id t) eqn:E;
      [apply Z.eqb_eq in E; contradiction|].
    reflexivity. }
  pose proof (next_ticket_id_fresh (data c)) as Hfresh.
  assert (Hnew : negb (t_id n =? t_id t) = true).
  { apply negb_true_iff, Z.eqb_neq. specialize (Hfresh t Hin).
    subst n. simpl. lia. }
  assert (Htable : tickets d1
                   = (filter (fun x => negb (t_id x =? t_id t))
                        (tickets (data c)) ++ [n])%list).
  { unfold d1, delete_ticket, update_counter, insert_ticket.
    cbn [fst data tickets]. rewrite filter_app. cbn [filter].
    fold n. now rewrite Hnew. }
  eexists. exists (mkConn d1 None (log c ++ [BEGIN None; COMMIT])), n.
  split.
  { rewrite transfer_parsed by assumption.
    exact (withTransaction_return _ None c _ _ Hidle Hrun). }
  cbn [data tr_id tr_toQueue tr_fromQueue]. rewrite Htable.
  split.
  { rewrite length_app. simpl.
    rewrite <- (filter_out_unique (tickets (data c)) t Hpk Hin). lia. }
  split; [apply in_or_app; right; now left|].
  split; [reflexivity|]. split; [repeat split|].
  split; [unfold n; simpl; now destruct (created_at t)|].
  split; [reflexivity|]. split; [reflexivity|]. split; [reflexivity|].
  split; [reflexivity|]. split; [reflexivity|]. split; [reflexivity|].
  split.
  { intros k Hk Hkid. unfold d1 in Hk. simpl in Hk.
    apply in_map_iff in Hk. destruct Hk as (k0 & Hk0 & _).
    destruct (c_id k0 =? cid) eqn:E.
    - subst k. simpl. auto.
    - apply Z.eqb_neq in E. subst k. contradiction. }
  assert (Hqueue : forall sid x,
             In x (map q_id (snap_tickets (build_snapshot sid d1))) ->
             exists y, In y (tickets d1) /\ t_id y = x /\ service_id y = sid
                       /\ (t_state y = waiting \/ t_state y = recycled)).
  { intros sid x Hx. unfold build_snapshot, waiting_rows in Hx.
    cbn [snap_tickets] in Hx.
    rewrite map_map in Hx. apply in_map_iff in Hx.
    destruct Hx as (y & Hy & Hyin). apply order_by_In in Hyin.
    apply filter_In in Hyin. destruct Hyin as [Hyin Hkeep].
    apply andb_true_iff in Hkeep. destruct Hkeep as [H1 H2].
    apply Z.eqb_eq in H1. apply orb_true_iff in H2.
    exists y. repeat split; try assumption.
    destruct H2 as [H2 | H2]; apply ticket_state_eqb_eq in H2; auto. }
  split.
  { unfold build_snapshot, waiting_rows. cbn [snap_tickets].
    rewrite map_map.
    apply in_map_iff. exists n. split; [reflexivity|].
    apply order_by_In. apply filter_In. split.
    - rewrite Htable. apply in_or_app. right. now left.
    - unfold n. simpl. now rewrite Z.eqb_refl. }
  split.
  - intros Hx. destruct (Hqueue _ _ Hx) as (y & Hy & Hid & Hsid & _).
    rewrite Htable in Hy. apply in_app_or in Hy.
    destruct Hy as [Hy | [<- | []]].
    + apply filter_In in Hy. destruct Hy as [Hy _].
      specialize (Hfresh y Hy). lia.
    + unfold n in Hsid. simpl in Hsid. congruence.
  - intros Hx. destruct (Hqueue _ _ Hx) as (y & Hy & Hid & _).
    rewrite Htable in Hy. apply in_app_or in Hy.
    destruct Hy as [Hy | [<- | []]].
    + apply filter_In in Hy. destruct Hy as [_ Hy].
      apply negb_true_iff, Z.eqb_neq in Hy. contradiction.
    + apply negb_true_iff, Z.eqb_neq in Hnew. contradiction.
Qed.

Lemma transfer_effects_witness :
  exists r c1 n,
    transfer (mkTerminalBody (Some 1) (Some 3) (Some 7) None None (Some 2))
      9000 Demo.conn3 = (c1, inr r)
    /\ List.length (tickets (data c1)) = 2%nat
    /\ In n (tickets (data c1)) /\ t_id n = tr_id r
    /\ created_at n = Some 1000.
Proof.
  destruct (transfer_effects Demo.conn3 Demo.ticket1_called Demo.payments
              3 7 9000 eq_refl ltac:(concrete_key) ltac:(concrete_reference)
              ltac:(concrete_row) eq_refl eq_refl eq_refl
              ltac:(concrete_row) eq_refl ltac:(discriminate)
              eq_refl eq_refl eq_refl eq_refl)
    as (r & c1 & n & Hrun & Hlen & Hin & Hid & _ & Hcreated & _).
  exists r, c1, n. repeat split; assumption.
Defined.

(** ** A reset that runs *)

Lemma reset_work_run (s : store) :
  reset_work s
  = (mkStore [] 0 (map zero_current_number (services s))
       (map reset_counter (counters s)) (agent_services s),
     inr (mkResetSummary (Z.of_nat (List.length (tickets s)))
            (filter is_active (map zero_current_number (services s))))).
Proof. reflexivity. Qed.

(** X11.  A reset entered with the guard clear on an idle connection
    commits one transaction after which the ticket table is empty, the
    ticket sequence is cleared, every service has current_number 0,
    every counter has current_ticket_id null, a [serving] counter is
    [available] and every other counter keeps its state, and agent
    assignments are untouched; it reports the number of tickets deleted,
    leaves the guard clear and records the reset instant and reason.
    Whenever the guard is clear on entry it is clear on return, also
    when the transaction fails. *)
Theorem reset_effects :
  forall (reason : string) (silent : bool) (now : Z) (p : process),
    resetInProgress (reset_state p) = false ->
    resetInProgress
      (reset_state (fst (performSystemReset reason silent now p))) = false
    /\ (idle (db p) ->
        exists (p' : process) (summary : reset_summary),
          performSystemReset reason silent now p
          = (p', inr (ResetDone summary now reason))
          /\ deletedTickets summary
             = Z.of_nat (List.length (tickets (data (db p))))
          /\ tickets (data (db p')) = []
          /\ ticket_seq (data (db p')) = 0
          /\ map s_id (services (data (db p')))
             = map s_id (services (data (db p)))
          /\ (forall sv, In sv (services (data (db p'))) ->
                         current_number sv = Some 0)
          /\ map c_id (counters (data (db p')))
             = map c_id (counters (data (db p)))
          /\ (forall k, In k (counters (data (db p'))) ->
                        current_ticket_id k = None /\ c_state k <> serving)
          /\ map (fun k => if counter_state_eqb (c_state k) serving
                           then available else c_state k)
                 (counters (data (db p)))
             = map c_state (counters (data (db p')))
          /\ agent_services (data (db p')) = agent_services (data (db p))
          /\ log (db p') = (log (db p) ++ [BEGIN None; COMMIT])%list
          /\ lastResetAt (reset_state p') = Some now
          /\ lastResetReason (reset_state p') = Some reason).
Proof.
  intros reason silent now p Hguard. split.
  - unfold performSystemReset. rewrite Hguard.
    destruct (withTransaction reset_work None (db p)) as [c' [e|res]];
      reflexivity.
  - intros Hidle. unfold performSystemReset. rewrite Hguard.
    rewrite (withTransaction_return reset_work None (db p) _ _ Hidle
               (reset_work_run (data (db p)))).
    eexists. eexists. split; [reflexivity|]. simpl.
    split; [reflexivity|]. split; [reflexivity|]. split; [reflexivity|].
    split.
    { rewrite map_map. apply map_ext. reflexivity. }
    split.
    { intros sv Hsv. apply in_map_iff in Hsv. now destruct Hsv as (x & <- & _). }
    split.
    { rewrite map_map. apply map_ext. reflexivity. }
    split.
    { intros k Hk. apply in_map_iff in Hk. destruct Hk as (x & <- & _).
      split; [reflexivity|]. unfold reset_counter. simpl.
      destruct (c_state x); simpl; discriminate. }
    split.
    { rewrite map_map. apply map_ext. reflexivity. }
    repeat split.
Qed.

Lemma reset_effects_witness :
  exists p' summary,
    performSystemReset "manual" false 9000 (mkProcess Demo.idle_module
                                              Demo.conn3 [])
    = (p', inr (ResetDone summary 9000 "manual"))
    /\ deletedTickets summary = 2
    /\ tickets (data (db p')) = []
    /\ map c_state (counters (data (db p'))) = [available].
Proof.
  destruct (proj2 (reset_effects "manual" false 9000
                     (mkProcess Demo.idle_module Demo.conn3 []) eq_refl)
              eq_refl)
    as (p' & summary & Hrun & Hdel & Htickets & _ & _ & _ & _ & _ & Hstates
        & _).
  exists p', summary. split; [exact Hrun|]. split; [exact Hdel|].
  split; [exact Htickets|]. now rewrite <- Hstates.
Defined.

(** ** Ticket numbers *)



















(** ** presetServiceQueue: the loop *)

Lemma ticket_number_taken_app (sid : Z) (n : string) (s s' : store)
    (new : list ticket) :
  tickets s' = (tickets s ++ new)%list ->
  ticket_number_taken sid n s = true ->
  ticket_number_taken sid n s' = true.
Proof.
  unfold ticket_number_taken. intros -> H.
  rewrite existsb_app, H. reflexivity.
Qed.



(** The loop never throws; it appends rows and touches nothing else. *)
Lemma preset_loop_run (args : preset_args) (sv : service)
    (ew now : Z) (indices : list Z) :
  forall (acc : list inserted_ticket * list string) (s : store),
  exists (s' : store) (ins : list inserted_ticket) (sk : list string)
         (new : list ticket),
    preset_loop args sv ew now indices acc s
    = (s', inr ((fst acc ++ ins)%list, (snd acc ++ sk)%list))
    /\ tickets s' = (tickets s ++ new)%list
    /\ services s' = services s /\ counters s' = counters s
    /\ agent_services s' = agent_services s
    /\ (List.length ins + List.length sk = List.length indices)%nat
    /\ map it_ticket_number ins = map ticket_number new
    /\ map it_id ins = map t_id new
    /\ Forall (preset_made args) new
    /\ NoDup (map ticket_number new)
    /\ (forall t, In t new ->
          ticket_number_taken (pa_serviceId args) (ticket_number t) s = false)
    /\ incl (map ticket_number new ++ sk)
            (map (preset_number args sv) indices)
    /\ (forall i, In i indices ->
          ticket_number_taken (pa_serviceId args) (preset_number args sv i) s'
          = true)
    /\ (NoDup (map (preset_number args sv) indices) ->
        forall n, In n sk ->
          ticket_number_taken (pa_serviceId args) n s = true).
Proof.
  induction indices as [|i rest IH]; intros acc s.
  - exists s, [], [], []. simpl. unfold ret. rewrite !app_nil_r.
    destruct acc. repeat split; try constructor; try easy.
  - cbn [preset_loop]. unfold bind at 1. unfold preset_step.
    unfold bind at 1. unfold query at 1.
    fold (preset_number args sv i).
    destruct (ticket_number_taken (pa_serviceId args)
                (preset_number args sv i) s) eqn:Htaken.
    + unfold ret at 1.
      destruct (IH (fst acc, (snd acc ++ [preset_number args sv i])%list) s)
        as (s' & ins & sk & new & Hrun & Ht & Hs & Hc & Ha & Hlen & Hnum
            & Hid & Hmade & Hnd & Hfree & Hincl & Hall & Hskip).
      exists s', ins, (preset_number args sv i :: sk), new.
      cbn [fst snd] in Hrun. rewrite Hrun, <- app_assoc.
      repeat split; try assumption.
      * simpl. lia.
      * intros n Hn. apply in_app_or in Hn. simpl.
        destruct Hn as [Hn|[Hn|Hn]]; [right|now left|right];
          apply Hincl, in_or_app; auto.
      * intros j [<-|Hj]; [|now apply Hall].
        now apply (ticket_number_taken_app _ _ s s' new).
      * intros Hdistinct n [<-|Hn]; [exact Htaken|].
        apply Hskip; [|exact Hn]. simpl in Hdistinct.
        now inversion Hdistinct.
    + unfold bind at 1. unfold run_insert at 1.
      unfold insert_ticket at 1. unfold ret at 1.
      set (inserted := Z.of_nat (List.length (fst acc))).
      set (row := preset_row (pa_serviceId args) (preset_number args sv i)
                    (pa_priority args) (now + inserted)
                    (or_else (estimated_service_time sv) 300
                     * (ew + inserted)) (next_ticket_id s)).
      set (s1 := mkStore (tickets s ++ [row]) (next_ticket_id s) (services s)
                   (counters s) (agent_services s)).
      set (item := mkInserted (next_ticket_id s) (preset_number args sv i)
                     (now + inserted) (pa_priority args)).
      destruct (IH ((fst acc ++ [item])%list, snd acc) s1)
        as (s' & ins & sk & new & Hrun & Ht & Hs & Hc & Ha & Hlen & Hnum
            & Hid & Hmade & Hnd & Hfree & Hincl & Hall & Hskip).
      exists s', (item :: ins), sk, (row :: new).
      cbn [fst snd] in Hrun.
      change (preset_loop args sv ew now rest
                ((fst acc ++ [item])%list, snd acc) s1
              = (s', inr (((fst acc ++ [item]) ++ ins)%list,
                          (snd acc ++ sk)%list))) in Hrun.
      rewrite <- app_assoc in Hrun.
      assert (Hrow : ticket_number_taken (pa_serviceId args)
                       (preset_number args sv i) s1 = true).
      { unfold ticket_number_taken, s1. cbn [tickets].
        rewrite existsb_app. simpl.
        now rewrite Z.eqb_refl, String.eqb_refl, orb_true_r. }
      split; [exact Hrun|].
      split; [rewrite Ht; unfold s1; cbn [tickets];
              now rewrite <- app_assoc|].
      split; [exact Hs|]. split; [exact Hc|]. split; [exact Ha|].
      split; [simpl; lia|].
      split; [simpl; now rewrite Hnum|].
      split; [simpl; now rewrite Hid|].
      split.
      { constructor; [|exact Hmade]. unfold preset_made, unassigned, row.
        simpl. auto 10. }
      split.
      { simpl. constructor; [|exact Hnd]. intros Hin.
        apply in_map_iff in Hin. destruct Hin as (t & Hn & Hin).
        specialize (Hfree t Hin). rewrite Hn in Hfree.
        change (ticket_number row) with (preset_number args sv i) in Hfree.
        congruence. }
      split.
      { intros t [<-|Hin]; [exact Htaken|].
        specialize (Hfree t Hin).
        destruct (ticket_number_taken (pa_serviceId args) (ticket_number t) s)
          eqn:E; [|reflexivity].
        rewrite (ticket_number_taken_app _ _ s s1 [row] eq_refl E) in Hfree.
        discriminate. }
      split.
      { intros n Hn. simpl in Hn. simpl.
        destruct Hn as [Hn|Hn]; [now left | right; now apply Hincl]. }
      split.
      { intros j [<-|Hj]; [|now apply Hall].
        now apply (ticket_number_taken_app _ _ s1 s' new). }
      intros Hdistinct n Hn. simpl in Hdistinct.
      inversion Hdistinct as [|x l Hfresh Hrest]; subst x l.
      assert (Hn1 : ticket_number_taken (pa_serviceId args) n s1 = true)
        by now apply Hskip.
      assert (Hne : preset_number args sv i <> n).
      { intros Heq. subst n. apply Hfresh, Hincl, in_or_app. now right. }
      unfold ticket_number_taken, s1 in Hn1. cbn [tickets] in Hn1.
      rewrite existsb_app in Hn1. simpl in Hn1.
      apply String.eqb_neq in Hne. rewrite Hne in Hn1.
      rewrite andb_false_r, orb_false_r in Hn1. exact Hn1.
Qed.




Lemma preset_check_none (args : preset_args) :
  preset_check args = None ->
  0 < pa_serviceId args /\ 0 <= pa_startNumber args
  /\ 1 <= pa_count args <= 500.
Proof.
  unfold preset_check.
  destruct (pa_serviceId args <=? 0) eqn:E1; [discriminate|].
  destruct (pa_startNumber args <? 0) eqn:E2; [discriminate|].
  destruct (pa_count args <=? 0) eqn:E3; [discriminate|].
  destruct (500 <? pa_count args) eqn:E4; [discriminate|].
  intros _. lia.
Qed.

Lemma preset_check_ok (args : preset_args) :
  0 < pa_serviceId args -> 0 <= pa_startNumber args ->
  1 <= pa_count args <= 500 ->
  preset_check args = None.
Proof.
  intros H1 H2 H3. unfold preset_check.
  destruct (pa_serviceId args <=? 0) eqn:E1; [lia|].
  destruct (pa_startNumber args <? 0) eqn:E2; [lia|].
  destruct (pa_count args <=? 0) eqn:E3; [lia|].
  destruct (500 <? pa_count args) eqn:E4; [lia|]. reflexivity.
Qed.


(** The transaction of a preset, given the run of its loop. *)
Lemma preset_work_run (args : preset_args) (now : Z) (s s1 : store)
    (sv : service) (acc : list inserted_ticket * list string) :
  active_service (pa_serviceId args) s = Some sv ->
  preset_loop args sv
    (count_state (pa_serviceId args) waiting s
     + count_state (pa_serviceId args) recycled s
     + count_state (pa_serviceId args) called s)
    now (loop_indices (pa_count args)) ([], []) s = (s1, inr acc) ->
  let final := Z.max (or_else (current_number sv) 0)
                     (pa_startNumber args + pa_count args) in
  preset_work args now s
  = (set_current_number (pa_serviceId args) final s1,
     inr (mkPresetResult (fst acc) (snd acc) final
            (preset_snapshot (pa_serviceId args)
               (set_current_number (pa_serviceId args) final s1)))).
Proof.
  intros Hfind Hloop final. unfold preset_work.
  unfold bind at 1. unfold query at 1. rewrite Hfind.
  unfold bind at 1. unfold query at 1.
  unfold bind at 1. rewrite Hloop. reflexivity.
Qed.



Lemma active_service_same_services (sid : Z) (s s' : store) :
  services s' = services s -> active_service sid s' = active_service sid s.
Proof. unfold active_service. now intros ->. Qed.








(** ** Regular expressions: the test decides the denotation *)

Lemma append_empty_r (s : string) : (s ++ "")%string = s.
Proof. induction s as [|c s IH]; simpl; [reflexivity | now rewrite IH]. Qed.

Lemma append_assoc (a b c : string) :
  ((a ++ b) ++ c)%string = (a ++ (b ++ c))%string.
Proof. induction a as [|x a IH]; simpl; [reflexivity | now rewrite IH]. Qed.

Lemma denotes_seq_inv (a b : regex) (u : string) :
  denotes (Seq a b) u ->
  exists s t, u = (s ++ t)%string /\ denotes a s /\ denotes b t.
Proof. intros H. inversion H; subst. eauto. Qed.

Lemma denotes_star_inv (a : regex) (c : ascii) (u : string) :
  denotes (Star a) (String c u) ->
  exists s t, u = (s ++ t)%string /\ denotes a (String c s)
              /\ denotes (Star a) t.
Proof.
  intros H. inversion H; subst. eauto.
Qed.

Lemma nullable_denotes (r : regex) :
  nullable r = true <-> denotes r "".
Proof.
  induction r as [| |p|a IHa b IHb|a IHa b IHb|a IHa]; simpl.
  - split; [discriminate | intros H; inversion H].
  - split; [constructor | reflexivity].
  - split; [discriminate | intros H; inversion H].
  - rewrite andb_true_iff, IHa, IHb. split.
    + intros [Ha Hb]. exact (denotes_seq a b "" "" Ha Hb).
    + intros H. apply denotes_seq_inv in H.
      destruct H as (s & t & Heq & Ha & Hb).
      destruct s; [|discriminate]. destruct t; [|discriminate]. auto.
  - rewrite orb_true_iff, IHa, IHb. split.
    + intros [H|H]; [now apply denotes_alt_l | now apply denotes_alt_r].
    + intros H. inversion H; subst; auto.
  - split; [constructor | reflexivity].
Qed.

Lemma deriv_denotes (r : regex) :
  forall (c : ascii) (s : string),
    denotes (deriv c r) s <-> denotes r (String c s).
Proof.
  induction r as [| |p|a IHa b IHb|a IHa b IHb|a IHa]; intros c s; simpl.
  - split; intros H; inversion H.
  - split; intros H; inversion H.
  - destruct (p c) eqn:E; split; intros H; inversion H; subst.
    + now constructor.
    + constructor.
    + congruence.
  - assert (Hl : forall s1 t, denotes (deriv c a) s1 -> denotes b t ->
                              denotes (Seq a b) (String c (s1 ++ t))).
    { intros s1 t H1 H2. apply IHa in H1.
      exact (denotes_seq a b (String c s1) t H1 H2). }
    assert (Hinv : denotes (Seq a b) (String c s) ->
                   (exists s1 t, s = (s1 ++ t)%string
                                 /\ denotes (deriv c a) s1 /\ denotes b t)
                   \/ (denotes a "" /\ denotes (deriv c b) s)).
    { intros H. apply denotes_seq_inv in H.
      destruct H as (s1 & t & Heq & Ha & Hb).
      destruct s1 as [|c1 s1]; simpl in Heq.
      - right. subst t. split; [exact Ha | now apply IHb].
      - injection Heq as <- ->. left. exists s1, t.
        split; [reflexivity|]. split; [now apply IHa | exact Hb]. }
    destruct (nullable a) eqn:En; split; intros H.
    + inversion H as [| | |? ? ? H1|? ? ? H1| |]; subst.
      * apply denotes_seq_inv in H1.
        destruct H1 as (s1 & t & -> & H1 & H2). now apply Hl.
      * apply IHb in H1. apply nullable_denotes in En.
        exact (denotes_seq a b "" (String c s) En H1).
    + destruct (Hinv H) as [(s1 & t & -> & H1 & H2) | [_ H2]].
      * apply denotes_alt_l. now constructor.
      * now apply denotes_alt_r.
    + apply denotes_seq_inv in H.
      destruct H as (s1 & t & -> & H1 & H2). now apply Hl.
    + destruct (Hinv H) as [(s1 & t & -> & H1 & H2) | [Ha _]].
      * now constructor.
      * apply nullable_denotes in Ha. congruence.
  - split; intros H.
    + inversion H; subst; [apply denotes_alt_l | apply denotes_alt_r];
        [now apply IHa | now apply IHb].
    + inversion H; subst; [apply denotes_alt_l | apply denotes_alt_r];
        [now apply IHa | now apply IHb].
  - split; intros H.
    + apply denotes_seq_inv in H. destruct H as (s1 & t & -> & H1 & H2).
      apply IHa in H1. exact (denotes_star_cons a c s1 t H1 H2).
    + apply denotes_star_inv in H. destruct H as (s1 & t & -> & H1 & H2).
      constructor; [now apply IHa | exact H2].
Qed.

Lemma regex_test_denotes (r : regex) (s : string) :
  regex_test r s = true <-> denotes r s.
Proof.
  revert r. induction s as [|c s IH]; intros r; simpl.
  - apply nullable_denotes.
  - rewrite IH. apply deriv_denotes.
Qed.

(** [p+] denotes the non-empty strings of characters in [p]. *)
Lemma denotes_star_class (p : ascii -> bool) (s : string) :
  denotes (Star (Class p)) s <-> all_chars p s = true.
Proof.
  induction s as [|c s IH].
  - split; [reflexivity | constructor].
  - simpl. rewrite andb_true_iff, <- IH. split.
    + intros H. apply denotes_star_inv in H.
      destruct H as (s1 & t & -> & H1 & H2).
      inversion H1; subst. simpl. auto.
    + intros [Hc Hs].
      exact (denotes_star_cons (Class p) c "" s (denotes_class p c Hc) Hs).
Qed.

Lemma denotes_plus_class (p : ascii -> bool) (s : string) :
  denotes (Plus (Class p)) s <-> s <> "" /\ all_chars p s = true.
Proof.
  unfold Plus. split.
  - intros H. apply denotes_seq_inv in H.
    destruct H as (s1 & t & -> & H1 & H2).
    inversion H1 as [|p0 c Hc| | | | |]; subst.
    apply denotes_star_class in H2. simpl. split; [discriminate|].
    now rewrite Hc, H2.
  - intros [Hne Hall]. destruct s as [|c s]; [congruence|].
    simpl in Hall. apply andb_true_iff in Hall. destruct Hall as [Hc Hs].
    apply denotes_star_class in Hs.
    exact (denotes_seq (Class p) (Star (Class p)) (String c "") s
             (denotes_class p c Hc) Hs).
Qed.

Lemma denotes_lit (c : ascii) (s : string) :
  denotes (Lit c) s <-> s = String c "".
Proof.
  unfold Lit. split.
  - intros H. inversion H as [|p c0 Hc| | | | |]; subst.
    apply Ascii.eqb_eq in Hc. now subst.
  - intros ->. constructor. apply Ascii.eqb_refl.
Qed.

(** The addresses [EMAIL_REGEX] accepts. *)
Lemma email_accepted (e : string) :
  regex_test EMAIL_REGEX e = true
  <-> exists a b c,
        e = (a ++ "@" ++ b ++ "." ++ c)%string
        /\ address_part a /\ address_part b /\ address_part c.
Proof.
  rewrite regex_test_denotes. unfold EMAIL_REGEX, address_part. split.
  - intros H.
    apply denotes_seq_inv in H. destruct H as (a & r1 & -> & Ha & H).
    apply denotes_seq_inv in H. destruct H as (at_ & r2 & -> & Hat & H).
    apply denotes_seq_inv in H. destruct H as (b & r3 & -> & Hb & H).
    apply denotes_seq_inv in H. destruct H as (dot & c & -> & Hdot & Hc).
    apply denotes_lit in Hat, Hdot. subst at_ dot.
    apply denotes_plus_class in Ha, Hb, Hc.
    exists a, b, c. auto.
  - intros (a & b & c & -> & Ha & Hb & Hc).
    apply denotes_plus_class in Ha, Hb, Hc.
    apply denotes_seq; [exact Ha|].
    apply (denotes_seq (Lit "@") _ "@"); [now apply denotes_lit|].
    apply denotes_seq; [exact Hb|].
    apply (denotes_seq (Lit ".") _ "."); [now apply denotes_lit | exact Hc].
Qed.

(** ** sanitizeString and validateTicketPayload *)

Lemma trimStart_head (s : string) (c : ascii) (r : string) :
  trimStart s = String c r -> is_space c = false.
Proof.
  induction s as [|x s IH]; simpl; [discriminate|].
  destruct (is_space x) eqn:E; [exact IH|].
  intros H. injection H as <- _. exact E.
Qed.

Lemma trimEnd_head (c : ascii) (r : string) :
  is_space c = false -> exists r', trimEnd (String c r) = String c r'.
Proof.
  intros H. simpl. destruct (trimEnd r); [rewrite H|]; eauto.
Qed.

Lemma trim_head (s : string) (c : ascii) (r : string) :
  trim s = String c r -> is_space c = false.
Proof.
  unfold trim. destruct (trimStart s) as [|c0 r0] eqn:E; [discriminate|].
  pose proof (trimStart_head s c0 r0 E) as Hc.
  destruct (trimEnd_head c0 r0 Hc) as (r' & ->).
  intros H. injection H as <- _. exact Hc.
Qed.

Lemma length_substring_le (n : nat) (s : string) :
  (String.length (substring 0 n s) <= n)%nat.
Proof.
  revert s. induction n as [|n IH]; intros s.
  - destruct s; simpl; lia.
  - destruct s as [|c s]; simpl; [lia|]. specialize (IH s). lia.
Qed.

Lemma sanitizeString_sanitized (v : option string) (n : nat) :
  (0 < n)%nat -> sanitized n (sanitizeString v n).
Proof.
  intros Hn. unfold sanitizeString. destruct v as [v|]; [|now left].
  destruct (trim v) as [|c r] eqn:E; [now left|]. right.
  destruct n as [|n]; [lia|]. unfold slice0. simpl.
  exists c, (substring 0 n r). split; [reflexivity|].
  split; [exact (trim_head v c r E)|].
  simpl. pose proof (length_substring_le n r). lia.
Qed.

Lemma sanitized_not_empty (n : nat) (v : option string) :
  sanitized n v -> v <> Some "".
Proof. intros [->|(c & r & -> & _)]; discriminate. Qed.

Lemma validateTicketPayload_inr (body : kiosk_body) (p : ticket_payload) :
  validateTicketPayload body = inr p ->
  exists serviceId priority,
    kb_serviceId body = Some serviceId /\ kb_priority body = Some priority
    /\ not_positive_integer (Some serviceId) = false
    /\ not_a_priority (Some priority) = false
    /\ email_rejected (sanitizeString (kb_customerEmail body)
                         MAX_EMAIL_LENGTH) = false
    /\ p = mkTicketPayload serviceId priority
             (sanitizeString (kb_customerName body) MAX_NAME_LENGTH)
             (sanitizeString (kb_customerPhone body) MAX_PHONE_LENGTH)
             (sanitizeString (kb_customerEmail body) MAX_EMAIL_LENGTH).
Proof.
  unfold validateTicketPayload. cbv zeta.
  destruct (kb_serviceId body) as [serviceId|];
    [|simpl; discriminate].
  destruct (not_positive_integer (Some serviceId)) eqn:E1;
    [simpl; discriminate|].
  destruct (kb_priority body) as [priority|];
    [|simpl; discriminate].
  destruct (not_a_priority (Some priority)) eqn:E2; [simpl; discriminate|].
  destruct (email_rejected _) eqn:E3; [simpl; discriminate|].
  simpl. intros H. injection H as <-. exists serviceId, priority. auto 10.
Qed.

(** X18.  A payload that [validateTicketPayload] returns carries the
    serviceId and priority of the body, a serviceId above 0 and a
    priority of 0, 1 or 2; each customer field is null or a text that is
    not empty, does not start with white space and is no longer than
    its limit (120, 30 and 180 characters); and an email that is present
    has the shape a@b.c where a, b and c are not empty and hold neither
    white space nor @.  When it returns errors instead, there is at
    least one, and one of the three checks failed. *)
Theorem validateTicketPayload_sound :
  forall (body : kiosk_body),
    (forall p, validateTicketPayload body = inr p ->
       kb_serviceId body = Some (p_serviceId p) /\ 0 < p_serviceId p
       /\ kb_priority body = Some (p_priority p) /\ 0 <= p_priority p <= 2
       /\ sanitized MAX_NAME_LENGTH (p_customerName p)
       /\ sanitized MAX_PHONE_LENGTH (p_customerPhone p)
       /\ sanitized MAX_EMAIL_LENGTH (p_customerEmail p)
       /\ forall e, p_customerEmail p = Some e ->
            exists a b c,
              e = (a ++ "@" ++ b ++ "." ++ c)%string
              /\ address_part a /\ address_part b /\ address_part c)
    /\ (forall errors, validateTicketPayload body = inl errors ->
          errors <> []
          /\ (not_positive_integer (kb_serviceId body) = true
              \/ not_a_priority (kb_priority body) = true
              \/ email_rejected (sanitizeString (kb_customerEmail body)
                                   MAX_EMAIL_LENGTH) = true)).
Proof.
  intros body. split.
  - intros p Hp. apply validateTicketPayload_inr in Hp.
    destruct Hp as (serviceId & priority & Hs & Hp & E1 & E2 & E3 & ->).
    cbn [p_serviceId p_priority p_customerName p_customerPhone
         p_customerEmail].
    simpl in E1, E2. apply orb_false_iff in E2. destruct E2 as [E2 E2'].
    split; [exact Hs|]. split; [lia|]. split; [exact Hp|]. split; [lia|].
    split; [apply sanitizeString_sanitized; unfold MAX_NAME_LENGTH; lia|].
    split; [apply sanitizeString_sanitized; unfold MAX_PHONE_LENGTH; lia|].
    split; [apply sanitizeString_sanitized; unfold MAX_EMAIL_LENGTH; lia|].
    intros e He. rewrite He in E3.
    assert (Hne : e <> "").
    { assert (Hsan : sanitized MAX_EMAIL_LENGTH (Some e)).
      { rewrite <- He. apply sanitizeString_sanitized.
        unfold MAX_EMAIL_LENGTH. lia. }
      now apply sanitized_not_empty in Hsan; congruence. }
    apply email_accepted. destruct e as [|c r]; [congruence|].
    simpl in E3. now apply negb_false_iff in E3.
  - intros errors. unfold validateTicketPayload. cbv zeta.
    destruct (not_positive_integer (kb_serviceId body)) eqn:E1.
    { simpl. destruct (kb_serviceId body), (kb_priority body);
        intros H; injection H as <-; split; auto; discriminate. }
    destruct (not_a_priority (kb_priority body)) eqn:E2.
    { simpl. destruct (kb_serviceId body), (kb_priority body);
        intros H; injection H as <-; split; auto; discriminate. }
    destruct (email_rejected _) eqn:E3.
    { simpl. destruct (kb_serviceId body), (kb_priority body);
        intros H; injection H as <-; split; auto; discriminate. }
    simpl. destruct (kb_serviceId body); [|discriminate].
    destruct (kb_priority body); discriminate.
Qed.

Lemma validateTicketPayload_sound_witness :
  validateTicketPayload
    (mkKioskBody (Some 1) (Some 2) (Some "  Ann ") None
       (Some "ann@example.org"))
  = inr (mkTicketPayload 1 2 (Some "Ann") None (Some "ann@example.org"))
  /\ exists a b c,
       "ann@example.org" = (a ++ "@" ++ b ++ "." ++ c)%string
       /\ address_part a /\ address_part b /\ address_part c.
Proof.
  split; [reflexivity|].
  destruct (validateTicketPayload_sound
              (mkKioskBody (Some 1) (Some 2) (Some "  Ann ") None
                 (Some "ann@example.org"))) as [Hok _].
  destruct (Hok _ eq_refl) as (_ & _ & _ & _ & _ & _ & _ & Hmail).
  exact (Hmail _ eq_refl).
Defined.
(** ** Every request keeps the store sound *)

Lemma well_formed_update_ticket (f : ticket -> ticket) (tid : Z) (s : store) :
  (forall t, intake_row t -> intake_row (f t)) ->
  (forall t, service_id (f t) = service_id t) ->
  well_formed_rows s -> well_formed_rows (update_ticket tid f s).
Proof.
  intros Hrow Hsid H. unfold well_formed_rows, update_ticket in *.
  cbn [tickets]. apply Forall_map. eapply Forall_impl; [|exact H].
  intros t [Hi Hs]. cbv beta.
  destruct (t_id t =? tid); [|now split].
  split; [now apply Hrow | now rewrite Hsid].
Qed.

Lemma well_formed_insert (row : Z -> ticket) (s : store) :
  (forall i, intake_row (row i) /\ 0 < service_id (row i)) ->
  well_formed_rows s -> well_formed_rows (fst (insert_ticket row s)).
Proof.
  intros Hrow H. unfold well_formed_rows, insert_ticket in *.
  cbn [fst tickets]. apply Forall_app. split; [exact H|].
  constructor; [apply Hrow | constructor].
Qed.

Lemma well_formed_delete (tid : Z) (s : store) :
  well_formed_rows s -> well_formed_rows (delete_ticket tid s).
Proof.
  intros H. unfold well_formed_rows, delete_ticket in *. cbn [tickets].
  apply Forall_forall. intros t Hin. apply filter_In in Hin.
  rewrite Forall_forall in H. now apply H.
Qed.

Lemma sound_update_ticket (f : ticket -> ticket) (tid : Z) (s : store) :
  (forall t, t_id (f t) = t_id t) ->
  (forall t, service_id (f t) = service_id t) ->
  (forall t, intake_row t -> intake_row (f t)) ->
  sound_store s -> sound_store (update_ticket tid f s).
Proof.
  intros Hid Hsid Hrow [Hc Hw]. split.
  - now apply consistent_update_ticket.
  - now apply well_formed_update_ticket.
Qed.

Lemma sound_update_counter (f : counter -> counter) (cid : Z) (s : store) :
  sound_store s -> sound_store (update_counter cid f s).
Proof. intros H. exact H. Qed.

Lemma sound_set_current_number (sid n : Z) (s : store) :
  sound_store s -> sound_store (set_current_number sid n s).
Proof.
  intros [Hc Hw]. split; [now apply consistent_set_current_number|].
  exact Hw.
Qed.

Lemma sound_delete (tid : Z) (s : store) :
  sound_store s -> sound_store (delete_ticket tid s).
Proof.
  intros [Hc Hw]. split;
    [now apply consistent_delete | now apply well_formed_delete].
Qed.

Lemma sound_insert (row : Z -> ticket) (s : store) :
  (forall i, t_id (row i) = i) ->
  (forall i, exists sv, In sv (services s) /\ s_id sv = service_id (row i)) ->
  (forall i, intake_row (row i) /\ 0 < service_id (row i)) ->
  sound_store s -> sound_store (fst (insert_ticket row s)).
Proof.
  intros Hid Hsv Hrow [Hc Hw]. split;
    [now apply consistent_insert | now apply well_formed_insert].
Qed.

Lemma active_service_In (sid : Z) (s : store) (sv : service) :
  active_service sid s = Some sv ->
  In sv (services s) /\ s_id sv = sid /\ is_active sv = true.
Proof.
  unfold active_service. intros H. apply find_some in H.
  destruct H as [Hin Hok]. apply andb_true_iff in Hok.
  destruct Hok as [Hid Hact]. apply Z.eqb_eq in Hid. auto.
Qed.

Ltac stable_columns :=
  first [ reflexivity
        | let t := fresh "t" in
          let H := fresh "H" in
          intros t H; exact H ].

Lemma call_next_sound body now c :
  sound_store (data c) -> sound_store (data (fst (call_next body now c))).
Proof.
  intros H. unfold call_next.
  destruct (parsePositiveInt (cn_counterId body) "counterId")
    as [|counterId]; [exact H|].
  destruct (parsePositiveInt (cn_agentId body) "agentId")
    as [|agentId]; [exact H|].
  destruct (parseOptionalPositiveInt (cn_serviceId body) "serviceId" None)
    as [|requested]; [exact H|].
  destruct (parseOptionalPositiveInt (cn_ticketId body) "ticketId" None)
    as [|ticketId]; [exact H|].
  apply withTransaction_keeps; [|exact H].
  intros s Hs. unfold call_next_work. unfold bind at 1.
  pose proof (select_ticket_reads counterId agentId requested ticketId s)
    as Hr.
  destruct (select_ticket counterId agentId requested ticketId s)
    as [s0 [e|row]]; simpl in Hr; subst s0; [exact Hs|].
  unfold bind, run, getQueueSnapshot, query, ret. simpl.
  apply (sound_update_counter (mark_serving (t_id (fst row)) agentId)).
  apply sound_update_ticket; try stable_columns; exact Hs.
Qed.

Lemma complete_sound body now c :
  sound_store (data c) -> sound_store (data (fst (complete body now c))).
Proof.
  intros H. unfold complete.
  destruct (parsePositiveInt (b_ticketId body) "ticketId"); [exact H|].
  destruct (parsePositiveInt (b_counterId body) "counterId"); [exact H|].
  destruct (parsePositiveInt (b_agentId body) "agentId"); [exact H|].
  apply withTransaction_keeps; [|exact H].
  intros s Hs. unfold complete_work, bind, query.
  destruct (assigned_ticket _ _ _ s) as [row|]; [|exact Hs].
  unfold throw_if.
  destruct (ticket_state_eqb (t_state (fst row)) completed); [exact Hs|].
  simpl. apply sound_update_counter.
  apply sound_update_ticket; try stable_columns; exact Hs.
Qed.

Lemma recall_sound body now c :
  sound_store (data c) -> sound_store (data (fst (recall body now c))).
Proof.
  intros H. unfold recall.
  destruct (parsePositiveInt (b_ticketId body) "ticketId"); [exact H|].
  destruct (parsePositiveInt (b_counterId body) "counterId"); [exact H|].
  destruct (parsePositiveInt (b_agentId body) "agentId"); [exact H|].
  apply withTransaction_keeps; [|exact H].
  intros s Hs. unfold recall_work, bind, query.
  destruct (called_ticket _ _ _ s) as [row|]; [|exact Hs].
  simpl. apply sound_update_ticket; try stable_columns; exact Hs.
Qed.

Lemma post_no_show_sound body now c :
  sound_store (data c) ->
  sound_store (data (fst (post_no_show body now c))).
Proof.
  intros H. unfold post_no_show.
  destruct (parsePositiveInt (b_ticketId body) "ticketId"); [exact H|].
  destruct (parsePositiveInt (b_counterId body) "counterId"); [exact H|].
  destruct (parsePositiveInt (b_agentId body) "agentId"); [exact H|].
  apply withTransaction_keeps; [|exact H].
  intros s Hs. unfold no_show_work, bind, query.
  destruct (called_ticket _ _ _ s) as [row|]; [|exact Hs].
  simpl. apply sound_update_counter.
  apply sound_update_ticket; try stable_columns; exact Hs.
Qed.

Lemma recycle_sound body now c :
  sound_store (data c) -> sound_store (data (fst (recycle body now c))).
Proof.
  intros H. unfold recycle.
  destruct (parsePositiveInt (b_ticketId body) "ticketId"); [exact H|].
  destruct (parsePositiveInt (b_counterId body) "counterId"); [exact H|].
  destruct (parsePositiveInt (b_agentId body) "agentId"); [exact H|].
  destruct (parseOptionalPositiveInt (b_position body) "position" (Some 3));
    [exact H|].
  apply withTransaction_keeps; [|exact H].
  intros s Hs. unfold recycle_work, bind, query.
  destruct (assigned_ticket _ _ _ s) as [row|]; [|exact Hs].
  unfold throw_if.
  destruct (negb (ticket_state_eqb (t_state (fst row)) called)); [exact Hs|].
  simpl. apply sound_update_counter.
  apply sound_update_ticket; try stable_columns; exact Hs.
Qed.

Lemma transfer_sound body now c :
  sound_store (data c) -> sound_store (data (fst (transfer body now c))).
Proof.
  intros H. unfold transfer.
  destruct (parsePositiveInt (b_ticketId body) "ticketId"); [exact H|].
  destruct (parsePositiveInt (b_targetServiceId body) "targetServiceId")
    as [|target] eqn:Etarget; [exact H|].
  destruct (parsePositiveInt (b_counterId body) "counterId"); [exact H|].
  destruct (parsePositiveInt (b_agentId body) "agentId"); [exact H|].
  apply withTransaction_keeps; [|exact H].
  intros s Hs. unfold transfer_work, bind, query.
  destruct (called_ticket _ _ _ s) as [row|] eqn:Erow; [|exact Hs].
  destruct (active_service target s) as [tsv|] eqn:Et; [|exact Hs].
  unfold throw_if.
  destruct (s_id tsv =? service_id (fst row)); [exact Hs|].
  simpl. apply sound_delete.
  apply (sound_update_counter release_counter).
  assert (Hpos : 0 < target).
  { unfold parsePositiveInt in Etarget.
    destruct (b_targetServiceId body) as [v|]; [|discriminate].
    destruct (v <=? 0) eqn:E; [discriminate|].
    injection Etarget as <-. lia. }
  assert (Hold : 0 < service_id (fst row)).
  { unfold called_ticket in Erow. apply find_some in Erow.
    destruct Erow as [Hin _]. apply join_row_ticket in Hin.
    destruct Hin as [Hin _]. destruct Hs as [_ Hw].
    unfold well_formed_rows in Hw. rewrite Forall_forall in Hw.
    now apply Hw. }
  apply sound_insert; [reflexivity | | | exact Hs].
  - intros i. exists tsv. apply active_service_In in Et.
    destruct Et as (Hin & Hid & _). simpl. auto.
  - intros i. split; [apply transferred_row_intake; lia | exact Hpos].
Qed.

Lemma create_ticket_sound payload now c :
  0 < p_serviceId payload ->
  p_customerName payload <> Some "" ->
  p_customerPhone payload <> Some "" ->
  p_customerEmail payload <> Some "" ->
  sound_store (data c) ->
  sound_store (data (fst (create_ticket payload now c))).
Proof.
  intros Hpos H1 H2 H3 H. unfold create_ticket.
  apply withTransaction_keeps; [|exact H].
  intros s Hs. unfold create_ticket_work, bind, query.
  destruct (active_service (p_serviceId payload) s) as [sv|] eqn:Es;
    [|exact Hs].
  unfold throw_if.
  destruct (range_exhausted sv (nextNumber_of sv)); [exact Hs|].
  set (s1 := set_current_number (p_serviceId payload) (nextNumber_of sv) s).
  set (row := kiosk_row payload
                (format_ticket_number (prefix sv) (nextNumber_of sv))
                (Z.max 0 (or_else (estimated_service_time sv) 300
                          * (nextNumber_of sv - 1))) now).
  change (sound_store (fst (insert_ticket row s1))).
  apply sound_insert; [reflexivity | | |
    now apply sound_set_current_number].
  - intros i. apply active_service_In in Es. destruct Es as (Hin & Hid & _).
    unfold s1, set_current_number. cbn [services].
    eexists. split; [apply in_map; exact Hin|].
    simpl. destruct (s_id sv =? p_serviceId payload); exact Hid.
  - intros i. split; [now apply kiosk_row_intake | exact Hpos].
Qed.

Lemma post_tickets_sound body now c :
  sound_store (data c) ->
  sound_store (data (fst (post_tickets body now c))).
Proof.
  intros H. unfold post_tickets.
  destruct (validateTicketPayload body) as [errors|payload] eqn:E;
    [exact H|].
  apply validateTicketPayload_inr in E.
  destruct E as (serviceId & priority & _ & _ & E1 & _ & _ & ->).
  simpl in E1.
  apply create_ticket_sound; cbn [p_serviceId p_customerName
    p_customerPhone p_customerEmail]; try exact H; try lia;
    eapply sanitized_not_empty, sanitizeString_sanitized.
  - unfold MAX_NAME_LENGTH; lia.
  - unfold MAX_PHONE_LENGTH; lia.
  - unfold MAX_EMAIL_LENGTH; lia.
Qed.

Lemma preset_loop_sound (args : preset_args) (sv : service) (ew now : Z)
    (indices : list Z) :
  0 < pa_serviceId args ->
  forall (acc : list inserted_ticket * list string) (s : store),
    (exists sv', In sv' (services s) /\ s_id sv' = pa_serviceId args) ->
    sound_store s ->
    sound_store (fst (preset_loop args sv ew now indices acc s)).
Proof.
  intros Hpos. induction indices as [|i rest IH]; intros acc s Hsv Hs.
  - exact Hs.
  - cbn [preset_loop]. unfold bind at 1. unfold preset_step.
    unfold bind at 1. unfold query at 1.
    destruct (ticket_number_taken _ _ s).
    + unfold ret at 1. now apply IH.
    + unfold bind at 1. unfold run_insert at 1.
      match goal with
      | |- context [insert_ticket ?row s] =>
          pose proof (sound_insert row s) as Hins;
          destruct (insert_ticket row s) as [s1 lastID] eqn:E
      end.
      unfold ret at 1. apply IH.
      * unfold insert_ticket in E. injection E as <- _. exact Hsv.
      * cbn [fst] in Hins. apply Hins; [reflexivity | | | exact Hs].
        -- intros j. exact Hsv.
        -- intros j. split; [apply preset_row_intake | exact Hpos].
Qed.

Lemma preset_work_sound (args : preset_args) (now : Z) (s : store) :
  0 < pa_serviceId args ->
  sound_store s -> sound_store (fst (preset_work args now s)).
Proof.
  intros Hpos Hs.
  destruct (active_service (pa_serviceId args) s) as [sv|] eqn:Es.
  - set (ew := count_state (pa_serviceId args) waiting s
               + count_state (pa_serviceId args) recycled s
               + count_state (pa_serviceId args) called s).
    destruct (preset_loop_run args sv ew now (loop_indices (pa_count args))
                ([], []) s) as (s1 & ins & sk & new & Hrun & _).
    rewrite (preset_work_run args now s s1 sv _ Es Hrun). cbn [fst].
    apply sound_set_current_number.
    pose proof (preset_loop_sound args sv ew now
                  (loop_indices (pa_count args)) Hpos ([], []) s) as Hloop.
    rewrite Hrun in Hloop. apply Hloop; [|exact Hs].
    exists sv. apply active_service_In in Es.
    destruct Es as (Hin & Hid & _). auto.
  - unfold preset_work. unfold bind at 1. unfold query at 1.
    rewrite Es. exact Hs.
Qed.

Lemma presetServiceQueue_sound args now p :
  sound_store (data (db p)) ->
  sound_store (data (db (fst (presetServiceQueue args now p)))).
Proof.
  intros H. unfold presetServiceQueue.
  destruct (preset_check args) eqn:Echeck; [exact H|].
  apply preset_check_none in Echeck. destruct Echeck as (Hpos & _).
  pose proof (withTransaction_keeps sound_store (preset_work args now) None
                (db p)) as Hkeep.
  destruct (withTransaction (preset_work args now) None (db p))
    as [c' [e|r]]; cbn [fst db] in *; apply Hkeep; try exact H;
    intros s Hs; now apply preset_work_sound.
Qed.

Lemma performSystemReset_sound reason silent now p :
  sound_store (data (db p)) ->
  sound_store (data (db (fst (performSystemReset reason silent now p)))).
Proof.
  intros H. unfold performSystemReset.
  destruct (resetInProgress (reset_state p)); [exact H|]. cbv zeta.
  pose proof (withTransaction_keeps sound_store reset_work None (db p))
    as Hkeep.
  destruct (withTransaction reset_work None (db p)) as [c' [e|r]];
    cbn [fst db] in *; apply Hkeep; try exact H.
  all: intros s _; unfold reset_work, bind, query, run, ret; simpl;
    split; [split; [constructor | intros t []] | constructor].
Qed.

(** X19.  Every request keeps the store sound: ticket ids stay unique,
    every ticket names an existing service by a positive id, no customer
    field holds an empty text and original_service_id is never 0.  This
    holds for the kiosk's ticket creation, call-next, complete, recall,
    no-show, recycle and transfer, for the preset of a queue and for the
    reset, whether the request is answered with a result or an error. *)
Theorem every_request_keeps_the_store_sound :
  forall (now : Z),
    (forall c, sound_store (data c) ->
       (forall body, sound_store (data (fst (post_tickets body now c))))
       /\ (forall body, sound_store (data (fst (call_next body now c))))
       /\ (forall body, sound_store (data (fst (complete body now c))))
       /\ (forall body, sound_store (data (fst (recall body now c))))
       /\ (forall body, sound_store (data (fst (post_no_show body now c))))
       /\ (forall body, sound_store (data (fst (recycle body now c))))
       /\ (forall body, sound_store (data (fst (transfer body now c)))))
    /\ (forall p, sound_store (data (db p)) ->
          (forall args,
             sound_store (data (db (fst (presetServiceQueue args now p)))))
          /\ (forall reason silent,
                sound_store
                  (data (db (fst (performSystemReset reason silent now
                                    p)))))).
Proof.
  intros now. split.
  - intros c H.
    split; [intros; now apply post_tickets_sound|].
    split; [intros; now apply call_next_sound|].
    split; [intros; now apply complete_sound|].
    split; [intros; now apply recall_sound|].
    split; [intros; now apply post_no_show_sound|].
    split; [intros; now apply recycle_sound|].
    intros; now apply transfer_sound.
  - intros p H. split; intros.
    + now apply presetServiceQueue_sound.
    + now apply performSystemReset_sound.
Qed.

Lemma every_request_keeps_the_store_sound_witness :
  sound_store (data Demo.conn0)
  /\ sound_store
       (data (fst (call_next Demo.next_body 5000
                     (fst (post_tickets
                             (mkKioskBody (Some 1) (Some 0) (Some " Ann ")
                                None None) 1000 Demo.conn0))))).
Proof.
  assert (H0 : sound_store (data Demo.conn0)).
  { split; [split; [constructor | intros t []] | constructor]. }
  split; [exact H0|].
  destruct (every_request_keeps_the_store_sound 1000) as [Hc _].
  destruct (Hc Demo.conn0 H0) as [Hpost _].
  destruct (every_request_keeps_the_store_sound 5000) as [Hc' _].
  destruct (Hc' _ (Hpost (mkKioskBody (Some 1) (Some 0) (Some " Ann ")
                           None None))) as (_ & Hcall & _).
  apply Hcall.
Defined.
(** ** parseTimeToMinutes *)

Lemma digit_facts (c : ascii) :
  is_digit c = true ->
  is_space c = false /\ Ascii.eqb c "-" = false /\ Ascii.eqb c "+" = false
  /\ Ascii.eqb c ":" = false /\ 0 <= digit_value c <= 9.
Proof.
  destruct c as [[] [] [] [] [] [] [] []]; intros H; try discriminate H;
    repeat split; try reflexivity; unfold digit_value; simpl; lia.
Qed.

Lemma range_facts (c : ascii) :
  (char_range "0" "1" c = true -> is_digit c = true /\ digit_value c <= 1)
  /\ (char_range "0" "3" c = true -> is_digit c = true /\ digit_value c <= 3)
  /\ (char_range "0" "5" c = true -> is_digit c = true /\ digit_value c <= 5).
Proof.
  destruct c as [[] [] [] [] [] [] [] []];
    repeat split; try discriminate; try reflexivity;
    unfold digit_value; simpl; lia.
Qed.

Lemma denotes_class_inv (p : ascii -> bool) (s : string) :
  denotes (Class p) s -> exists c, s = String c "" /\ p c = true.
Proof. intros H. inversion H; subst. eauto. Qed.

Lemma denotes_alt_inv (a b : regex) (s : string) :
  denotes (Alt a b) s -> denotes a s \/ denotes b s.
Proof. intros H. inversion H; subst; auto. Qed.

(** The texts [TIME_REGEX] accepts: one or two digits of hours, a colon
    and two digits of minutes. *)
Lemma time_accepted (t : string) :
  regex_test TIME_REGEX t = true ->
  exists (hours : string) (m1 m2 : ascii),
    t = (hours ++ String ":" (String m1 (String m2 "")))%string
    /\ char_range "0" "5" m1 = true /\ is_digit m2 = true
    /\ ((exists d, hours = String d "" /\ is_digit d = true)
        \/ (exists a d, hours = String a (String d "")
                        /\ char_range "0" "1" a = true /\ is_digit d = true)
        \/ (exists b, hours = String "2" (String b "")
                      /\ char_range "0" "3" b = true)).
Proof.
  intros H. apply regex_test_denotes in H. unfold TIME_REGEX in H.
  apply denotes_seq_inv in H. destruct H as (hours & r1 & -> & Hh & H).
  apply denotes_seq_inv in H. destruct H as (colon & r2 & -> & Hc & H).
  apply denotes_seq_inv in H. destruct H as (x1 & x2 & -> & H1 & H2).
  apply denotes_lit in Hc. subst colon.
  apply denotes_class_inv in H1, H2.
  destruct H1 as (m1 & -> & Hm1). destruct H2 as (m2 & -> & Hm2).
  exists hours, m1, m2. split; [reflexivity|].
  split; [exact Hm1|]. split; [exact Hm2|].
  apply denotes_alt_inv in Hh. destruct Hh as [Hh|Hh].
  - apply denotes_seq_inv in Hh. destruct Hh as (o & dd & -> & Ho & Hd).
    apply denotes_class_inv in Hd. destruct Hd as (d & -> & Hd).
    apply denotes_alt_inv in Ho. destruct Ho as [Ho|Ho].
    + apply denotes_class_inv in Ho. destruct Ho as (a & -> & Ha).
      right. left. exists a, d. auto.
    + inversion Ho; subst. left. exists d. auto.
  - apply denotes_seq_inv in Hh. destruct Hh as (two & bb & -> & Htwo & Hb).
    apply denotes_lit in Htwo. subst two.
    apply denotes_class_inv in Hb. destruct Hb as (b & -> & Hb).
    right. right. exists b. auto.
Qed.

Lemma parseInt10_one (d : ascii) :
  is_digit d = true -> parseInt10 (String d "") = Some (digit_value d).
Proof.
  intros Hd. destruct (digit_facts d Hd) as (Hs & Hm & Hp & _).
  unfold parseInt10. cbn [trimStart]. rewrite Hs, Hm, Hp.
  cbn [digits_prefix]. rewrite Hd. cbn [digits_value]. rewrite Hd.
  f_equal.
Qed.

Lemma parseInt10_two (a d : ascii) :
  is_digit a = true -> is_digit d = true ->
  parseInt10 (String a (String d ""))
  = Some (digit_value a * 10 + digit_value d).
Proof.
  intros Ha Hd. destruct (digit_facts a Ha) as (Hs & Hm & Hp & _).
  unfold parseInt10. cbn [trimStart]. rewrite Hs, Hm, Hp.
  cbn [digits_prefix]. rewrite Ha. cbn [digits_value]. rewrite Ha, Hd.
  f_equal.
Qed.

Lemma colon_split (hours rest : string) :
  all_chars is_digit hours = true ->
  before_colon (hours ++ String ":" rest) = hours
  /\ after_colon (hours ++ String ":" rest) = rest.
Proof.
  induction hours as [|c hours IH]; simpl; intros H; [auto|].
  apply andb_true_iff in H. destruct H as [Hc Hrest].
  destruct (digit_facts c Hc) as (_ & _ & _ & Hcolon & _).
  rewrite Hcolon. destruct (IH Hrest) as [-> ->]. auto.
Qed.

Lemma parseTimeToMinutes_total (v : option string) :
  exists m, parseTimeToMinutes v = Some m /\ 0 <= m <= 1439.
Proof.
  destruct v as [s|]; [|exists 0; split; [reflexivity | lia]].
  unfold parseTimeToMinutes. cbv zeta.
  destruct (regex_test TIME_REGEX (trim s)) eqn:E;
    [|exists 0; split; [reflexivity | lia]].
  apply time_accepted in E.
  destruct E as (hours & m1 & m2 & -> & Hm1 & Hm2 & Hhours).
  apply (proj2 (proj2 (range_facts m1))) in Hm1. destruct Hm1 as [Hd1 Hv1].
  destruct (digit_facts m1 Hd1) as (_ & _ & _ & _ & Hr1).
  destruct (digit_facts m2 Hm2) as (_ & _ & _ & _ & Hr2).
  assert (Hdigits : all_chars is_digit hours = true
                    /\ exists h, parseInt10 hours = Some h /\ 0 <= h <= 23).
  { destruct Hhours as [(d & -> & Hd) | [(a & d & -> & Ha & Hd)
                                         | (b & -> & Hb)]].
    - destruct (digit_facts d Hd) as (_ & _ & _ & _ & Hr).
      split; [simpl; now rewrite Hd|].
      exists (digit_value d). split; [now apply parseInt10_one | lia].
    - apply (proj1 (range_facts a)) in Ha. destruct Ha as [Ha Hva].
      destruct (digit_facts a Ha) as (_ & _ & _ & _ & Hra).
      destruct (digit_facts d Hd) as (_ & _ & _ & _ & Hr).
      split; [simpl; now rewrite Ha, Hd|].
      exists (digit_value a * 10 + digit_value d).
      split; [now apply parseInt10_two | lia].
    - apply (proj1 (proj2 (range_facts b))) in Hb. destruct Hb as [Hb Hvb].
      destruct (digit_facts b Hb) as (_ & _ & _ & _ & Hr).
      split; [simpl; now rewrite Hb|].
      exists (2 * 10 + digit_value b).
      split; [now apply (parseInt10_two "2" b) | lia]. }
  destruct Hdigits as (Hall & h & Hh & Hrange).
  destruct (colon_split hours (String m1 (String m2 "")) Hall) as [-> ->].
  rewrite Hh, (parseInt10_two m1 m2 Hd1 Hm2).
  eexists. split; [reflexivity | lia].
Qed.

Lemma parseTimeToMinutes_clock_text (h m : nat) :
  (h < 24)%nat -> (m < 60)%nat ->
  parseTimeToMinutes (Some (clock_text (Z.of_nat h) (Z.of_nat m)))
  = Some (Z.of_nat h * 60 + Z.of_nat m).
Proof.
  intros Hh Hm.
  assert (Hall :
    forallb (fun h =>
      forallb (fun m =>
        match parseTimeToMinutes
                (Some (clock_text (Z.of_nat h) (Z.of_nat m))) with
        | Some v => v =? Z.of_nat h * 60 + Z.of_nat m
        | None => false
        end) (seq 0 60)) (seq 0 24) = true) by (vm_compute; reflexivity).
  rewrite forallb_forall in Hall.
  specialize (Hall h ltac:(apply in_seq; lia)).
  rewrite forallb_forall in Hall.
  specialize (Hall m ltac:(apply in_seq; lia)).
  destruct (parseTimeToMinutes _) as [v|]; [|discriminate].
  apply Z.eqb_eq in Hall. now subst.
Qed.

(** X20.  [parseTimeToMinutes] always returns a whole number of minutes
    from 0 to 1439, never NaN, whatever it is given; and the time of day
    HH:MM written with two digits each, for an hour below 24 and a
    minute below 60, is read as 60 * HH + MM. *)
Theorem parseTimeToMinutes_range :
  (forall v, exists m, parseTimeToMinutes v = Some m /\ 0 <= m <= 1439)
  /\ (forall h m, 0 <= h < 24 -> 0 <= m < 60 ->
        parseTimeToMinutes (Some (clock_text h m)) = Some (h * 60 + m)).
Proof.
  split; [exact parseTimeToMinutes_total|].
  intros h m Hh Hm.
  rewrite <- (Z2Nat.id h), <- (Z2Nat.id m) by lia.
  apply parseTimeToMinutes_clock_text; lia.
Qed.

Lemma parseTimeToMinutes_range_witness :
  parseTimeToMinutes (Some "06:30") = Some 390.
Proof.
  exact (proj2 parseTimeToMinutes_range 6 30 ltac:(lia) ltac:(lia)).
Defined.

(** ** The scheduled reset *)

Lemma commits_committed (c : conn) (d : store) (m : option string) :
  commits (mkConn d None (log c ++ [BEGIN m; COMMIT])) = S (commits c).
Proof.
  unfold commits. cbn [log]. rewrite filter_app, length_app. simpl. lia.
Qed.

Lemma same_day_true (last : option Z) (d : Z) :
  same_day last d = true <-> last = Some d.
Proof.
  unfold same_day. destruct last as [x|]; [|split; discriminate].
  rewrite Z.eqb_eq. split; congruence.
Qed.

(** With the guard clear a reset either commits, on an idle connection,
    or is refused at BEGIN, on a busy one. *)
Lemma performSystemReset_cases (reason : string) (silent : bool) (now : Z)
    (p : process) :
  resetInProgress (reset_state p) = false ->
  (idle (db p)
   /\ exists summary p',
        performSystemReset reason silent now p
        = (p', inr (ResetDone summary now reason))
        /\ tickets (data (db p')) = []
        /\ commits (db p') = S (commits (db p))
        /\ resetInProgress (reset_state p') = false)
  \/ (~ idle (db p)
      /\ exists e p',
           performSystemReset reason silent now p = (p', inl e)
           /\ db p' = db p
           /\ resetInProgress (reset_state p') = false).
Proof.
  intros Hguard. unfold performSystemReset. rewrite Hguard. cbv zeta.
  destruct (snapshot (db p)) as [s0|] eqn:Hs.
  - right. split; [unfold idle; congruence|].
    rewrite (withTransaction_busy reset_work None (db p) s0 Hs).
    eexists. eexists. split; [reflexivity|]. cbn [db reset_state].
    split; reflexivity.
  - left. split; [exact Hs|].
    rewrite (withTransaction_return reset_work None (db p) _ _ Hs
               (reset_work_run (data (db p)))).
    eexists. eexists. split; [reflexivity|].
    cbn [db reset_state data tickets resetInProgress].
    split; [reflexivity|]. split; [apply commits_committed | reflexivity].
Qed.

(** The three ways a tick can go. *)
Lemma tick_cases (clk : wall_clock) (sch : scheduler) (p : process) :
  maybeRunScheduledReset clk sch p = ((sch, p), inr tt)
  \/ (sc_enabled (schedulerConfig sch) = true
      /\ resetInProgress (reset_state p) = false
      /\ before_reset_time (local_minutes clk)
           (sc_minutes (schedulerConfig sch)) = false
      /\ same_day (lastResetDayKey sch) (utc_day clk) = false
      /\ ((idle (db p)
           /\ exists p',
                maybeRunScheduledReset clk sch p
                = ((mkScheduler (schedulerConfig sch) (Some (utc_day clk)),
                    p'), inr tt)
                /\ tickets (data (db p')) = []
                /\ commits (db p') = S (commits (db p))
                /\ resetInProgress (reset_state p') = false)
          \/ (~ idle (db p)
              /\ exists e p',
                   maybeRunScheduledReset clk sch p = ((sch, p'), inl e)
                   /\ db p' = db p
                   /\ resetInProgress (reset_state p') = false))).
Proof.
  unfold maybeRunScheduledReset. cbv zeta.
  destruct (sc_enabled (schedulerConfig sch)) eqn:Een; [|now left].
  destruct (resetInProgress (reset_state p)) eqn:Eguard; [now left|].
  cbn [negb orb].
  destruct (before_reset_time _ _) eqn:Etime; [now left|].
  destruct (same_day _ _) eqn:Eday; [now left|].
  right. repeat (split; [reflexivity|]).
  destruct (performSystemReset_cases "scheduled" false (clock_ms clk) p Eguard)
    as [(Hidle & summary & p' & -> & Ht & Hc & Hg)
       | (Hbusy & e & p' & -> & Hdb & Hg)].
  - left. split; [exact Hidle|]. exists p'. auto.
  - right. split; [exact Hbusy|]. exists e, p'. auto.
Qed.

Lemma run_ticks_done (clocks : list wall_clock) (st : scheduler * process)
    (d : Z) :
  (forall clk, In clk clocks -> utc_day clk = d) ->
  lastResetDayKey (fst st) = Some d ->
  run_ticks clocks st = st.
Proof.
  revert st. induction clocks as [|clk rest IH]; intros [sch p] Hday Hlast;
    [reflexivity|].
  unfold run_ticks. cbn [fold_left]. fold (run_ticks rest).
  assert (Htick : tick (sch, p) clk = (sch, p)).
  { unfold tick. cbn [fst snd].
    destruct (tick_cases clk sch p) as [-> | (_ & _ & _ & Hsame & _)];
      [reflexivity|].
    cbn [fst] in Hlast. rewrite (Hday clk (or_introl eq_refl)) in Hsame.
    apply same_day_true in Hlast. congruence. }
  rewrite Htick. apply IH; [|exact Hlast].
  intros c Hc. apply Hday. now right.
Qed.

(** X21.  Over any run of timer ticks that fall on one UTC day, the
    scheduler commits at most one reset; once a reset of that day is
    recorded the remaining ticks change nothing at all; and the ticks
    never alter the schedule itself. *)
Theorem scheduled_reset_once_a_day :
  forall (clocks : list wall_clock) (st : scheduler * process) (d : Z),
    (forall clk, In clk clocks -> utc_day clk = d) ->
    (commits (db (snd (run_ticks clocks st))) <= commits (db (snd st)) + 1)%nat
    /\ (lastResetDayKey (fst st) = Some d -> run_ticks clocks st = st)
    /\ schedulerConfig (fst (run_ticks clocks st))
       = schedulerConfig (fst st).
Proof.
  intros clocks st d Hday.
  split; [|split; [now apply run_ticks_done|]].
  - revert st. induction clocks as [|clk rest IH]; intros [sch p];
      [simpl; lia|].
    unfold run_ticks. cbn [fold_left]. fold (run_ticks rest).
    assert (Hrest : forall c, In c rest -> utc_day c = d)
      by (intros c Hc; apply Hday; now right).
    unfold tick. cbn [fst snd].
    destruct (tick_cases clk sch p)
      as [-> | (_ & _ & _ & _ & [(_ & p' & -> & _ & Hc & _)
                                 | (_ & e & p' & -> & Hdb & _)])];
      cbn [fst snd].
    + now apply IH.
    + rewrite (run_ticks_done rest _ d Hrest).
      * cbn [snd]. lia.
      * cbn [fst lastResetDayKey]. f_equal.
        apply Hday. now left.
    + specialize (IH Hrest (sch, p')). cbn [snd] in IH.
      rewrite Hdb in IH. exact IH.
  - revert st. induction clocks as [|clk rest IH]; intros [sch p];
      [reflexivity|].
    unfold run_ticks. cbn [fold_left]. fold (run_ticks rest).
    assert (Hrest : forall c, In c rest -> utc_day c = d)
      by (intros c Hc; apply Hday; now right).
    rewrite (IH Hrest). unfold tick. cbn [fst snd].
    destruct (tick_cases clk sch p)
      as [-> | (_ & _ & _ & _ & [(_ & p' & -> & _)
                                 | (_ & e & p' & -> & _)])];
      reflexivity.
Qed.

Lemma scheduled_reset_once_a_day_witness :
  (commits
     (db (snd (run_ticks
                 [mkClock 86400000 390 1; mkClock 86460000 391 1;
                  mkClock 86520000 392 1]
                 (mkScheduler (updateSchedulerConfig "06:30" true) None,
                  Demo.process2))))
   <= commits (db Demo.process2) + 1)%nat.
Proof.
  refine (proj1 (scheduled_reset_once_a_day
                   [mkClock 86400000 390 1; mkClock 86460000 391 1;
                    mkClock 86520000 392 1]
                   (mkScheduler (updateSchedulerConfig "06:30" true) None,
                    Demo.process2) 1 _)).
  intros clk [<-|[<-|[<-|[]]]]; reflexivity.
Defined.

(** X22.  A tick of the scheduler changes something only when the
    schedule is enabled, no reset is in progress, the local time of day
    has reached the configured minute and no reset is recorded for the
    current UTC day.  Under these conditions, on an idle connection, it
    empties the ticket table, records the day and leaves the guard
    clear; when the reset fails instead, the recorded day and the data
    are as before and the guard is clear, so the next tick tries
    again. *)
Theorem scheduled_reset_conditions :
  forall (clk : wall_clock) (sch : scheduler) (p : process),
    let due :=
      sc_enabled (schedulerConfig sch) = true
      /\ resetInProgress (reset_state p) = false
      /\ before_reset_time (local_minutes clk)
           (sc_minutes (schedulerConfig sch)) = false
      /\ lastResetDayKey sch <> Some (utc_day clk) in
    (tick (sch, p) clk <> (sch, p) -> due)
    /\ (due -> idle (db p) ->
        snd (maybeRunScheduledReset clk sch p) = inr tt
        /\ tickets (data (db (snd (tick (sch, p) clk)))) = []
        /\ lastResetDayKey (fst (tick (sch, p) clk)) = Some (utc_day clk)
        /\ resetInProgress (reset_state (snd (tick (sch, p) clk))) = false)
    /\ (forall e, snd (maybeRunScheduledReset clk sch p) = inl e ->
          due
          /\ fst (tick (sch, p) clk) = sch
          /\ db (snd (tick (sch, p) clk)) = db p
          /\ resetInProgress (reset_state (snd (tick (sch, p) clk)))
             = false).
Proof.
  intros clk sch p due. unfold tick. cbn [fst snd].
  assert (Hdue : sc_enabled (schedulerConfig sch) = true ->
                 resetInProgress (reset_state p) = false ->
                 before_reset_time (local_minutes clk)
                   (sc_minutes (schedulerConfig sch)) = false ->
                 same_day (lastResetDayKey sch) (utc_day clk) = false ->
                 due).
  { intros H1 H2 H3 H4. unfold due. repeat (split; [assumption|]).
    intros Hlast. apply same_day_true in Hlast. congruence. }
  split; [|split].
  - destruct (tick_cases clk sch p)
      as [Hn | (H1 & H2 & H3 & H4 & _)]; [|intros _; now apply Hdue].
    rewrite Hn. cbn [fst]. congruence.
  - intros (D1 & D2 & D3 & D4) Hidle.
    assert (D4' : same_day (lastResetDayKey sch) (utc_day clk) = false).
    { destruct (same_day _ _) eqn:Es; [|reflexivity].
      apply same_day_true in Es. contradiction. }
    unfold maybeRunScheduledReset. cbv zeta.
    rewrite D1, D2, D3, D4'. cbn [negb orb].
    destruct (performSystemReset_cases "scheduled" false (clock_ms clk) p D2)
      as [(_ & summary & p' & -> & Ht & _ & Hg) | (Hbusy & _)];
      [|contradiction].
    cbn [fst snd lastResetDayKey]. auto.
  - intros e He.
    destruct (tick_cases clk sch p)
      as [Hn | (H1 & H2 & H3 & H4 & [(_ & p' & Hr & _)
                                     | (_ & e' & p' & Hr & Hdb & Hg)])].
    + rewrite Hn in He. discriminate.
    + rewrite Hr in He. discriminate.
    + rewrite Hr. cbn [fst snd]. split; [now apply Hdue | auto].
Qed.

Lemma scheduled_reset_conditions_witness :
  tickets
    (data (db (snd (tick (mkScheduler (updateSchedulerConfig "06:30" true)
                            None, Demo.process2)
                      (mkClock 86400000 390 1))))) = []
  /\ lastResetDayKey
       (fst (tick (mkScheduler (updateSchedulerConfig "06:30" true) None,
                   Demo.process2)
               (mkClock 86400000 390 1))) = Some 1.
Proof.
  destruct (scheduled_reset_conditions (mkClock 86400000 390 1)
              (mkScheduler (updateSchedulerConfig "06:30" true) None)
              Demo.process2) as (_ & Hrun & _).
  assert (Hdue : true = true /\ false = false /\ false = false
                 /\ @None Z <> Some 1).
  { repeat split. discriminate. }
  destruct (Hrun Hdue eq_refl) as (_ & Ht & Hd & _).
  split; [exact Ht | exact Hd].
Defined.
(** ** validateServicePayload *)





(** ** The services of an agent *)














(** ** POST /logout *)

Lemma sign_off_rows (aid cid : Z) (l : list counter) :
  filter (fun c => (c_id c =? cid) && col_eqb (current_agent_id c) aid)
    (map (fun c => if (c_id c =? cid) && col_eqb (current_agent_id c) aid
                   then sign_off c else c) l) = [].
Proof.
  induction l as [|k l IH]; simpl; [reflexivity|].
  destruct ((c_id k =? cid) && col_eqb (current_agent_id k) aid) eqn:E.
  - cbn. rewrite andb_false_r. exact IH.
  - rewrite E. exact IH.
Qed.

(** X25.  A logout that is refused changes nothing.  A logout that is
    accepted names a counter at which the agent is logged in; it puts
    every such counter in state [offline] with no agent, leaves every
    other counter, every ticket, service and agent assignment as it was,
    and keeps current_ticket_id of the counter it signs off; a second
    logout of the same agent from the same counter is refused. *)
Theorem logout_effects :
  forall (agentId counterId : option Z) (now later : Z) (s : store),
    (forall e, snd (logout agentId counterId now s) = inl e ->
               fst (logout agentId counterId now s) = s)
    /\ (forall t, snd (logout agentId counterId now s) = inr t ->
          let s' := fst (logout agentId counterId now s) in
          exists aid cid,
            agentId = Some aid /\ counterId = Some cid
            /\ aid <> 0 /\ cid <> 0 /\ t = now
            /\ (exists k, In k (counters s) /\ c_id k = cid
                          /\ current_agent_id k = Some aid)
            /\ counters s'
               = map (fun k => if (c_id k =? cid)
                                  && col_eqb (current_agent_id k) aid
                               then mkCounter (c_id k) offline None
                                      (current_ticket_id k)
                                      (default_service_id k)
                               else k) (counters s)
            /\ map current_ticket_id (counters s')
               = map current_ticket_id (counters s)
            /\ tickets s' = tickets s /\ services s' = services s
            /\ agent_services s' = agent_services s
            /\ logout agentId counterId later s'
               = (s', inl (httpError 400
                             "Agent not logged in to this counter"))).
Proof.
  intros agentId counterId now later s. unfold logout.
  destruct (negb (truthy agentId) || negb (truthy counterId)) eqn:Ereq.
  { split; [reflexivity | discriminate]. }
  cbv zeta.
  destruct (Nat.eqb (List.length (filter _ (counters s))) 0) eqn:Ecount.
  { split; [reflexivity | discriminate]. }
  split; [discriminate|].
  intros t Ht. injection Ht as <-. cbn [fst].
  apply orb_false_iff in Ereq. destruct Ereq as [Ea Ec].
  apply negb_false_iff in Ea, Ec.
  destruct agentId as [aid|]; [|discriminate].
  destruct counterId as [cid|]; [|discriminate].
  cbn [truthy] in Ea, Ec. apply negb_true_iff, Z.eqb_neq in Ea, Ec.
  cbn [nullish] in *.
  exists aid, cid. repeat (split; [reflexivity || assumption|]).
  split.
  { destruct (filter _ (counters s)) as [|k rest] eqn:Ef; [discriminate|].
    assert (Hin : In k (filter (fun c => (c_id c =? cid)
                                         && col_eqb (current_agent_id c) aid)
                          (counters s))) by (rewrite Ef; now left).
    apply filter_In in Hin. destruct Hin as [Hin Hk].
    apply andb_true_iff in Hk. destruct Hk as [Hid Hag].
    apply Z.eqb_eq in Hid. unfold col_eqb in Hag.
    destruct (current_agent_id k) as [x|] eqn:Ex; [|discriminate].
    apply Z.eqb_eq in Hag. subst x. exists k. auto. }
  split; [reflexivity|].
  split.
  { cbn [counters]. rewrite map_map. apply map_ext. intros k.
    now destruct ((c_id k =? cid) && col_eqb (current_agent_id k) aid). }
  split; [reflexivity|]. split; [reflexivity|]. split; [reflexivity|].
  cbn [truthy negb orb counters].
  destruct (aid =? 0) eqn:Ea0; [apply Z.eqb_eq in Ea0; contradiction|].
  destruct (cid =? 0) eqn:Ec0; [apply Z.eqb_eq in Ec0; contradiction|].
  cbn [negb orb]. now rewrite sign_off_rows.
Qed.

Lemma logout_effects_witness :
  exists t,
    snd (logout (Some 7) (Some 3) 9000 (data Demo.conn3)) = inr t
    /\ t = 9000
    /\ map current_ticket_id
         (counters (fst (logout (Some 7) (Some 3) 9000 (data Demo.conn3))))
       = [Some 1].
Proof.
  destruct (logout_effects (Some 7) (Some 3) 9000 9500 (data Demo.conn3))
    as [_ Hok].
  exists 9000. split; [reflexivity|]. split; [reflexivity|].
  destruct (Hok 9000 eq_refl)
    as (aid & cid & _ & _ & _ & _ & _ & _ & _ & Hkept & _).
  rewrite Hkept. reflexivity.
Defined.
(** ** No request writes the state [recycled] *)

Lemma no_recycled_update_ticket (f : ticket -> ticket) (tid : Z) (s : store) :
  (forall t, t_state t <> recycled -> t_state (f t) <> recycled) ->
  no_recycled s -> no_recycled (update_ticket tid f s).
Proof.
  intros Hf H. unfold no_recycled, update_ticket in *. cbn [tickets].
  apply Forall_map. eapply Forall_impl; [|exact H].
  intros t Ht. cbv beta. destruct (t_id t =? tid); auto.
Qed.

Lemma no_recycled_insert (row : Z -> ticket) (s : store) :
  (forall i, t_state (row i) <> recycled) ->
  no_recycled s -> no_recycled (fst (insert_ticket row s)).
Proof.
  intros Hrow H. unfold no_recycled, insert_ticket in *. cbn [fst tickets].
  apply Forall_app. split; [exact H|]. constructor; [apply Hrow|constructor].
Qed.

Lemma no_recycled_delete (tid : Z) (s : store) :
  no_recycled s -> no_recycled (delete_ticket tid s).
Proof.
  intros H. unfold no_recycled, delete_ticket in *. cbn [tickets].
  apply Forall_forall. intros t Hin. apply filter_In in Hin.
  rewrite Forall_forall in H. now apply H.
Qed.

Lemma filter_none {A : Type} (p : A -> bool) (l : list A) :
  (forall x, In x l -> p x = false) -> filter p l = [].
Proof.
  induction l as [|x l IH]; simpl; intros H; [reflexivity|].
  rewrite (H x (or_introl eq_refl)). apply IH. intros y Hy. apply H.
  now right.
Qed.

Ltac other_state :=
  let t := fresh "t" in
  let H := fresh "H" in
  intros t H; first [exact H | discriminate].

Lemma call_next_no_recycled body now c :
  no_recycled (data c) -> no_recycled (data (fst (call_next body now c))).
Proof.
  intros H. unfold call_next.
  destruct (parsePositiveInt (cn_counterId body) "counterId")
    as [|counterId]; [exact H|].
  destruct (parsePositiveInt (cn_agentId body) "agentId")
    as [|agentId]; [exact H|].
  destruct (parseOptionalPositiveInt (cn_serviceId body) "serviceId" None)
    as [|requested]; [exact H|].
  destruct (parseOptionalPositiveInt (cn_ticketId body) "ticketId" None)
    as [|ticketId]; [exact H|].
  apply withTransaction_keeps; [|exact H].
  intros s Hs. unfold call_next_work. unfold bind at 1.
  pose proof (select_ticket_reads counterId agentId requested ticketId s)
    as Hr.
  destruct (select_ticket counterId agentId requested ticketId s)
    as [s0 [e|row]]; simpl in Hr; subst s0; [exact Hs|].
  unfold bind, run, getQueueSnapshot, query, ret. simpl.
  apply (no_recycled_update_ticket (mark_called now counterId agentId));
    [other_state | exact Hs].
Qed.

Lemma complete_no_recycled body now c :
  no_recycled (data c) -> no_recycled (data (fst (complete body now c))).
Proof.
  intros H. unfold complete.
  destruct (parsePositiveInt (b_ticketId body) "ticketId"); [exact H|].
  destruct (parsePositiveInt (b_counterId body) "counterId"); [exact H|].
  destruct (parsePositiveInt (b_agentId body) "agentId"); [exact H|].
  apply withTransaction_keeps; [|exact H].
  intros s Hs. unfold complete_work, bind, query.
  destruct (assigned_ticket _ _ _ s) as [row|]; [|exact Hs].
  unfold throw_if.
  destruct (ticket_state_eqb (t_state (fst row)) completed); [exact Hs|].
  simpl.
  match goal with
  | |- no_recycled (update_counter _ _ (update_ticket _ ?f _)) =>
      apply (no_recycled_update_ticket f); [other_state | exact Hs]
  end.
Qed.

Lemma recall_no_recycled body now c :
  no_recycled (data c) -> no_recycled (data (fst (recall body now c))).
Proof.
  intros H. unfold recall.
  destruct (parsePositiveInt (b_ticketId body) "ticketId"); [exact H|].
  destruct (parsePositiveInt (b_counterId body) "counterId"); [exact H|].
  destruct (parsePositiveInt (b_agentId body) "agentId"); [exact H|].
  apply withTransaction_keeps; [|exact H].
  intros s Hs. unfold recall_work, bind, query.
  destruct (called_ticket _ _ _ s) as [row|]; [|exact Hs].
  simpl. apply (no_recycled_update_ticket (mark_recalled now));
    [other_state | exact Hs].
Qed.

Lemma post_no_show_no_recycled body now c :
  no_recycled (data c) -> no_recycled (data (fst (post_no_show body now c))).
Proof.
  intros H. unfold post_no_show.
  destruct (parsePositiveInt (b_ticketId body) "ticketId"); [exact H|].
  destruct (parsePositiveInt (b_counterId body) "counterId"); [exact H|].
  destruct (parsePositiveInt (b_agentId body) "agentId"); [exact H|].
  apply withTransaction_keeps; [|exact H].
  intros s Hs. unfold no_show_work, bind, query.
  destruct (called_ticket _ _ _ s) as [row|]; [|exact Hs].
  simpl.
  match goal with
  | |- no_recycled (update_counter _ _ (update_ticket _ ?f _)) =>
      apply (no_recycled_update_ticket f); [other_state | exact Hs]
  end.
Qed.

Lemma recycle_no_recycled body now c :
  no_recycled (data c) -> no_recycled (data (fst (recycle body now c))).
Proof.
  intros H. unfold recycle.
  destruct (parsePositiveInt (b_ticketId body) "ticketId"); [exact H|].
  destruct (parsePositiveInt (b_counterId body) "counterId"); [exact H|].
  destruct (parsePositiveInt (b_agentId body) "agentId"); [exact H|].
  destruct (parseOptionalPositiveInt (b_position body) "position" (Some 3));
    [exact H|].
  apply withTransaction_keeps; [|exact H].
  intros s Hs. unfold recycle_work, bind, query.
  destruct (assigned_ticket _ _ _ s) as [row|]; [|exact Hs].
  unfold throw_if.
  destruct (negb (ticket_state_eqb (t_state (fst row)) called)); [exact Hs|].
  simpl.
  match goal with
  | |- no_recycled (update_counter _ _ (update_ticket _ ?f _)) =>
      apply (no_recycled_update_ticket f); [other_state | exact Hs]
  end.
Qed.

Lemma transfer_no_recycled body now c :
  no_recycled (data c) -> no_recycled (data (fst (transfer body now c))).
Proof.
  intros H. unfold transfer.
  destruct (parsePositiveInt (b_ticketId body) "ticketId"); [exact H|].
  destruct (parsePositiveInt (b_targetServiceId body) "targetServiceId")
    as [|target]; [exact H|].
  destruct (parsePositiveInt (b_counterId body) "counterId"); [exact H|].
  destruct (parsePositiveInt (b_agentId body) "agentId"); [exact H|].
  apply withTransaction_keeps; [|exact H].
  intros s Hs. unfold transfer_work, bind, query.
  destruct (called_ticket _ _ _ s) as [row|]; [|exact Hs].
  destruct (active_service target s) as [tsv|]; [|exact Hs].
  unfold throw_if.
  destruct (s_id tsv =? service_id (fst row)); [exact Hs|].
  simpl. apply no_recycled_delete.
  match goal with
  | |- no_recycled (update_counter _ _ ?d) => change (no_recycled d)
  end.
  apply (no_recycled_insert (transferred_row (fst row) target now));
    [intros i; discriminate | exact Hs].
Qed.

Lemma post_tickets_no_recycled body now c :
  no_recycled (data c) -> no_recycled (data (fst (post_tickets body now c))).
Proof.
  intros H. unfold post_tickets.
  destruct (validateTicketPayload body) as [errors|payload]; [exact H|].
  unfold create_ticket. apply withTransaction_keeps; [|exact H].
  intros s Hs. unfold create_ticket_work, bind, query.
  destruct (active_service (p_serviceId payload) s) as [sv|]; [|exact Hs].
  unfold throw_if.
  destruct (range_exhausted sv (nextNumber_of sv)); [exact Hs|].
  set (s1 := set_current_number (p_serviceId payload) (nextNumber_of sv) s).
  set (row := kiosk_row payload
                (format_ticket_number (prefix sv) (nextNumber_of sv))
                (Z.max 0 (or_else (estimated_service_time sv) 300
                          * (nextNumber_of sv - 1))) now).
  change (no_recycled (fst (insert_ticket row s1))).
  apply no_recycled_insert; [intros i; discriminate | exact Hs].
Qed.

Lemma presetServiceQueue_no_recycled args now p :
  no_recycled (data (db p)) ->
  no_recycled (data (db (fst (presetServiceQueue args now p)))).
Proof.
  intros H. unfold presetServiceQueue.
  destruct (preset_check args); [exact H|].
  pose proof (withTransaction_keeps no_recycled (preset_work args now) None
                (db p)) as Hkeep.
  assert (Hwork : forall s, no_recycled s ->
                            no_recycled (fst (preset_work args now s))).
  { intros s Hs.
    destruct (active_service (pa_serviceId args) s) as [sv|] eqn:Es.
    - set (ew := count_state (pa_serviceId args) waiting s
                 + count_state (pa_serviceId args) recycled s
                 + count_state (pa_serviceId args) called s).
      destruct (preset_loop_run args sv ew now
                  (loop_indices (pa_count args)) ([], []) s)
        as (s1 & ins & sk & new & Hrun & Ht & _ & _ & _ & _ & _ & _
            & Hmade & _).
      rewrite (preset_work_run args now s s1 sv _ Es Hrun). cbn [fst].
      unfold no_recycled, set_current_number in *. cbn [tickets].
      rewrite Ht. apply Forall_app. split; [exact Hs|].
      eapply Forall_impl; [|exact Hmade].
      intros t (_ & Hst & _). rewrite Hst. discriminate.
    - unfold preset_work. unfold bind at 1. unfold query at 1.
      rewrite Es. exact Hs. }
  destruct (withTransaction (preset_work args now) None (db p))
    as [c' [e|r]]; cbn [fst db] in *; now apply Hkeep.
Qed.

Lemma performSystemReset_no_recycled reason silent now p :
  no_recycled (data (db p)) ->
  no_recycled (data (db (fst (performSystemReset reason silent now p)))).
Proof.
  intros H. unfold performSystemReset.
  destruct (resetInProgress (reset_state p)); [exact H|]. cbv zeta.
  pose proof (withTransaction_keeps no_recycled reset_work None (db p))
    as Hkeep.
  destruct (withTransaction reset_work None (db p)) as [c' [e|r]];
    cbn [fst db] in *; apply Hkeep; try exact H;
    intros s _; constructor.
Qed.

(** X26.  No request ever puts a ticket in state [recycled]: when no
    row is in that state, none is after the kiosk's ticket creation,
    call-next, complete, recall, no-show, recycle, transfer, a preset or
    a reset.  A queue snapshot then lists rows in state [waiting] only,
    never flags an entry as recycled, and its [waiting] figure is the
    number of its entries. *)
Theorem no_request_writes_recycled :
  forall (now : Z),
    (forall c, no_recycled (data c) ->
       (forall body, no_recycled (data (fst (post_tickets body now c))))
       /\ (forall body, no_recycled (data (fst (call_next body now c))))
       /\ (forall body, no_recycled (data (fst (complete body now c))))
       /\ (forall body, no_recycled (data (fst (recall body now c))))
       /\ (forall body, no_recycled (data (fst (post_no_show body now c))))
       /\ (forall body, no_recycled (data (fst (recycle body now c))))
       /\ (forall body, no_recycled (data (fst (transfer body now c)))))
    /\ (forall p, no_recycled (data (db p)) ->
          (forall args,
             no_recycled (data (db (fst (presetServiceQueue args now p)))))
          /\ (forall reason silent,
                no_recycled
                  (data (db (fst (performSystemReset reason silent now
                                    p))))))
    /\ (forall s serviceId, no_recycled s ->
          snap_waiting (build_snapshot serviceId s)
          = Z.of_nat (List.length (snap_tickets (build_snapshot serviceId s)))
          /\ forall q, In q (snap_tickets (build_snapshot serviceId s)) ->
                       q_state q = waiting /\ q_isRecycled q = false).
Proof.
  intros now. split; [|split].
  - intros c H.
    split; [intros; now apply post_tickets_no_recycled|].
    split; [intros; now apply call_next_no_recycled|].
    split; [intros; now apply complete_no_recycled|].
    split; [intros; now apply recall_no_recycled|].
    split; [intros; now apply post_no_show_no_recycled|].
    split; [intros; now apply recycle_no_recycled|].
    intros; now apply transfer_no_recycled.
  - intros p H. split; intros.
    + now apply presetServiceQueue_no_recycled.
    + now apply performSystemReset_no_recycled.
  - intros s serviceId H. unfold no_recycled in H.
    rewrite Forall_forall in H.
    assert (Hrows : forall t, In t (waiting_rows serviceId s) ->
                              t_state t = waiting).
    { intros t Ht. unfold waiting_rows in Ht. apply order_by_In in Ht.
      apply filter_In in Ht. destruct Ht as [Hin Hst].
      apply andb_true_iff in Hst. destruct Hst as [_ Hst].
      pose proof (H t Hin) as Hno.
      destruct (t_state t); try discriminate; [reflexivity | congruence]. }
    split.
    + unfold build_snapshot. cbn [snap_waiting snap_tickets].
      rewrite length_map. unfold waiting_rows. rewrite order_by_length.
      assert (Hzero : count_state serviceId recycled s = 0).
      { unfold count_state.
        rewrite filter_none; [reflexivity|].
        intros t Hin. pose proof (H t Hin) as Hno.
        destruct (t_state t); try (rewrite andb_false_r; reflexivity).
        congruence. }
      rewrite Hzero, Z.add_0_r. unfold count_state. f_equal. f_equal.
      apply filter_ext_in. intros t Hin. pose proof (H t Hin) as Hno.
      destruct (t_state t); try reflexivity. congruence.
    + intros q Hq. unfold build_snapshot in Hq. cbn [snap_tickets] in Hq.
      apply in_map_iff in Hq. destruct Hq as (t & <- & Ht).
      apply Hrows in Ht. unfold snapshot_entry. cbn. now rewrite Ht.
Qed.

Lemma no_request_writes_recycled_witness :
  no_recycled (data Demo.conn0)
  /\ no_recycled
       (data (fst (recycle Demo.ticket1_body 6000 Demo.conn3))).
Proof.
  assert (H0 : no_recycled (data Demo.conn0)) by constructor.
  split; [exact H0|].
  assert (H3 : no_recycled (data Demo.conn3)).
  { repeat constructor; discriminate. }
  destruct (no_request_writes_recycled 6000) as (Hc & _).
  destruct (Hc Demo.conn3 H3) as (_ & _ & _ & _ & _ & Hrecycle & _).
  apply Hrecycle.
Defined.
